(* ===== verification/_CoqProject ===== *)
-Q . S2P
Prelude.v
JsRuntime.v
JsValue.v
Timer.v
Stopwatch.v
Alarm.v
AlarmSpec.v
Calendar.v
AlarmView.v
Orientation.v
Weather.v
WeatherView.v
Dispatcher.v
App.v
