(* ===== verification/Prelude.v ===== *)
(** * A verification library for the orientation clock application

    The program (src/src) is a single-page React application with four
    widgets, each a self-contained interactive state machine driven by
    browser timers and button clicks:

    - [src/src/components/features/Timer.tsx]: a countdown timer
      ([timeLeft], [initialTime], [isRunning], [isFinished]), a 1 s
      decrementing interval, start/pause, reset and +/- one minute.
    - [src/src/components/features/Stopwatch.tsx]: a stopwatch
      ([time], [isRunning], [laps]), a 10 ms incrementing interval,
      start/pause, reset and lap capture.
    - [src/src/components/features/AlarmClock.tsx]: an alarm clock
      ([currentTime], [alarmTime], [isAlarmSet], [alarmTriggered]), a 1 s
      clock interval and a 1 s alarm check comparing the wall clock with the
      "HH:MM" string typed by the user.
    - [src/src/components/features/Weather.tsx]: a weather lookup
      ([weather], [loading], [error], [search], [query]): an effect on
      [query] that requests the searched city, else the device position,
      else Delhi, from a JSON HTTP API, and a search form.
    - [src/src/components/OrientationApp.tsx]: the orientation detector,
      which maps the Screen Orientation API, the window size and the
      device tilt angles to one of four orientations, and the dispatcher
      that mounts exactly one widget per orientation.
    - [src/src/App.tsx]: the router, one route per widget and a
      catch-all.

    ** Layout of the development

    - [Prelude] (this file): the [Component] interface every widget
      implements (an initial state, an enabledness test that says which
      events the rendered UI and the installed intervals can deliver, and
      the handler), its reachability predicate and executable runner
      [exec], the invariant principle [reachable_inv], the [clock] hint
      database, the [clock_scope] notations and the shared integer lemmas.
    - [JsRuntime]: the ECMAScript built-ins the sources call, written
      out: [Math.floor] of a quotient ([Z.div]), the remainder operator
      [%] ([Z.rem], truncated), [Number.prototype.toString] on integers,
      [String.prototype.padStart], [String.prototype.split] on a
      one-character separator and the global [parseInt] (whitespace, sign,
      the 0x prefix, the longest digit prefix, NaN as [None]).
    - [Timer]: module [Timer] models Timer.tsx: its state record, one
      event per interval callback and per rendered button, the handlers
      [tick], [handleStartPause], [handleReset], [adjustTime], the
      derived [getProgress] and [formatTime], and the rendered view
      [renderTimer] (display, progress ring, adjustment label, button
      icon, "Time's Up!").
    - [Stopwatch]: module [Stopwatch] models Stopwatch.tsx likewise, with
      its rendered view [renderStopwatch].
    - [Alarm]: module [Alarm] models AlarmClock.tsx, with the wall clock
      as a millisecond count and the side effects (sound, notification) as
      an output log.
    - [AlarmSpec]: module [AlarmSpec] states the specification's alarm
      state machine (Idle, Armed, Fired; spec section 4.2) as a labelled
      step relation, with the abstraction that reads the phase off the
      alarm's hooks; it is the contract [Alarm]'s handlers are proved to
      implement.
    - [Calendar]: module [Calendar] models the locale formatting both the
      alarm clock ([formatTime], [formatDate], AlarmClock.tsx lines 48-64)
      and the weather widget ([getCurrentDate], Weather.tsx lines
      106-113) call: [toLocaleTimeString] and [toLocaleDateString] in
      en-US with the code's options, through ECMA-262's [Day] and
      [WeekDay] of a local time and the proleptic Gregorian date of a day
      number (the day-of-era arithmetic of the 400-year cycle).  The hour
      cycle [hour12: false] resolves to ([h23] or [h24]) is a parameter,
      since engines have differed on it.
    - [AlarmView]: module [AlarmView] models what AlarmClock.tsx renders
      (lines 66-146): the clock and date texts of [currentTime], the time
      input and both buttons with their [disabled] flags, the status panel.
    - [Orientation]: module [Orientation] models OrientationApp.tsx: the
      two event handlers, the permission request, the transition flag and
      its pending 300 ms timeouts, and the view/background dispatch.
    - [JsValue]: the values [res.json()] yields (JSON values with decimal
      numbers [m * 10^-e]), property access and indexing with V8's
      [TypeError] on [undefined]/[null], an error monad [result] for
      [throw]/[catch], template-literal [ToString], [Number] to string,
      [StringToNumber] and [Math.round].
    - [Weather]: module [Weather] models Weather.tsx.  Its state adds to
      the five hooks the browser's side: whether [navigator.geolocation]
      exists, whether the effect is due, a pending position request and
      the requests in flight.  [fetchWeather] is split at its [await]: the
      synchronous prefix ([fetchWeather]) starts a request, and the event
      [FetchDone] runs the rest ([fetchResolve]) against the response
      (status, status text, body, parsed body), so that requests settle in
      any order.
    - [WeatherView]: module [WeatherView] models what Weather.tsx renders:
      the three screens, [getWeatherIcon] with its [toLowerCase], and the
      snapshot's texts, each JSX child rendered as React renders it (an
      object child throws); a render that throws is an error value.
    - [Dispatcher]: module [Dispatcher] composes the orientation shell of
      OrientationApp.tsx with the widget [renderCurrentView] mounts.  A
      shell event re-renders the child: React keeps the child's state
      while the same component is rendered ([reconcile]) and mounts the
      new view's widget from its initial state otherwise; widget events
      reach the mounted widget only.  The environment (wall clock at
      event-loop time 0, Notification API and permission, Geolocation
      API) is a [Section] context.
    - [App]: module [App] models the route table and the navigation bar
      of App.tsx, with react-router's matching of static paths: letter
      case and trailing slashes ignored, the catch-all last.

    A state of a widget is a Rocq record with the fields of its [useState]
    hooks; a React state update inside a handler becomes a record update;
    an interval installed by a [useEffect] becomes an event that is
    enabled exactly when the effect's condition holds; a button becomes an
    event enabled exactly when it is rendered and not [disabled].  Events
    are atomic, which is what React's event loop guarantees for one
    callback and its batched updates.  Times are integers of milliseconds
    ([Z]); JavaScript numbers are doubles, and every value the widgets
    reach is an integer far below 2^53, so the integer model is exact
    (the bounds theorems state the ranges).

    ** What the theorems show

    - Timer: the reachable states satisfy an invariant (remaining time a
      multiple of 1000 between 0 and the configured time, configured time
      a multiple of 60000 of at least one minute, finished exactly when the
      remaining time is 0 and then not running); every handler on every
      branch; the countdown terminates after exactly [timeLeft/1000]
      ticks and finishes once; the progress fraction stays in [0,100];
      the display round-trips.
    - Stopwatch: elapsed time never decreases between resets; reset
      clears; laps are recorded most recent first and never change
      afterwards; the display round-trips below 100 minutes.
    - Alarm: the check fires exactly at second 0 of the typed minute and
      disarms, so it fires once per arming; it rings only right after a
      firing, whose notification has the panel's text; checks at most
      1000 ms apart across the target second always fire it, and a finding:
      two checks any gap above 1000 ms (and at most a day) apart can
      straddle the target second, and the alarm never fires.
    - AlarmSpec: on runs whose input changes are time-input values, every
      step of the alarm is a stutter or a transition of the specified
      machine, firing only at the target minute's second 0 (a forward
      simulation); a finding: a fired alarm cannot be cancelled, as the
      Cancel button is disabled in that phase.
    - Calendar (lemmas): the conversions between day numbers and civil
      dates are mutual inverses on all integers and all valid dates.
    - AlarmView: the date line is the en-US long date (English weekday
      and month names, day, year) of the valid date of the current day;
      the clock text reads back as the current hour, minute and
      second; at the instant an alarm fires the clock shows its "HH:MM"
      at second 0 under [h23], while under [h24] an alarm in the midnight
      hour rings as the clock shows "24:MM:00" (a finding).
    - Orientation: the fallback and tilt classifications, with the
      finding that they contradict the code's comments on the signs of
      the tilt angles; the reachable views without sensors; the
      transition flag invariant; that the fade always ends; and a finding:
      the timeout of an earlier change cuts the fade of a later one short,
      and every tilt reading restarts the fade.
    - Dispatcher: from any state, a shell event that leaves the mounted
      widget's view and one that comes back to it remount that widget
      from its initial state (an armed alarm is disarmed, a stopwatch
      reset).
    - App: each link of the navigation bar renders its widget; the match
      ignores case and trailing slashes; other paths render NotFound.
    - WeatherView: a well-formed response gives a snapshot of the
      declared [WeatherData] type and its rendered texts; a finding: every
      2xx body whose [weather[0]] lacks [main] and [icon] is stored
      untyped and makes the render throw.
    - Weather: the error texts of an HTTP error and of a malformed body,
      the source priority (query, position, Delhi), the loading invariant
      and that loading can always end; two findings: of two requests in
      flight the one that settles last is shown, whatever query issued
      it, and the error screen, which has no search form, is a dead end.

    Findings of the modelling are general theorems, each with a witness
    that applies it to a concrete run evaluated by [vm_compute]: the
    alarm missing checks further apart than a second, the fade cut short
    and the refade on every tilt reading, the stale weather response, the
    render crash on an untyped snapshot, the weather error screen's dead
    end, the clock reading 24 in the midnight hour and the tilt
    classification against the code's comments.

    ** Fuel and bounds

    [JsValue.number_to_string] strips trailing zeros with [strip_zeros]
    and fuel the number of digits, enough since each step removes one.
    The liveness theorems
    are existential over runs and carry no fuel: the countdown takes
    exactly [timeLeft/1000] ticks, the fade timeouts all run within
    300 ms, and the weather's loading ends after at most the effect, a
    failed position lookup and one settled request.  The calendar's
    day-of-era facts are proved for the whole 400-year cycle: the year
    of era by [lia] on the Euclidean equations of its divisions, the
    month and day of a day of the year by evaluating an executable check
    on all 366 days and all 12 x 31 month-day pairs ([forall_range],
    which splits a range along the binary digits of its length).

    ** Not modelled

    Styling, icons, the particle background, toasts and the pages
    [Index]/[NotFound] (not in the sources) are presentational.  Audio
    playback and system notifications are recorded as output events, not
    executed.  The weather HTTP exchange is modelled at the level of the
    response value (status, body, parsed JSON), not of the network; the
    JSON text parser itself is not modelled (its outcome is part of the
    response); a number is a decimal [m * 10^-e], printed exactly as
    [Number::toString] does for the literals of at most 15 significant
    digits a JSON body holds.
    Time zones and daylight saving are outside the model: the clock is
    a local time already, and [formatDate] gives [None] before year 1,
    which Intl writes with an era.
    React-router's percent-decoding of the pathname and the click
    handling of [<Link>] are not modelled; matching is modelled for the
    static paths the table has.  [toLowerCase] is modelled on ASCII
    letters (the condition texts of the API are ASCII).  In [Dispatcher] the alarm's wall-clock readings
    (the [now] its events carry) are not ordered
    against the shell's event-loop clock; the removal of the shell's
    listeners on unmount is not modelled, as the shell is never
    unmounted. *)

From stdpp Require Export base list decidable strings sets.
From Stdlib Require Export ZArith Lia String Ascii.

Declare Scope clock_scope.
Delimit Scope clock_scope with clock.

Create HintDb clock.

(** ** The component interface *)

(** What a widget promises to its host: an initial state (the values of
    its [useState] initialisers), which events can occur in a state (a
    button that is rendered and enabled, an interval whose effect is
    installed), and the handler of each event. *)
Class Component (S E : Type) := {
  c_init : S;
  c_enabled : S -> E -> bool;
  c_handle : S -> E -> S
}.

Section Reachability.
Context {S E : Type} `{Component S E}.

(** The states the widget can reach from its mount. *)
Inductive reachable : S -> Prop :=
| reach_init : reachable c_init
| reach_step s e :
    reachable s -> c_enabled s e = true -> reachable (c_handle s e).

(** Running a sequence of events; [None] when an event is not
    deliverable in the state it meets. *)
Fixpoint exec (s : S) (es : list E) : option S :=
  match es with
  | [] => Some s
  | e :: es' => if c_enabled s e then exec (c_handle s e) es' else None
  end.

Lemma exec_cons s e es :
  c_enabled s e = true -> exec s (e :: es) = exec (c_handle s e) es.
Proof. intros He. simpl. by rewrite He. Qed.

Lemma exec_app s es1 es2 :
  exec s (es1 ++ es2) = match exec s es1 with
                        | Some s1 => exec s1 es2
                        | None => None
                        end.
Proof.
  revert s. induction es1 as [|e es1 IH]; intros s; simpl; [done|].
  destruct (c_enabled s e); [apply IH | done].
Qed.

Lemma exec_reachable s es s' :
  reachable s -> exec s es = Some s' -> reachable s'.
Proof.
  revert s. induction es as [|e es IH]; intros s Hr Hx; simpl in Hx.
  - by simplify_eq.
  - destruct (c_enabled s e) eqn:He; [|done].
    eapply IH; [by constructor|done].
Qed.

(** A state produced by a run from the initial state is reachable. *)
Lemma reachable_exec es s : exec c_init es = Some s -> reachable s.
Proof. apply exec_reachable. constructor. Qed.

(** The invariant principle: a property of the initial state that every
    deliverable event preserves holds in every reachable state. *)
Lemma reachable_inv (P : S -> Prop) :
  P c_init ->
  (forall s e, P s -> c_enabled s e = true -> P (c_handle s e)) ->
  forall s, reachable s -> P s.
Proof. intros Hi Hs s Hr. induction Hr; eauto. Qed.

(** The same principle along an explicit run. *)
Lemma exec_inv (P : S -> Prop) s es s' :
  (forall s e, P s -> c_enabled s e = true -> P (c_handle s e)) ->
  P s -> exec s es = Some s' -> P s'.
Proof.
  intros Hs. revert s. induction es as [|e es IH]; intros s Hp Hx;
    simpl in Hx; [by simplify_eq|].
  destruct (c_enabled s e) eqn:He; [|done].
  exact (IH _ (Hs s e Hp He) Hx).
Qed.
(** The invariant principle along a run whose events all satisfy [Q]. *)
Lemma exec_inv_on (P : S -> Prop) (Q : E -> Prop) s es s' :
  (forall s e, P s -> Q e -> c_enabled s e = true -> P (c_handle s e)) ->
  Forall Q es -> P s -> exec s es = Some s' -> P s'.
Proof.
  intros Hs HQ. revert s. induction HQ as [|e es He HQ IH]; intros s Hp Hx;
    simpl in Hx; [by simplify_eq|].
  destruct (c_enabled s e) eqn:Hen; [|done].
  exact (IH _ (Hs s e Hp He Hen) Hx).
Qed.

End Reachability.

Notation "s '==[' es ']==>' s'" := (exec s es = Some s')
  (at level 70, es at level 60) : clock_scope.

(** ** Shared integer lemmas *)

Open Scope Z_scope.

(** The decomposition [Math.floor(ms / d)] and [ms % d] that every
    [formatTime] performs. *)
Lemma div_rem_nonneg (a d : Z) :
  0 <= a -> 0 < d -> a = d * (a / d) + Z.rem a d /\ 0 <= Z.rem a d < d.
Proof.
  intros Ha Hd. rewrite Z.rem_mod_nonneg by lia.
  split; [apply Z.div_mod; lia | apply Z.mod_pos_bound; lia].
Qed.

Lemma multiple_sub (a b k : Z) :
  a mod k = 0 -> b mod k = 0 -> (a - b) mod k = 0.
Proof.
  intros Ha Hb. rewrite Zminus_mod, Ha, Hb. reflexivity.
Qed.

Lemma multiple_add (a b k : Z) :
  a mod k = 0 -> b mod k = 0 -> (a + b) mod k = 0.
Proof.
  intros Ha Hb. rewrite Zplus_mod, Ha, Hb. reflexivity.
Qed.

Lemma multiple_max (a b k : Z) :
  a mod k = 0 -> b mod k = 0 -> (Z.max a b) mod k = 0.
Proof. intros Ha Hb. destruct (Z.max_spec a b) as [[_ ->]|[_ ->]]; done. Qed.

Lemma multiple_of_multiple (a k m : Z) :
  0 < k -> 0 < m -> a mod (k * m) = 0 -> a mod k = 0.
Proof.
  intros Hk Hm Ha. apply Z.mod_divide; [lia|].
  apply Z.mod_divide in Ha; [|lia]. destruct Ha as [q ->].
  exists (q * m). lia.
Qed.

#[export] Hint Resolve multiple_sub multiple_add multiple_max : clock.
#[export] Hint Extern 1 (_ mod _ = 0) => reflexivity : clock.

(** A property of every natural below [n], checked by evaluation. *)
Lemma forallb_seq_spec (f : nat -> bool) (n : nat) :
  forallb f (seq 0 n) = true -> forall k, (k < n)%nat -> f k = true.
Proof.
  intros Hall k Hk. rewrite forallb_forall in Hall. apply Hall.
  apply in_seq. lia.
Qed.

(** The same, for integers in [0, n). *)
Lemma forallb_range_Z (f : Z -> bool) (n : nat) :
  forallb (fun k => f (Z.of_nat k)) (seq 0 n) = true ->
  forall z, 0 <= z < Z.of_nat n -> f z = true.
Proof.
  intros Hall z Hz.
  rewrite <- (Z2Nat.id z) by lia.
  apply (forallb_seq_spec (fun k => f (Z.of_nat k)) n Hall). lia.
Qed.

(** [f] holds on [z, z + p): an executable check that splits the range in
    halves, so that [vm_compute] decides it for ranges of any size. *)
Fixpoint forall_range (f : Z -> bool) (z : Z) (p : positive) : bool :=
  match p with
  | xH => f z
  | xO p' => forall_range f z p' && forall_range f (z + Zpos p') p'
  | xI p' => f z && forall_range f (z + 1) p' && forall_range f (z + 1 + Zpos p') p'
  end.

Lemma forall_range_spec f z p :
  forall_range f z p = true -> forall x, z <= x < z + Zpos p -> f x = true.
Proof.
  revert z. induction p as [p IH|p IH|]; intros z Hall x Hx; simpl in Hall;
    repeat rewrite andb_true_iff in Hall.
  - destruct Hall as [[H0 H1] H2].
    destruct (Z.eq_dec x z) as [->|Hne]; [done|].
    destruct (Z_lt_le_dec x (z + 1 + Zpos p)).
    + apply (IH (z + 1)); [done|lia].
    + apply (IH (z + 1 + Zpos p)); [done|lia].
  - destruct Hall as [H1 H2]. destruct (Z_lt_le_dec x (z + Zpos p)).
    + apply (IH z); [done|lia].
    + apply (IH (z + Zpos p)); [done|lia].
  - by replace x with z by lia.
Qed.

(** ** Tactics *)

(** Discharge or drop hypotheses guarded by a boolean flag once the
    flag is known. *)
Ltac bool_hyps :=
  repeat match goal with
  | H : true = true -> _ |- _ => specialize (H eq_refl)
  | H : false = false -> _ |- _ => specialize (H eq_refl)
  | H : true = false -> _ |- _ => clear H
  | H : false = true -> _ |- _ => clear H
  | H : true = false |- _ => discriminate H
  | H : false = true |- _ => discriminate H
  end.

(** Split the comparisons of [Z] that a handler tests. *)
Ltac split_Z_tests :=
  repeat match goal with
  | |- context [?a <=? ?b] => destruct (Z.leb_spec a b)
  | |- context [?a <? ?b] => destruct (Z.ltb_spec a b)
  | |- context [?a =? ?b] => destruct (Z.eqb_spec a b)
  | H : context [?a <=? ?b] |- _ => destruct (Z.leb_spec a b)
  | H : context [?a <? ?b] |- _ => destruct (Z.ltb_spec a b)
  end.

(** [lia] after turning every [/], [mod], [Z.quot] and [Z.rem] by a
    constant into its Euclidean equations. *)
Ltac zlia := Z.to_euclidean_division_equations; lia.

(** The last element of a non-empty list does not depend on the default. *)
Lemma last_nonempty_default {A} (x : A) (l : list A) (d d' : A) :
  List.last (x :: l) d = List.last (x :: l) d'.
Proof.
  revert x. induction l as [|y l IH]; intros x; [done|].
  change (List.last (y :: l) d = List.last (y :: l) d'). apply IH.
Qed.

(** [String.append] is associative. *)
Lemma string_app_assoc a b c :
  String.append a (String.append b c) = String.append (String.append a b) c.
Proof. induction a as [|x a IH]; [reflexivity|]. exact (f_equal (String x) IH). Qed.
