(* ===== verification/JsRuntime.v ===== *)
(** The ECMAScript built-ins the widgets call, written out as functions on
    [Z] and [string]: the integer printing of [Number.prototype.toString],
    [String.prototype.padStart] with a one-character pad,
    [String.prototype.split] on a one-character separator, and the global
    [parseInt] with NaN as [None].  Characters are Rocq [ascii]; the
    sources only ever pass ASCII text (digits, ':' and the alarm's time
    string) through these functions. *)

From S2P Require Import Prelude.
From Stdlib Require Import DecimalString DecimalNat.

Open Scope Z_scope.

(** ** Number.prototype.toString on integers *)

(** The decimal digits of a natural number, as [String(n)] prints them:
    no leading zero, ["0"] for zero. *)
Definition digits_of_nat (n : nat) : string :=
  NilEmpty.string_of_uint (Nat.to_uint n).

(** [String(z)] for an integer-valued number [z]. *)
Definition js_int_to_string (z : Z) : string :=
  if z <? 0 then String "-"%char (digits_of_nat (Z.to_nat (- z)))
  else digits_of_nat (Z.to_nat z).

(** ** String.prototype.padStart(n, c) *)

Fixpoint repeat_char (k : nat) (c : ascii) : string :=
  match k with
  | O => EmptyString
  | S k' => String c (repeat_char k' c)
  end.

Definition padStart (s : string) (n : nat) (c : ascii) : string :=
  if (String.length s <? n)%nat
  then String.append (repeat_char (n - String.length s) c) s
  else s.

(** The [n.toString().padStart(2, '0')] of every [formatTime]. *)
Definition pad2 (z : Z) : string := padStart (js_int_to_string z) 2 "0"%char.

(** ** String.prototype.split(sep) *)

Fixpoint js_split (sep : ascii) (s : string) : list string :=
  match s with
  | EmptyString => [EmptyString]
  | String c t =>
      if decide (c = sep) then EmptyString :: js_split sep t
      else match js_split sep t with
           | [] => [String c EmptyString]
           | w :: ws => String c w :: ws
           end
  end.

(** ** parseInt(string) with no radix *)

(** The ASCII characters of StrWhiteSpaceChar (and NBSP). *)
Definition is_js_space (c : ascii) : bool :=
  let n := nat_of_ascii c in
  bool_decide (n = 32 \/ (9 <= n <= 13) \/ n = 160)%nat.

Fixpoint trim_start (s : string) : string :=
  match s with
  | String c t => if is_js_space c then trim_start t else s
  | EmptyString => EmptyString
  end.

(** The value of a character as a digit of radix up to 36. *)
Definition digit_value (c : ascii) : option Z :=
  let n := Z.of_nat (nat_of_ascii c) in
  if (48 <=? n) && (n <=? 57) then Some (n - 48)
  else if (97 <=? n) && (n <=? 122) then Some (n - 87)
  else if (65 <=? n) && (n <=? 90) then Some (n - 55)
  else None.

(** The longest prefix of radix-[r] digits, as digit values. *)
Fixpoint digits_prefix (r : Z) (s : string) : list Z :=
  match s with
  | String c t =>
      match digit_value c with
      | Some d => if d <? r then d :: digits_prefix r t else []
      | None => []
      end
  | EmptyString => []
  end.

Definition digits_value (r : Z) (ds : list Z) : Z :=
  fold_left (fun acc d => acc * r + d) ds 0.

Definition parseInt (s : string) : option Z :=
  let s1 := trim_start s in
  let '(sign, s2) :=
    match s1 with
    | String "-"%char t => (-1, t)
    | String "+"%char t => (1, t)
    | _ => (1, s1)
    end in
  let '(r, s3) :=
    match s2 with
    | String "0"%char (String x t) =>
        if decide (x = "x"%char \/ x = "X"%char) then (16, t) else (10, s2)
    | _ => (10, s2)
    end in
  match digits_prefix r s3 with
  | [] => None
  | ds => Some (sign * digits_value r ds)
  end.

(** [parseInt(v)] of an array element read by destructuring, where a
    missing element is [undefined] and converts to the string
    ["undefined"]. *)
Definition parseInt_opt (o : option string) : option Z :=
  parseInt (default "undefined"%string o).

(** ** Two-digit fields *)

(** The ASCII digit of [d]. *)
Definition digit_char (d : Z) : ascii := ascii_of_nat (Z.to_nat (48 + d)).

(** Whether [c] does not occur in [s]. *)
Definition lacks_char (c : ascii) (s : string) : bool :=
  forallb (fun x => negb (bool_decide (x = c))) (list_ascii_of_string s).

(** The three facts about [pad2] on [0..99], checked for each value. *)
Definition pad2_ok (z : Z) : bool :=
  bool_decide (pad2 z = String (digit_char (z / 10))
                          (String (digit_char (z mod 10)) EmptyString))
  && bool_decide (parseInt (pad2 z) = Some z)
  && lacks_char ":" (pad2 z) && lacks_char "." (pad2 z).

Lemma pad2_ok_range : forall z, 0 <= z < 100 -> pad2_ok z = true.
Proof. apply (forallb_range_Z pad2_ok 100). vm_compute. reflexivity. Qed.

(** A number below 100 prints as exactly two digits. *)
Lemma pad2_two_digits z :
  0 <= z < 100 ->
  pad2 z = String (digit_char (z / 10)) (String (digit_char (z mod 10)) EmptyString).
Proof.
  intros Hz. pose proof (pad2_ok_range z Hz) as H. unfold pad2_ok in H.
  repeat rewrite andb_true_iff in H. destruct H as [[[H _] _] _].
  by apply bool_decide_eq_true in H.
Qed.

(** [parseInt] reads a two-digit field back. *)
Lemma parseInt_pad2 z : 0 <= z < 100 -> parseInt (pad2 z) = Some z.
Proof.
  intros Hz. pose proof (pad2_ok_range z Hz) as H. unfold pad2_ok in H.
  repeat rewrite andb_true_iff in H. destruct H as [[[_ H] _] _].
  by apply bool_decide_eq_true in H.
Qed.

Lemma pad2_lacks_colon z : 0 <= z < 100 -> lacks_char ":" (pad2 z) = true.
Proof.
  intros Hz. pose proof (pad2_ok_range z Hz) as H. unfold pad2_ok in H.
  repeat rewrite andb_true_iff in H. tauto.
Qed.

Lemma pad2_lacks_dot z : 0 <= z < 100 -> lacks_char "." (pad2 z) = true.
Proof.
  intros Hz. pose proof (pad2_ok_range z Hz) as H. unfold pad2_ok in H.
  repeat rewrite andb_true_iff in H. tauto.
Qed.

Lemma pad2_length z : 0 <= z < 100 -> String.length (pad2 z) = 2%nat.
Proof. intros Hz. by rewrite pad2_two_digits. Qed.

Lemma lacks_char_app c a b :
  lacks_char c (String.append a b) = lacks_char c a && lacks_char c b.
Proof.
  induction a as [|x a IH]; [done|]. unfold lacks_char in *. simpl.
  rewrite IH. by rewrite andb_assoc.
Qed.

Lemma lacks_char_cons c x b :
  lacks_char c (String x b) = negb (bool_decide (x = c)) && lacks_char c b.
Proof. reflexivity. Qed.

(** ** split on text with and without the separator *)

Lemma js_split_lacks c s : lacks_char c s = true -> js_split c s = [s].
Proof.
  induction s as [|x s IH]; [done|]. unfold lacks_char. simpl.
  rewrite andb_true_iff. intros [Hx Hs]. rewrite IH by done.
  rewrite decide_False; [done|]. intros ->. by rewrite bool_decide_true in Hx.
Qed.

Lemma js_split_app c a b :
  lacks_char c a = true ->
  js_split c (String.append a (String c b)) = a :: js_split c b.
Proof.
  induction a as [|x a IH]; simpl.
  - intros _. by rewrite decide_True.
  - unfold lacks_char. simpl. rewrite andb_true_iff. intros [Hx Ha].
    rewrite IH by done. rewrite decide_False; [done|].
    intros ->. by rewrite bool_decide_true in Hx.
Qed.

#[export] Hint Resolve pad2_lacks_colon pad2_lacks_dot : clock.
