(* ===== verification/JsValue.v ===== *)
(** JavaScript values as [JSON.parse] produces them and the operations
    the weather widget applies to them: property access (which throws a
    [TypeError] on [undefined] and [null]), array indexing, [ToString] as
    a template literal applies it, and [Math.round].  Numbers are decimal
    literals [m * 10^-e], as the JSON text writes them; printing them
    follows [Number::toString] (plain digits, a fraction, or exponent
    notation by the magnitude), exact for literals of at most 15
    significant digits, whose digits are the shortest of their double.
    [StringToNumber] reads decimal literals with an optional exponent
    part and [0x] literals ([Infinity] gives [None]).  Exceptions are values of an error
    monad of this file.  The file holds the runtime only; the widget's
    theorems are in [Weather] and [WeatherView]. *)

From S2P Require Import Prelude JsRuntime.
From Stdlib Require Import DecimalString DecimalNat.

Open Scope Z_scope.

(** ** Values *)

(** A decimal number [mant * 10^-exp]. *)
Record decimal := mkDec { mant : Z; exp : nat }.

Local Set Warnings "-register-all".

Inductive jsval :=
| JUndefined
| JNull
| JBool (b : bool)
| JNum (d : decimal)
| JStr (s : string)
| JArr (l : list jsval)
| JObj (fields : list (string * jsval)).

(** A thrown [Error]: its constructor name and its [message]. *)
Record jsError := mkError { errName : string; errMessage : string }.

(** ** The error monad *)

Inductive result (A : Type) :=
| Ok (a : A)
| Throw (e : jsError).
Arguments Ok {A} a.
Arguments Throw {A} e.

Declare Scope js_scope.
Delimit Scope js_scope with js.

Definition bind {A B} (r : result A) (k : A -> result B) : result B :=
  match r with
  | Ok a => k a
  | Throw e => Throw e
  end.

Notation "x <- r ;; k" := (bind r (fun x => k))
  (at level 60, r at next level, right associativity) : js_scope.

Open Scope js_scope.

(** ** Property access *)

(** V8's message for reading a property of [undefined] or [null]. *)
Definition readError (what key : string) : jsError :=
  mkError "TypeError"
    (String.append "Cannot read properties of "
      (String.append what (String.append " (reading '" (String.append key "')")))).

(** The property [k] of an object's bindings: the last binding of [k],
    as [JSON.parse] keeps the last of duplicate keys; [undefined] when
    there is none. *)
Fixpoint assoc (k : string) (fs : list (string * jsval)) : jsval :=
  match fs with
  | [] => JUndefined
  | (k', v) :: fs' =>
      if existsb (fun kv => String.eqb k kv.1) fs' then assoc k fs'
      else if String.eqb k k' then v else JUndefined
  end.

(** [v.key] *)
Definition getProp (v : jsval) (key : string) : result jsval :=
  match v with
  | JUndefined => Throw (readError "undefined" key)
  | JNull => Throw (readError "null" key)
  | JObj fs => Ok (assoc key fs)
  | _ => Ok JUndefined
  end.

(** [v[n]] *)
Definition getIndex (v : jsval) (n : nat) : result jsval :=
  match v with
  | JUndefined => Throw (readError "undefined" (digits_of_nat n))
  | JNull => Throw (readError "null" (digits_of_nat n))
  | JArr l => Ok (default JUndefined (l !! n))
  | JStr s => Ok (match String.get n s with Some c => JStr (String c EmptyString) | None => JUndefined end)
  | JObj fs => Ok (assoc (digits_of_nat n) fs)
  | _ => Ok JUndefined
  end.

(** ** Numbers *)

(** The decimal digits of [m > 0], through its binary representation. *)
Definition digitsZ (m : Z) : string :=
  match m with
  | Zpos p => NilEmpty.string_of_uint (Pos.to_uint p)
  | _ => "0"
  end.

(** The integer [m > 0] without its trailing zeros, and how many were
    dropped; [fuel] bounds the digits dropped. *)
Fixpoint strip_zeros (fuel : nat) (m : Z) : Z * nat :=
  match fuel with
  | O => (m, O)
  | S f =>
      if (0 <? m) && (m mod 10 =? 0)
      then let '(m', z) := strip_zeros f (m / 10) in (m', S z)
      else (m, O)
  end.

(** [Number::toString(x)] (ECMA-262 6.1.6.1.20) for the number a decimal
    literal denotes: [x = s * 10^(n-k)] with [s] the [k] digits of the
    mantissa without trailing zeros; the plain digits when
    [k <= n <= 21], a point inside them when [0 < n <= 21], ["0."] and
    zeros when [-6 < n <= 0], else the exponent notation [d.ddde+/-x].
    The digits are those of the literal, which are the shortest digits
    of its double when the literal has at most 15 significant digits,
    as the JSON numbers and coordinates the widget prints have. *)
Definition number_to_string (d : decimal) : string :=
  let m := Z.abs (mant d) in
  if m =? 0 then "0" else
  let '(m', z) := strip_zeros (String.length (digitsZ m)) m in
  let ds := digitsZ m' in
  let k := Z.of_nat (String.length ds) in
  let n := k + Z.of_nat z - Z.of_nat (exp d) in
  let body :=
    if (k <=? n) && (n <=? 21) then String.append ds (repeat_char (Z.to_nat (n - k)) "0"%char)
    else if (0 <? n) && (n <=? 21) then
      String.append (String.substring 0 (Z.to_nat n) ds)
        (String "."%char (String.substring (Z.to_nat n) (Z.to_nat (k - n)) ds))
    else if (-6 <? n) && (n <=? 0) then
      String.append "0." (String.append (repeat_char (Z.to_nat (- n)) "0"%char) ds)
    else
      let e := n - 1 in
      let es := String.append "e" (String.append (if 0 <=? e then "+" else "-")
                                    (js_int_to_string (Z.abs e))) in
      if k =? 1 then String.append ds es
      else String.append (String.substring 0 1 ds)
             (String "."%char (String.append (String.substring 1 (Z.to_nat (k - 1)) ds) es)) in
  if mant d <? 0 then String "-"%char body else body.

(** [Math.round(x)] = [floor(x + 1/2)], halves rounded towards +inf. *)
Definition mathRound (d : decimal) : Z :=
  (2 * mant d + 10 ^ Z.of_nat (exp d)) / (2 * 10 ^ Z.of_nat (exp d)).

(** ** StringToNumber *)

Definition is_digit (c : ascii) : bool :=
  let n := nat_of_ascii c in bool_decide (48 <= n <= 57)%nat.

(** Split off the longest prefix of decimal digits. *)
Fixpoint span_digits (cs : list ascii) : list Z * list ascii :=
  match cs with
  | c :: cs' =>
      if is_digit c then let '(ds, rest) := span_digits cs' in
                         (Z.of_nat (nat_of_ascii c) - 48 :: ds, rest)
      else ([], cs)
  | [] => ([], [])
  end.

(** The text with leading and trailing white space removed. *)
Definition trim (s : string) : list ascii :=
  let l1 := list_ascii_of_string (trim_start s) in
  rev (list_ascii_of_string (trim_start (string_of_list_ascii (rev l1)))).

(** An optional sign: its value and the rest. *)
Definition split_sign (cs : list ascii) : Z * list ascii :=
  match cs with
  | "-"%char :: t => (-1, t)
  | "+"%char :: t => (1, t)
  | _ => (1, cs)
  end.

(** A signed decimal literal [digits [. digits] [(e|E) [+|-] digits]]
    covering the whole text. *)
Definition decimal_literal (cs : list ascii) : option decimal :=
  let '(sign, cs1) := split_sign cs in
  let '(intds, cs2) := span_digits cs1 in
  let '(fracds, cs3) :=
    match cs2 with
    | "."%char :: t => span_digits t
    | _ => ([], cs2)
    end in
  if (List.length intds + List.length fracds =? 0)%nat then None else
  let m := sign * digits_value 10 (intds ++ fracds) in
  let e := Z.of_nat (List.length fracds) in
  let mk (x : Z) :=
    if x <? 0 then mkDec (m * 10 ^ (- x)) 0 else mkDec m (Z.to_nat x) in
  match cs3 with
  | [] => Some (mk e)
  | c :: t =>
      if decide (c = "e"%char \/ c = "E"%char) then
        let '(esign, t1) :=
          match t with
          | "-"%char :: u => (-1, u)
          | "+"%char :: u => (1, u)
          | _ => (1, t)
          end in
        match span_digits t1 with
        | ([], _) => None
        | (eds, []) => Some (mk (e - esign * digits_value 10 eds))
        | _ => None
        end
      else None
  end.

(** [StringToNumber], [None] for NaN: an empty or blank text is 0, a
    [0x] literal is read in base 16, anything else must be a decimal
    literal (the texts ["Infinity"] and ["-Infinity"], which denote no
    decimal, are not modelled and give [None]). *)
Definition numberOfChars (cs : list ascii) : option decimal :=
  match cs with
  | [] => Some (mkDec 0 0)
  | "0"%char :: x :: t =>
      if decide (x = "x"%char \/ x = "X"%char) then
        let ds := digits_prefix 16 (string_of_list_ascii t) in
        if (List.length ds =? List.length t)%nat && negb (bool_decide (t = []))
        then Some (mkDec (digits_value 16 ds) 0) else None
      else decimal_literal ("0"%char :: x :: t)
  | cs => decimal_literal cs
  end.

Definition stringToNumber (s : string) : option decimal := numberOfChars (trim s).

(** ** ToString, as [`${v}`] applies it *)

Fixpoint toString (v : jsval) : string :=
  match v with
  | JUndefined => "undefined"
  | JNull => "null"
  | JBool b => if b then "true" else "false"
  | JNum d => number_to_string d
  | JStr s => s
  | JArr l =>
      (fix join (l : list jsval) : string :=
         match l with
         | [] => ""
         | [x] => match x with JUndefined | JNull => "" | _ => toString x end
         | x :: l' => String.append (match x with JUndefined | JNull => "" | _ => toString x end)
                        (String ","%char (join l'))
         end) l
  | JObj _ => "[object Object]"
  end.

(** [ToNumber] of a value, [None] for NaN; arrays and objects go through
    their string form, as [ToPrimitive] does for them. *)
Definition toNumber (v : jsval) : option decimal :=
  match v with
  | JNum d => Some d
  | JNull => Some (mkDec 0 0)
  | JBool b => Some (mkDec (if b then 1 else 0) 0)
  | JUndefined => None
  | JStr s => stringToNumber s
  | JArr _ | JObj _ => stringToNumber (toString v)
  end.

(** [Math.round(v)], [None] for NaN. *)
Definition jsRound (v : jsval) : option Z := option_map mathRound (toNumber v).

(** ** Examples *)

(** The four forms of [Number::toString]. *)
Example number_to_string_forms :
  number_to_string (mkDec (-28610) 3) = "-28.61" /\ number_to_string (mkDec 40 0) = "40" /\
  number_to_string (mkDec 5 7) = "5e-7" /\ number_to_string (mkDec 125 8) = "0.00000125" /\
  number_to_string (mkDec (12 * 10 ^ 21) 0) = "1.2e+22".
Proof. vm_compute. split_and!; reflexivity. Qed.
