(* ===== verification/Timer.v ===== *)
(** The countdown timer of [src/src/components/features/Timer.tsx]:
    its four [useState] hooks as a record, the 1 s interval of its
    [useEffect] and its four buttons as events, the handlers, the progress
    ring and the display; the invariant of the reachable states, the
    behaviour of every handler, the termination of the countdown and the
    round trip of the display. *)

From S2P Require Import Prelude JsRuntime.
From Stdlib Require Import QArith Lqa.

Module Timer.

Open Scope Z_scope.

(** ** State and events *)

(** [timeLeft], [initialTime], [isRunning], [isFinished] (lines 6-9);
    the interval handle of line 10 is represented by the enabledness of
    [Tick]. *)
Record state := mkState {
  timeLeft : Z;
  initialTime : Z;
  isRunning : bool;
  isFinished : bool
}.

Definition init : state := mkState 300000 300000 false false.

(** The interval callback and the four buttons. *)
Inductive event :=
| Tick          (** the [setInterval] callback of lines 14-23 *)
| StartPause    (** the button of lines 138-149 *)
| Reset         (** the button of lines 151-157 *)
| AdjustMinus   (** [adjustTime(-60000)], line 117 *)
| AdjustPlus.   (** [adjustTime(60000)], line 127 *)

#[export] Instance event_eq_dec : EqDecision event.
Proof. solve_decision. Defined.

(** ** Handlers *)

(** One interval callback: the functional update of [setTimeLeft],
    with the two setters it calls when the last second runs out. *)
Definition tick (s : state) : state :=
  if timeLeft s <=? 1000
  then mkState 0 (initialTime s) false true
  else mkState (timeLeft s - 1000) (initialTime s) (isRunning s) (isFinished s).

Definition handleStartPause (s : state) : state :=
  if isFinished s
  then mkState (initialTime s) (initialTime s) (isRunning s) false
  else mkState (timeLeft s) (initialTime s) (negb (isRunning s)) (isFinished s).

Definition handleReset (s : state) : state :=
  mkState (initialTime s) (initialTime s) false false.

Definition adjustTime (s : state) (delta : Z) : state :=
  if negb (isRunning s)
  then let newTime := Z.max 60000 (initialTime s + delta) in
       mkState newTime newTime (isRunning s) (isFinished s)
  else s.

(** The interval exists while [isRunning && timeLeft > 0] (line 13). *)
Definition tickEnabled (s : state) : bool := isRunning s && (0 <? timeLeft s).

(** The adjustment buttons are rendered when [!isRunning && !isFinished]
    (line 114); the other two buttons are always rendered. *)
Definition adjustVisible (s : state) : bool :=
  negb (isRunning s) && negb (isFinished s).

Definition enabled (s : state) (e : event) : bool :=
  match e with
  | Tick => tickEnabled s
  | StartPause | Reset => true
  | AdjustMinus | AdjustPlus => adjustVisible s
  end.

Definition handle (s : state) (e : event) : state :=
  match e with
  | Tick => tick s
  | StartPause => handleStartPause s
  | Reset => handleReset s
  | AdjustMinus => adjustTime s (-60000)
  | AdjustPlus => adjustTime s 60000
  end.

#[export] Instance timer_component : Component state event :=
  {| c_init := init; c_enabled := enabled; c_handle := handle |}.

(** ** Derived values *)

(** [((initialTime - timeLeft) / initialTime) * 100] (line 67). *)
Definition getProgress (s : state) : Q :=
  (inject_Z (initialTime s - timeLeft s) / inject_Z (initialTime s)) * 100.

(** ["MM:SS"] (lines 37-41). *)
Definition formatTime (ms : Z) : string :=
  String.append (pad2 (ms / 60000))
    (String ":" (pad2 (Z.rem ms 60000 / 1000))).

(** ** The rendered view (lines 70-168) *)

(** The icon of the start/pause button (lines 147-148). *)
Inductive startIcon := RotateIcon | PauseIcon | PlayIcon.

(** What the timer shows: the display (line 83) and whether it is styled
    as finished (line 82); the ring's dash offset (line 106) as a fraction
    of the circumference [2 * Math.PI * 45], that is
    [1 - getProgress() / 100]; the minutes label of the adjustment block
    when it is rendered (lines 114-134); the start/pause icon; and the
    "Time's Up!" message (lines 161-165). *)
Record timerView := mkTimerView {
  display : string;
  displayFinished : bool;
  dashFraction : Q;
  minutesLabel : option Z;
  buttonIcon : startIcon;
  timesUp : bool
}.

Definition renderTimer (s : state) : timerView :=
  mkTimerView (formatTime (timeLeft s)) (isFinished s)
    (1 - getProgress s / 100)%Q
    (if adjustVisible s then Some (initialTime s / 60000) else None)
    (if isFinished s then RotateIcon else if isRunning s then PauseIcon else PlayIcon)
    (isFinished s).

(** ** The invariant *)

Record inv (s : state) : Prop := {
  inv_initial_min : 60000 <= initialTime s;
  inv_initial_minutes : initialTime s mod 60000 = 0;
  inv_left_range : 0 <= timeLeft s <= initialTime s;
  inv_left_seconds : timeLeft s mod 1000 = 0;
  inv_finished_zero : isFinished s = true -> timeLeft s = 0;
  inv_unfinished_pos : isFinished s = false -> 0 < timeLeft s;
  inv_finished_stopped : isFinished s = true -> isRunning s = false
}.

(** Unfold a timer state and its invariant into integer facts. *)
Ltac timer_cases :=
  match goal with
  | s : state |- _ =>
      destruct s as [t i r f];
      match goal with
      | H : inv _ |- _ => destruct H; simpl in *
      end;
      destruct r, f; simpl in *; bool_hyps
  end.

Lemma minutes_are_seconds (a : Z) : a mod 60000 = 0 -> a mod 1000 = 0.
Proof. apply (multiple_of_multiple a 1000 60); lia. Qed.

#[export] Hint Resolve minutes_are_seconds : clock.

Ltac solve_inv :=
  constructor; simpl; intros; bool_hyps; try discriminate; try reflexivity;
  try lia; eauto with clock.

Lemma init_inv : inv init.
Proof. solve_inv. Qed.

Lemma tick_inv s : inv s -> tickEnabled s = true -> inv (tick s).
Proof.
  intros Hi He. unfold tickEnabled, tick in *. timer_cases;
    split_Z_tests; simpl in *; try discriminate; solve_inv.
Qed.

Lemma startPause_inv s : inv s -> inv (handleStartPause s).
Proof. intros Hi. unfold handleStartPause. timer_cases; solve_inv. Qed.

Lemma reset_inv s : inv s -> inv (handleReset s).
Proof. intros Hi. unfold handleReset. timer_cases; solve_inv. Qed.

Lemma adjust_inv s delta :
  inv s -> adjustVisible s = true -> delta mod 60000 = 0 ->
  inv (adjustTime s delta).
Proof.
  intros Hi Hv Hd. unfold adjustVisible, adjustTime in *.
  timer_cases; try discriminate; solve_inv.
Qed.

Lemma handle_inv s e : inv s -> enabled s e = true -> inv (handle s e).
Proof.
  intros Hi He. destruct e; simpl in He |- *.
  - by apply tick_inv.
  - by apply startPause_inv.
  - by apply reset_inv.
  - by apply adjust_inv.
  - by apply adjust_inv.
Qed.

#[export] Hint Resolve init_inv handle_inv : clock.

(** ** The countdown *)

Lemma tick_above s :
  1000 < timeLeft s ->
  tick s = mkState (timeLeft s - 1000) (initialTime s) (isRunning s) (isFinished s).
Proof. intros H. unfold tick. split_Z_tests; [lia|done]. Qed.

(** [k] ticks from [1000 * (n + 1)] with [k <= n] count down without
    finishing. *)
Lemma countdown_prefix (k n : nat) (i : Z) :
  (k <= n)%nat ->
  exec (mkState (1000 * Z.of_nat (S n)) i true false) (repeat Tick k) =
  Some (mkState (1000 * Z.of_nat (S n - k)) i true false).
Proof.
  revert n. induction k as [|k IH]; intros n Hk; simpl repeat.
  - by rewrite Nat.sub_0_r.
  - rewrite exec_cons by (simpl; unfold tickEnabled; simpl; split_Z_tests; lia).
    simpl c_handle. unfold handle. rewrite tick_above by (simpl; lia). simpl.
    destruct n as [|n]; [lia|].
    replace (1000 * Z.of_nat (S (S n)) - 1000) with (1000 * Z.of_nat (S n)) by lia.
    rewrite IH by lia. done.
Qed.

(** The last second: one tick from [1000] finishes and stops. *)
Lemma countdown_last (i : Z) :
  exec (mkState 1000 i true false) [Tick] = Some (mkState 0 i false true).
Proof. reflexivity. Qed.

Lemma countdown_full (n : nat) (i : Z) :
  exec (mkState (1000 * Z.of_nat (S n)) i true false) (repeat Tick (S n)) =
  Some (mkState 0 i false true).
Proof.
  replace (S n) with (n + 1)%nat at 2 by lia.
  rewrite repeat_app, exec_app, countdown_prefix by lia.
  replace (S n - n)%nat with 1%nat by lia. apply countdown_last.
Qed.

(** A running reachable state has the shape the countdown lemmas take. *)
Lemma running_shape s :
  inv s -> isRunning s = true ->
  s = mkState (1000 * Z.of_nat (S (Z.to_nat (timeLeft s / 1000 - 1))))
              (initialTime s) true false.
Proof.
  intros Hi Hr. destruct s as [t i r f]. simpl in *. subst r.
  destruct Hi; simpl in *. destruct f; bool_hyps.
  pose proof (Z.div_mod t 1000 ltac:(lia)).
  f_equal. rewrite Nat2Z.inj_succ, Z2Nat.id; lia.
Qed.

Lemma timer_inv_of_reachable s : reachable s -> inv s.
Proof. apply reachable_inv; [exact init_inv | intros; by apply handle_inv]. Qed.

Ltac timer_reach_inv :=
  match goal with
  | H : reachable _ |- _ => apply timer_inv_of_reachable in H
  end.

(** ** The display *)

(** Reading a ["MM:SS"] display back, the inverse of [formatTime]. *)
Definition readTime (str : string) : option Z :=
  match js_split ":" str with
  | [m; sec] =>
      match parseInt m, parseInt sec with
      | Some m', Some s' => Some (60000 * m' + 1000 * s')
      | _, _ => None
      end
  | _ => None
  end.

(** ** Properties *)

(** The invariant as an executable check. *)
Definition wf (s : state) : bool :=
  (60000 <=? initialTime s) && (initialTime s mod 60000 =? 0) &&
  (0 <=? timeLeft s) && (timeLeft s <=? initialTime s) &&
  (timeLeft s mod 1000 =? 0) &&
  Bool.eqb (isFinished s) (timeLeft s =? 0) &&
  implb (isFinished s) (negb (isRunning s)).

Lemma inv_wf s : inv s -> wf s = true.
Proof.
  intros Hi. unfold wf. destruct s as [t i r f]. destruct Hi; simpl in *.
  destruct r, f; bool_hyps; simpl; split_Z_tests; simpl;
    rewrite ?andb_true_r; try reflexivity; exfalso; zlia.
Qed.

(** C1 (invariant): every state the timer reaches from its mount passes
    [wf]: its configured time is a whole number of minutes and at least
    one minute, its remaining time is a whole number of seconds between 0
    and the configured time, it is finished exactly when the remaining
    time is 0, and it is never running once finished; and while it runs
    its remaining time never grows: no deliverable event that leaves it
    running raises it. *)
Theorem timer_state_invariant s :
  reachable s ->
  wf s = true /\
  (forall e, enabled s e = true -> isRunning s = true -> isRunning (handle s e) = true ->
             timeLeft (handle s e) <= timeLeft s).
Proof.
  intros Hr. timer_reach_inv. split; [by apply inv_wf|].
  intros e He Hrun Hrun'. destruct Hr.
  destruct e; simpl in *; unfold tick, handleStartPause, adjustTime, adjustVisible in *.
  - split_Z_tests; simpl in *; [discriminate|lia].
  - destruct (isFinished s) eqn:Hf; [rewrite inv_finished_stopped0 in Hrun by done; discriminate|].
    rewrite Hrun in Hrun'. discriminate.
  - discriminate.
  - rewrite Hrun in He. destruct (isFinished s); discriminate.
  - rewrite Hrun in He. destruct (isFinished s); discriminate.
Qed.

Lemma timer_state_invariant_witness :
  wf (mkState 299000 300000 true false) = true /\
  (forall e, enabled (mkState 299000 300000 true false) e = true ->
             isRunning (mkState 299000 300000 true false) = true ->
             isRunning (handle (mkState 299000 300000 true false) e) = true ->
             timeLeft (handle (mkState 299000 300000 true false) e) <=
               timeLeft (mkState 299000 300000 true false)).
Proof.
  apply (timer_state_invariant (mkState 299000 300000 true false)).
  apply (reachable_exec [StartPause; Tick]). reflexivity.
Defined.

(** C2 (termination): from any reachable running state, exactly
    [timeLeft / 1000] interval callbacks bring the timer to 0, finished
    and stopped, after which the interval is no longer installed; and the
    countdown finishes exactly once: before the last of those callbacks
    the timer is still running, unfinished, with its interval installed,
    and has lost exactly one second per callback. *)
Theorem timer_countdown_terminates s :
  reachable s -> isRunning s = true ->
  (exec s (repeat Tick (Z.to_nat (timeLeft s / 1000))) =
     Some (mkState 0 (initialTime s) false true) /\
   enabled (mkState 0 (initialTime s) false true) Tick = false) /\
  (forall k, (k < Z.to_nat (timeLeft s / 1000))%nat ->
   exec s (repeat Tick k) =
     Some (mkState (timeLeft s - 1000 * Z.of_nat k) (initialTime s) true false) /\
   tickEnabled (mkState (timeLeft s - 1000 * Z.of_nat k) (initialTime s) true false) = true).
Proof.
  intros Hr Hrun. timer_reach_inv.
  assert (Hpos : 0 < timeLeft s /\ timeLeft s mod 1000 = 0).
  { destruct Hr. destruct (isFinished s) eqn:Hf; bool_hyps; [congruence|]. split; [lia|done]. }
  destruct Hpos as [Hpos Hm].
  pose proof (Z.div_mod (timeLeft s) 1000 ltac:(lia)).
  split.
  - split; [|done]. rewrite (running_shape s Hr Hrun) at 1.
    replace (Z.to_nat (timeLeft s / 1000)) with (S (Z.to_nat (timeLeft s / 1000 - 1))) by lia.
    apply countdown_full.
  - intros k Hk. rewrite (running_shape s Hr Hrun) at 1. rewrite countdown_prefix by lia.
    unfold tickEnabled; simpl. split.
    + do 2 f_equal. rewrite Nat2Z.inj_sub, Nat2Z.inj_succ, Z2Nat.id by lia. lia.
    + split_Z_tests; [done|lia].
Qed.

Lemma timer_countdown_terminates_witness :
  (exec (mkState 3000 300000 true false)
       (repeat Tick (Z.to_nat (timeLeft (mkState 3000 300000 true false) / 1000))) =
     Some (mkState 0 (initialTime (mkState 3000 300000 true false)) false true) /\
   enabled (mkState 0 (initialTime (mkState 3000 300000 true false)) false true) Tick = false) /\
  (forall k, (k < Z.to_nat (timeLeft (mkState 3000 300000 true false) / 1000))%nat ->
   exec (mkState 3000 300000 true false) (repeat Tick k) =
     Some (mkState (timeLeft (mkState 3000 300000 true false) - 1000 * Z.of_nat k)
                   (initialTime (mkState 3000 300000 true false)) true false) /\
   tickEnabled (mkState (timeLeft (mkState 3000 300000 true false) - 1000 * Z.of_nat k)
                   (initialTime (mkState 3000 300000 true false)) true false) = true).
Proof.
  apply (timer_countdown_terminates (mkState 3000 300000 true false)).
  - apply (reachable_exec (StartPause :: repeat Tick 297)). vm_compute. reflexivity.
  - reflexivity.
Defined.

(** C3 (functional, with a counterexample to the spec): in a reachable
    state where the +/- buttons are shown, [+] sets both the configured
    and the remaining time to the configured time plus one minute, and
    [-] to the configured time minus one minute, floored at one minute;
    neither starts the timer.  So pausing mid-countdown and pressing [+]
    does not add a minute to the remaining time, as the spec says: it
    discards the elapsed time and restarts from the new duration. *)
Theorem timer_adjust :
  (forall s, reachable s -> adjustVisible s = true ->
   handle s AdjustPlus =
     mkState (initialTime s + 60000) (initialTime s + 60000) false false /\
   handle s AdjustMinus =
     (if initialTime s =? 60000 then mkState 60000 60000 false false
      else mkState (initialTime s - 60000) (initialTime s - 60000) false false)) /\
  (exists s,
     exec init [StartPause; Tick; StartPause] = Some s /\
     adjustVisible s = true /\ timeLeft s = 299000 /\
     timeLeft (handle s AdjustPlus) = 360000 /\
     timeLeft (handle s AdjustPlus) <> timeLeft s + 60000).
Proof.
  split.
  - intros s Hr Hv. timer_reach_inv. destruct s as [t i r f].
    unfold adjustVisible in Hv. destruct r, f; try discriminate. destruct Hr.
    simpl in *. unfold adjustTime. simpl.
    split; split_Z_tests; f_equal; zlia.
  - eexists. split; [reflexivity|]. vm_compute. repeat split; discriminate.
Qed.

Lemma timer_adjust_witness :
  handle (mkState 60000 60000 false false) AdjustPlus =
    mkState (initialTime (mkState 60000 60000 false false) + 60000)
            (initialTime (mkState 60000 60000 false false) + 60000) false false /\
  handle (mkState 60000 60000 false false) AdjustMinus =
    (if initialTime (mkState 60000 60000 false false) =? 60000
     then mkState 60000 60000 false false
     else mkState (initialTime (mkState 60000 60000 false false) - 60000)
                  (initialTime (mkState 60000 60000 false false) - 60000) false false).
Proof.
  apply timer_adjust.
  - apply (reachable_exec (repeat AdjustMinus 4)). reflexivity.
  - reflexivity.
Defined.

(** C5 (error path): once finished, start/pause rearms the timer at the
    configured duration without starting it, and until then no interval
    callback can occur. *)
Theorem timer_restart_after_finish s :
  reachable s -> isFinished s = true ->
  enabled s Tick = false /\
  handle s StartPause = mkState (initialTime s) (initialTime s) false false /\
  buttonIcon (renderTimer s) = RotateIcon /\ timesUp (renderTimer s) = true /\
  minutesLabel (renderTimer s) = None /\
  buttonIcon (renderTimer (handle s StartPause)) = PlayIcon /\
  timesUp (renderTimer (handle s StartPause)) = false /\
  display (renderTimer (handle s StartPause)) = formatTime (initialTime s).
Proof.
  intros Hr Hf. timer_reach_inv. destruct s as [t i r f]. simpl in *. subst f.
  destruct Hr; simpl in *. bool_hyps. subst. split_and!; reflexivity.
Qed.

Lemma timer_restart_after_finish_witness :
  let s := mkState 0 60000 false true in
  enabled s Tick = false /\
  handle s StartPause = mkState (initialTime s) (initialTime s) false false /\
  buttonIcon (renderTimer s) = RotateIcon /\ timesUp (renderTimer s) = true /\
  minutesLabel (renderTimer s) = None /\
  buttonIcon (renderTimer (handle s StartPause)) = PlayIcon /\
  timesUp (renderTimer (handle s StartPause)) = false /\
  display (renderTimer (handle s StartPause)) = formatTime (initialTime s).
Proof.
  apply timer_restart_after_finish.
  - apply (reachable_exec (repeat AdjustMinus 4 ++ StartPause :: repeat Tick 60)).
    vm_compute. reflexivity.
  - reflexivity.
Defined.

(** The progress fraction of a reachable state is between 0 and 100
    (its division by [initialTime] never divides by zero). *)
Lemma progress_range s : reachable s -> (0 <= getProgress s <= 100)%Q.
Proof.
  intros Hr. timer_reach_inv. destruct Hr. unfold getProgress.
  assert (Hb : (0 < inject_Z (initialTime s))%Q).
  { change 0%Q with (inject_Z 0). rewrite <- Zlt_Qlt. lia. }
  split.
  - apply Qmult_le_0_compat; [|discriminate].
    apply Qle_shift_div_l; [done|]. rewrite Qmult_0_l.
    change 0%Q with (inject_Z 0). rewrite <- Zle_Qle. lia.
  - rewrite <- (Qmult_1_l 100) at 2. apply Qmult_le_compat_r; [|discriminate].
    apply Qle_shift_div_r; [done|]. rewrite Qmult_1_l, <- Zle_Qle. lia.
Qed.

(** C6 (bounds): in every reachable state the progress fraction stays
    between 0 and 100 percent, so the ring's dash offset stays between 0
    and the whole circumference: the ring is never drawn more than full
    or less than empty. *)
Theorem timer_progress_bounds s :
  reachable s ->
  (0 <= getProgress s <= 100)%Q /\ (0 <= dashFraction (renderTimer s) <= 1)%Q.
Proof.
  intros Hr. pose proof (progress_range s Hr) as [H0 H1]. cbn [dashFraction renderTimer].
  split; [done|].
  assert (A : (0 <= getProgress s / 100)%Q) by (apply Qle_shift_div_l; [reflexivity | lra]).
  assert (B : (getProgress s / 100 <= 1)%Q) by (apply Qle_shift_div_r; [reflexivity | lra]).
  split; lra.
Qed.

Lemma timer_progress_bounds_witness :
  (0 <= getProgress (mkState 299000 300000 true false) <= 100)%Q /\
  (0 <= dashFraction (renderTimer (mkState 299000 300000 true false)) <= 1)%Q.
Proof.
  apply timer_progress_bounds.
  apply (reachable_exec [StartPause; Tick]). reflexivity.
Defined.

(** C7 (roundtrip): below 100 minutes the ["MM:SS"] display has two
    fields that [parseInt] reads back to the remaining time truncated to
    the second. *)
Theorem timer_format_roundtrip ms :
  0 <= ms < 6000000 -> readTime (formatTime ms) = Some (ms - ms mod 1000).
Proof.
  intros Hms. unfold readTime, formatTime.
  rewrite Z.rem_mod_nonneg by lia.
  rewrite js_split_app by (apply pad2_lacks_colon; zlia).
  rewrite js_split_lacks by (apply pad2_lacks_colon; zlia).
  rewrite !parseInt_pad2 by zlia. f_equal. zlia.
Qed.

Lemma timer_format_roundtrip_witness :
  readTime (formatTime 299500) = Some (299500 - 299500 mod 1000).
Proof. apply timer_format_roundtrip. lia. Defined.

End Timer.
