(* ===== verification/Stopwatch.v ===== *)
(** The stopwatch of [src/src/components/features/Stopwatch.tsx]: its
    three [useState] hooks as a record, the 10 ms interval and the three
    buttons as events, the handlers, the ["MM:SS.CC"] display and the lap
    list; the invariant of the reachable states (elapsed time a
    non-negative multiple of 10, laps most recent first and never above
    the elapsed time), elapsed time as ten times the number of interval
    callbacks, the persistence of recorded laps and the round trip of the
    display. *)

From S2P Require Import Prelude JsRuntime.

Module Stopwatch.

Open Scope Z_scope.

(** ** State and events *)

(** [time], [isRunning], [laps] (lines 6-8). *)
Record state := mkState {
  time : Z;
  isRunning : bool;
  laps : list Z
}.

Definition init : state := mkState 0 false [].

Inductive event :=
| Tick        (** the [setInterval] callback of lines 13-15 *)
| StartPause  (** the button of lines 72-78 *)
| Reset       (** the button of lines 80-86 *)
| Lap.        (** the button of lines 88-96 *)

#[export] Instance event_eq_dec : EqDecision event.
Proof. solve_decision. Defined.

(** ** Handlers *)

Definition tick (s : state) : state :=
  mkState (time s + 10) (isRunning s) (laps s).

Definition handleStartPause (s : state) : state :=
  mkState (time s) (negb (isRunning s)) (laps s).

Definition handleReset (s : state) : state := mkState 0 false [].

Definition handleLap (s : state) : state :=
  if isRunning s then mkState (time s) (isRunning s) (time s :: laps s) else s.

(** The interval exists while [isRunning] (line 12); the lap button is
    rendered only while running (line 88). *)
Definition enabled (s : state) (e : event) : bool :=
  match e with
  | Tick | Lap => isRunning s
  | StartPause | Reset => true
  end.

Definition handle (s : state) (e : event) : state :=
  match e with
  | Tick => tick s
  | StartPause => handleStartPause s
  | Reset => handleReset s
  | Lap => handleLap s
  end.

#[export] Instance stopwatch_component : Component state event :=
  {| c_init := init; c_enabled := enabled; c_handle := handle |}.

(** ** The display *)

(** ["MM:SS.CC"] (lines 29-35). *)
Definition formatTime (ms : Z) : string :=
  String.append (pad2 (ms / 60000))
    (String ":" (String.append (pad2 (Z.rem ms 60000 / 1000))
                  (String "." (pad2 (Z.rem ms 1000 / 10))))).

(** The rows of the lap list, ["Lap {laps.length - index}"] beside the
    formatted lap time (lines 103-108). *)
Definition lapRows (ls : list Z) : list (Z * string) :=
  imap (fun index lapTime =>
          (Z.of_nat (List.length ls) - Z.of_nat index, formatTime lapTime)) ls.

(** ** The rendered view (lines 53-113) *)

Inductive startIcon := PauseIcon | PlayIcon.

(** The display (line 66), the start/pause icon (line 77), whether the
    LAP button is rendered (line 88) and the lap list, rendered when there
    is a lap (lines 100-110). *)
Record stopwatchView := mkStopwatchView {
  display : string;
  buttonIcon : startIcon;
  lapButton : bool;
  lapList : option (list (Z * string))
}.

Definition renderStopwatch (s : state) : stopwatchView :=
  mkStopwatchView (formatTime (time s))
    (if isRunning s then PauseIcon else PlayIcon) (isRunning s)
    (if bool_decide (0 < List.length (laps s))%nat then Some (lapRows (laps s)) else None).

(** ** The invariant *)

(** Every lap is a non-negative multiple of 10, at most the one recorded
    after it (or the elapsed time for the most recent one). *)
Fixpoint laps_below (b : Z) (l : list Z) : bool :=
  match l with
  | [] => true
  | x :: l' => (0 <=? x) && (x <=? b) && (x mod 10 =? 0) && laps_below x l'
  end.

Definition wf (s : state) : bool :=
  (0 <=? time s) && (time s mod 10 =? 0) && laps_below (time s) (laps s).

(** Reading a ["MM:SS.CC"] display back, the inverse of [formatTime]. *)
Definition readTime (str : string) : option Z :=
  match js_split ":" str with
  | [m; rest] =>
      match js_split "." rest with
      | [sec; cs] =>
          match parseInt m, parseInt sec, parseInt cs with
          | Some m', Some s', Some c' => Some (60000 * m' + 1000 * s' + 10 * c')
          | _, _, _ => None
          end
      | _ => None
      end
  | _ => None
  end.

(** The number of interval callbacks in a run. *)
Definition ticks (es : list event) : nat := count_occ event_eq_dec es Tick.

(** ** Lemmas *)

Lemma laps_below_weaken b b' l :
  b <= b' -> laps_below b l = true -> laps_below b' l = true.
Proof.
  destruct l as [|x l]; [done|]. simpl. intros Hb H.
  repeat rewrite andb_true_iff in *. destruct H as [[[H1 H2] H3] H4].
  repeat split; try done. apply Z.leb_le in H2. apply Z.leb_le. lia.
Qed.

Lemma stopwatch_wf_handle s e : wf s = true -> wf (handle s e) = true.
Proof.
  destruct s as [t r l]. unfold wf. simpl.
  repeat rewrite andb_true_iff. intros [[H0 H10] Hl].
  apply Z.leb_le in H0. apply Z.eqb_eq in H10.
  destruct e; simpl.
  - repeat rewrite andb_true_iff. repeat split.
    + apply Z.leb_le. lia.
    + apply Z.eqb_eq. zlia.
    + apply (laps_below_weaken t); [lia|done].
  - repeat rewrite andb_true_iff. repeat split; try done;
      [apply Z.leb_le | apply Z.eqb_eq]; lia.
  - done.
  - unfold handleLap. destruct r; simpl; repeat rewrite andb_true_iff;
      repeat split; try done; rewrite ?Z.leb_le, ?Z.eqb_eq; lia.
Qed.

Lemma stopwatch_wf_of_reachable s : reachable s -> wf s = true.
Proof.
  apply (reachable_inv (fun s => wf s = true));
    [reflexivity | intros s' e H _; by apply stopwatch_wf_handle].
Qed.

(** A run without [Reset] adds 10 ms per interval callback and only puts
    new laps in front of the recorded ones. *)
Lemma exec_no_reset s es s' :
  exec s es = Some s' -> ~ In Reset es ->
  time s' = time s + 10 * Z.of_nat (ticks es) /\
  exists fresh, laps s' = fresh ++ laps s.
Proof.
  revert s. induction es as [|e es IH]; intros s Hx Hr.
  - simpl in Hx. simplify_eq. split; [unfold ticks; simpl; lia|]. by exists [].
  - simpl in Hx. destruct (enabled s e) eqn:He; [|done].
    destruct (IH _ Hx ltac:(simpl in Hr; tauto)) as [Ht [fresh Hl]].
    unfold ticks in *. destruct e; simpl in *.
    + rewrite Ht. split; [lia|]. by exists fresh.
    + split; [rewrite Ht; lia|]. by exists fresh.
    + tauto.
    + unfold handleLap in *. rewrite He in Ht, Hl. simpl in *.
      split; [done|]. exists (fresh ++ [time s]). by rewrite Hl, <- app_assoc.
Qed.

(** ** Properties *)

(** C8 (invariant): in every state the stopwatch reaches, the elapsed
    time is a non-negative multiple of 10 ms and the laps, most recent
    first, never increase along the list and never exceed the elapsed
    time. *)
Theorem stopwatch_invariant s : reachable s -> wf s = true.
Proof. apply stopwatch_wf_of_reachable. Qed.

Lemma stopwatch_invariant_witness : wf (mkState 30 true [20; 10]) = true.
Proof.
  apply stopwatch_invariant.
  apply (reachable_exec [StartPause; Tick; Lap; Tick; Lap; Tick]). reflexivity.
Defined.

(** C9 (functional): along any run without a reset, the elapsed time
    grows by exactly 10 ms per interval callback and by nothing else, so
    it never decreases while running and start/pause never resets it. *)
Theorem stopwatch_elapsed_counts_ticks s es s' :
  exec s es = Some s' -> ~ In Reset es ->
  time s' = time s + 10 * Z.of_nat (ticks es).
Proof. intros Hx Hr. exact (proj1 (exec_no_reset s es s' Hx Hr)). Qed.

Lemma stopwatch_elapsed_counts_ticks_witness :
  time (mkState 20 false []) = time init + 10 * Z.of_nat (ticks [StartPause; Tick; Tick; StartPause]).
Proof.
  apply (stopwatch_elapsed_counts_ticks init [StartPause; Tick; Tick; StartPause]).
  - reflexivity.
  - simpl. intuition discriminate.
Defined.

(** C10 (safety): a lap records the elapsed time at the front of the
    list, and whatever happens afterwards short of a reset, that lap and
    the older ones stay in the list unchanged behind the newer ones. *)
Theorem stopwatch_lap_persists s es s' :
  exec s (Lap :: es) = Some s' -> ~ In Reset es ->
  laps (handleLap s) = time s :: laps s /\
  exists fresh, laps s' = fresh ++ laps (handleLap s).
Proof.
  intros Hx Hr. simpl in Hx. destruct (isRunning s) eqn:Hrun; [|done].
  destruct (exec_no_reset _ _ _ Hx Hr) as [_ [fresh Hl]].
  unfold handleLap in *. rewrite Hrun in *. split; [done|]. by exists fresh.
Qed.

Lemma stopwatch_lap_persists_witness :
  laps (handleLap (mkState 10 true [])) = time (mkState 10 true []) :: laps (mkState 10 true []) /\
  exists fresh, laps (mkState 30 true [20; 10]) = fresh ++ laps (handleLap (mkState 10 true [])).
Proof.
  apply (stopwatch_lap_persists (mkState 10 true []) [Tick; Lap; Tick]).
  - reflexivity.
  - simpl. intuition discriminate.
Defined.

(** The round trip of the display, below 100 minutes. *)
Lemma format_roundtrip ms :
  0 <= ms < 6000000 -> readTime (formatTime ms) = Some (ms - ms mod 10).
Proof.
  intros Hms. unfold readTime, formatTime.
  rewrite !Z.rem_mod_nonneg by lia.
  rewrite js_split_app by (apply pad2_lacks_colon; zlia).
  rewrite js_split_lacks.
  2: { rewrite lacks_char_app, lacks_char_cons,
         (pad2_lacks_colon (ms mod 60000 / 1000)),
         (pad2_lacks_colon (ms mod 1000 / 10)) by zlia. done. }
  rewrite js_split_app by (apply pad2_lacks_dot; zlia).
  rewrite js_split_lacks by (apply pad2_lacks_dot; zlia).
  rewrite !parseInt_pad2 by zlia. f_equal. zlia.
Qed.

(** C11 (roundtrip): below 100 minutes the ["MM:SS.CC"] display has
    three two-digit fields that [parseInt] reads back to the elapsed time
    truncated to the centisecond; in a state the stopwatch reaches, the
    elapsed time is a multiple of 10 ms, so the display it renders reads
    back to exactly the elapsed time. *)
Theorem stopwatch_format_roundtrip ms :
  (0 <= ms < 6000000 -> readTime (formatTime ms) = Some (ms - ms mod 10)) /\
  (forall s, reachable s -> time s < 6000000 ->
     readTime (display (renderStopwatch s)) = Some (time s)).
Proof.
  split; [apply format_roundtrip|].
  intros s Hr Hlt. apply stopwatch_wf_of_reachable in Hr. unfold wf in Hr.
  apply andb_true_iff in Hr as [[H0 H10]%andb_true_iff _].
  apply Z.leb_le in H0. apply Z.eqb_eq in H10.
  cbn [display renderStopwatch]. rewrite format_roundtrip by lia.
  f_equal. lia.
Qed.

Lemma stopwatch_format_roundtrip_witness :
  (0 <= 3723456 < 6000000 -> readTime (formatTime 3723456) = Some (3723456 - 3723456 mod 10)) /\
  (forall s, reachable s -> time s < 6000000 ->
     readTime (display (renderStopwatch s)) = Some (time s)).
Proof. apply (stopwatch_format_roundtrip 3723456). Defined.

(** C12 (functional): in the rendered lap list, with the laps recorded
    in the chronological order [hist] (so that [laps] is its reverse),
    the row labelled [k + 1] shows the [k]-th recorded lap: the oldest lap
    is "Lap 1" at the bottom and the newest carries the highest number at
    the top. *)
Theorem stopwatch_lap_labels (hist : list Z) (k : nat) (h : Z) :
  hist !! k = Some h ->
  lapRows (reverse hist) !! (List.length hist - 1 - k)%nat =
    Some (Z.of_nat (S k), formatTime h).
Proof.
  intros Hk. pose proof (lookup_lt_Some _ _ _ Hk) as Hlt.
  unfold lapRows. rewrite list_lookup_imap, reverse_lookup by lia.
  replace (List.length hist - S (List.length hist - 1 - k))%nat with k by lia.
  rewrite Hk. simpl. rewrite length_reverse. do 2 f_equal. lia.
Qed.

Lemma stopwatch_lap_labels_witness :
  lapRows (reverse [10; 20; 30]) !! (List.length [10; 20; 30] - 1 - 0)%nat =
    Some (Z.of_nat 1, formatTime 10).
Proof. apply (stopwatch_lap_labels [10; 20; 30] 0 10). reflexivity. Defined.

End Stopwatch.
