(* ===== verification/Alarm.v ===== *)
(** The alarm clock of [src/src/components/features/AlarmClock.tsx]: its
    four [useState] hooks, together with the browser state it reads and
    the side effects it performs, as a record; the clock interval, the
    alarm-check interval, the time input, the two buttons and the answer
    to the notification permission request as events.  The wall clock is a
    count of milliseconds in local time, read through [getHours],
    [getMinutes] and [getSeconds]; playing the sound and showing the
    notification are appended to an output log.  The theorems: when the
    check fires, that the alarm rings at most once per arming, the state
    invariant (ringing only right after a firing, whose notification
    carries the text the ringing panel shows), and the finding that a
    check cadence above one second can miss the target second. *)

From S2P Require Import Prelude JsRuntime.

Module Alarm.

Open Scope Z_scope.

(** ** The wall clock *)

(** [Date.prototype.getHours/getMinutes/getSeconds] of a local time
    given in milliseconds (daylight-saving jumps are not modelled). *)
Definition getHours (t : Z) : Z := (t / 3600000) mod 24.
Definition getMinutes (t : Z) : Z := (t / 60000) mod 60.
Definition getSeconds (t : Z) : Z := (t / 1000) mod 60.

(** ** State and events *)

(** [Notification.permission]. *)
Inductive permission := Granted | Denied | Default.

#[export] Instance permission_eq_dec : EqDecision permission.
Proof. solve_decision. Defined.

(** The side effects of a firing alarm (lines 30-36). *)
Inductive effect :=
| PlaySound                        (** [new Audio(...).play()] *)
| ShowNotification (title body : string).  (** [new Notification(...)] *)

#[export] Instance effect_eq_dec : EqDecision effect.
Proof. solve_decision. Defined.

(** [currentTime], [alarmTime], [isAlarmSet], [alarmTriggered]
    (lines 6-9); whether [window.Notification] exists, its permission, a
    pending permission request (lines 42-46), and the effects performed so
    far. *)
Record state := mkState {
  currentTime : Z;
  alarmTime : string;
  isAlarmSet : bool;
  alarmTriggered : bool;
  notificationApi : bool;
  notifPermission : permission;
  permissionPending : bool;
  outputs : list effect
}.

(** The mount: the hooks' initial values and the permission request of
    the third effect, made when the API exists and permission is not yet
    granted. *)
Definition init (now : Z) (api : bool) (perm : permission) : state :=
  mkState now "" false false api perm
    (api && negb (bool_decide (perm = Granted))) [].

Inductive event :=
| ClockTick (now : Z)      (** the 1 s clock interval, lines 12-14 *)
| CheckTick (now : Z)      (** the 1 s alarm-check interval, lines 20-38 *)
| InputChange (v : string) (** the time input's onChange, lines 96-99 *)
| SetAlarm                 (** the Set Alarm button, lines 103-114 *)
| Cancel                   (** the Cancel button, lines 115-124 *)
| PermissionAnswer (p : permission).  (** the request's resolution *)

#[export] Instance event_eq_dec : EqDecision event.
Proof. solve_decision. Defined.

(** ** Handlers *)

Definition set_time (s : state) (now : Z) : state :=
  mkState now (alarmTime s) (isAlarmSet s) (alarmTriggered s)
    (notificationApi s) (notifPermission s) (permissionPending s) (outputs s).

Definition set_alarm_flags (s : state) (armed triggered : bool) : state :=
  mkState (currentTime s) (alarmTime s) armed triggered
    (notificationApi s) (notifPermission s) (permissionPending s) (outputs s).

(** The comparison of lines 22-27: the hour and minute fields of the
    split string parsed with [parseInt] against the clock, at second 0. *)
Definition alarmMatches (alarmTime : string) (now : Z) : bool :=
  let parts := js_split ":" alarmTime in
  bool_decide (parseInt_opt (parts !! 0%nat) = Some (getHours now)) &&
  bool_decide (parseInt_opt (parts !! 1%nat) = Some (getMinutes now)) &&
  (getSeconds now =? 0).

(** The effects of lines 30-36: the sound always, the notification when
    the API exists and permission is granted. *)
Definition fireEffects (s : state) : list effect :=
  PlaySound ::
  (if notificationApi s && bool_decide (notifPermission s = Granted)
   then [ShowNotification "Alarm!" (String.append "It's " (alarmTime s))]
   else []).

(** One callback of the check interval. *)
Definition checkAlarm (s : state) (now : Z) : state :=
  if alarmMatches (alarmTime s) now
  then mkState (currentTime s) (alarmTime s) false true
         (notificationApi s) (notifPermission s) (permissionPending s)
         (outputs s ++ fireEffects s)
  else s.

Definition onInputChange (s : state) (v : string) : state :=
  mkState (currentTime s) v (isAlarmSet s) false
    (notificationApi s) (notifPermission s) (permissionPending s) (outputs s).

Definition onSetAlarm (s : state) : state :=
  if bool_decide (alarmTime s <> "") then set_alarm_flags s true false else s.

Definition onCancel (s : state) : state := set_alarm_flags s false false.

Definition onPermission (s : state) (p : permission) : state :=
  mkState (currentTime s) (alarmTime s) (isAlarmSet s) (alarmTriggered s)
    (notificationApi s) p false (outputs s).

(** The check interval exists while [isAlarmSet && alarmTime] (line 19);
    the input is disabled while armed (line 100), Set Alarm when armed or
    the input is empty (line 110), Cancel when not armed (line 120). *)
Definition enabled (s : state) (e : event) : bool :=
  match e with
  | ClockTick _ => true
  | CheckTick _ => isAlarmSet s && bool_decide (alarmTime s <> "")
  | InputChange _ => negb (isAlarmSet s)
  | SetAlarm => negb (isAlarmSet s || bool_decide (alarmTime s = ""))
  | Cancel => isAlarmSet s
  | PermissionAnswer _ => permissionPending s
  end.

Definition handle (s : state) (e : event) : state :=
  match e with
  | ClockTick now => set_time s now
  | CheckTick now => checkAlarm s now
  | InputChange v => onInputChange s v
  | SetAlarm => onSetAlarm s
  | Cancel => onCancel s
  | PermissionAnswer p => onPermission s p
  end.

(** The widget mounted at time [now] in a browser with or without the
    Notification API and with permission [perm]. *)
Definition alarm_component (now : Z) (api : bool) (perm : permission)
  : Component state event :=
  {| c_init := init now api perm; c_enabled := enabled; c_handle := handle |}.

(** The status panel of lines 129-143. *)
Inductive status := Armed (t : string) | Ringing (t : string) | NoAlarm.

Definition statusView (s : state) : status :=
  if isAlarmSet s then Armed (alarmTime s)
  else if alarmTriggered s then Ringing (alarmTime s)
  else NoAlarm.

(** ** Specification-side helpers *)

(** The value an [<input type="time">] holds for hour [h], minute [m]. *)
Definition timeInputValue (h m : Z) : string :=
  String.append (pad2 h) (String ":" (pad2 m)).

(** The effects of a check: the alarm state after it fired. *)
Definition fired (s : state) : state :=
  mkState (currentTime s) (alarmTime s) false true
    (notificationApi s) (notifPermission s) (permissionPending s)
    (outputs s ++ fireEffects s).

(** Number of sounds played so far. *)
Definition sounds (s : state) : nat := count_occ effect_eq_dec (outputs s) PlaySound.

(** The check interval running over the callback times [ts]: each
    callback is delivered while the interval exists. *)
Fixpoint runChecks (s : state) (ts : list Z) : state :=
  match ts with
  | [] => s
  | t :: ts' => if enabled s (CheckTick t) then runChecks (checkAlarm s t) ts' else s
  end.

(** Callback times in order, at most [d] ms apart. *)
Fixpoint gaps_le (d : Z) (ts : list Z) : bool :=
  match ts with
  | t1 :: ((t2 :: _) as rest) => (t1 <=? t2) && (t2 - t1 <=? d) && gaps_le d rest
  | _ => true
  end.

(** The log ends with the effects of a firing: the sound, then the
    notification if one was shown, titled "Alarm!" with the text "It's T"
    of the current alarm time [T], the text the ringing panel shows. *)
Definition lastFiring (s : state) : bool :=
  match rev (outputs s) with
  | ShowNotification title body :: PlaySound :: _ =>
      bool_decide (title = "Alarm!" /\ body = String.append "It's " (alarmTime s))
  | PlaySound :: _ => true
  | _ => false
  end.

(** The invariant as an executable check: armed only with a typed time,
    never armed and ringing at once, and ringing only right after a
    firing whose effects end the log. *)
Definition wf (s : state) : bool :=
  implb (isAlarmSet s) (bool_decide (alarmTime s <> "")) &&
  negb (isAlarmSet s && alarmTriggered s) &&
  implb (alarmTriggered s) (lastFiring s).

(** ** Lemmas *)

Lemma split_timeInputValue h m :
  0 <= h < 100 -> 0 <= m < 100 ->
  js_split ":" (timeInputValue h m) = [pad2 h; pad2 m].
Proof.
  intros Hh Hm. unfold timeInputValue.
  rewrite js_split_app by auto with clock. rewrite js_split_lacks by auto with clock.
  done.
Qed.

Lemma timeInputValue_nonempty h m : timeInputValue h m <> "".
Proof. unfold timeInputValue. destruct (pad2 h); discriminate. Qed.

Lemma alarmMatches_timeInputValue h m now :
  0 <= h < 24 -> 0 <= m < 60 ->
  alarmMatches (timeInputValue h m) now =
    (getHours now =? h) && (getMinutes now =? m) && (getSeconds now =? 0).
Proof.
  intros Hh Hm. unfold alarmMatches. rewrite split_timeInputValue by lia.
  change ([pad2 h; pad2 m] !! 0%nat) with (Some (pad2 h)).
  change ([pad2 h; pad2 m] !! 1%nat) with (Some (pad2 m)).
  unfold parseInt_opt, default, id. rewrite !parseInt_pad2 by lia.
  f_equal. f_equal.
  - apply eq_bool_prop_intro. rewrite bool_decide_spec, Is_true_true, Z.eqb_eq.
    split; [by intros [= ->] | by intros ->].
  - apply eq_bool_prop_intro. rewrite bool_decide_spec, Is_true_true, Z.eqb_eq.
    split; [by intros [= ->] | by intros ->].
Qed.

Lemma sounds_fired s : sounds (fired s) = S (sounds s).
Proof.
  unfold sounds, fired, fireEffects. simpl. rewrite count_occ_app.
  simpl. destruct (effect_eq_dec PlaySound PlaySound); [|done].
  destruct (_ && _); simpl; lia.
Qed.

Definition armed_count (s : state) : nat := if isAlarmSet s then 1 else 0.

(** One deliverable event plays at most the sound that its arming paid
    for: sounds plus the armed flag grow only on [SetAlarm]. *)
Lemma sounds_step s e :
  enabled s e = true ->
  (sounds (handle s e) + armed_count (handle s e) <=
   sounds s + armed_count s + (if e is SetAlarm then 1 else 0))%nat.
Proof.
  intros He. destruct e; simpl in *; try (unfold armed_count, sounds; simpl; lia).
  - unfold checkAlarm. destruct (alarmMatches _ _); [|lia].
    change (mkState _ _ _ _ _ _ _ _) with (fired s).
    rewrite sounds_fired. unfold armed_count. simpl.
    apply andb_true_iff in He as [-> _]. lia.
  - unfold onSetAlarm, armed_count, sounds.
    destruct (isAlarmSet s); simpl in He; [discriminate|].
    apply negb_true_iff, bool_decide_eq_false in He.
    rewrite bool_decide_true by done. simpl. lia.
Qed.

Lemma runChecks_disarmed s ts : isAlarmSet s = false -> runChecks s ts = s.
Proof. destruct ts; simpl; [done|]. intros ->. done. Qed.

(** A check at any time within a second that starts at [T] reads the
    same hour, minute and second as [T]. *)
Lemma same_second t T :
  T mod 1000 = 0 -> T <= t < T + 1000 ->
  getHours t = getHours T /\ getMinutes t = getMinutes T /\ getSeconds t = getSeconds T.
Proof.
  intros HT Ht. unfold getHours, getMinutes, getSeconds.
  assert (E : t / 1000 = T / 1000) by zlia.
  change 3600000 with (1000 * 3600). change 60000 with (1000 * 60).
  rewrite <- !Z.div_div by lia. by rewrite E.
Qed.

(** Callback times at most one second apart, from before [T] to past the
    end of its second, hit that second. *)
Lemma gaps_hit_window ts t0 T :
  gaps_le 1000 (t0 :: ts) = true -> t0 <= T -> T + 999 <= List.last (t0 :: ts) t0 ->
  exists t, In t (t0 :: ts) /\ T <= t < T + 1000.
Proof.
  revert t0. induction ts as [|t1 ts IH]; intros t0 Hg H0 Hl.
  - simpl in Hl. lia.
  - simpl in Hg. apply andb_true_iff in Hg as [Hg Hrest].
    apply andb_true_iff in Hg as [H01 Hd]. apply Z.leb_le in H01, Hd.
    destruct (Z.eq_dec t0 T) as [->|Hne]; [exists T; simpl; lia|].
    destruct (Z_lt_le_dec t1 T) as [Hlt|Hge].
    + change (List.last (t0 :: t1 :: ts) t0) with (List.last (t1 :: ts) t0) in Hl.
      rewrite (last_nonempty_default t1 ts t0 t1) in Hl.
      destruct (IH t1 Hrest ltac:(lia) Hl) as (t & Hin & Ht).
      exists t. split; [right; done|done].
    + exists t1. simpl. lia.
Qed.

(** The three clock fields give the second of the day. *)
Lemma fields_second_of_day t :
  (t / 1000) mod 86400 = getSeconds t + 60 * getMinutes t + 3600 * getHours t.
Proof.
  unfold getHours, getMinutes, getSeconds.
  change 3600000 with (1000 * 3600). change 60000 with (1000 * 60).
  rewrite <- !Z.div_div by lia. generalize (t / 1000). intros u. zlia.
Qed.

(** A check less than a day after the target's second, or just before
    it, does not read its hour, minute and second. *)
Lemma fields_differ t T :
  T mod 1000 = 0 -> (t = T - 1 \/ T + 1000 <= t < T + 86400000) ->
  ~ (getHours t = getHours T /\ getMinutes t = getMinutes T /\ getSeconds t = getSeconds T).
Proof.
  intros HT Ht (E1 & E2 & E3).
  pose proof (fields_second_of_day t) as Ft. pose proof (fields_second_of_day T) as FT.
  rewrite E1, E2, E3, <- FT in Ft. zlia.
Qed.

(** Sounds plus the armed flag grow by at most the number of arming
    presses along any run. *)
Lemma exec_sounds s es s' :
  @exec _ _ (alarm_component 0 false Default) s es = Some s' ->
  (sounds s' + armed_count s' <= sounds s + armed_count s + count_occ event_eq_dec es SetAlarm)%nat.
Proof.
  revert s. induction es as [|e es IH]; intros s Hx; simpl in Hx.
  - simplify_eq. lia.
  - destruct (enabled s e) eqn:He; [|done].
    pose proof (sounds_step s e He). specialize (IH _ Hx).
    simpl. destruct (event_eq_dec e SetAlarm) as [->|Hne]; [lia|].
    destruct e; try lia; congruence.
Qed.

(** The run does not depend on the mount parameters, only the start. *)
Lemma exec_component_irrel now api perm now' api' perm' s es :
  @exec _ _ (alarm_component now api perm) s es =
  @exec _ _ (alarm_component now' api' perm') s es.
Proof. revert s. induction es as [|e es IH]; intros s; simpl; [done|]. by rewrite IH. Qed.

(** The checks leave an armed alarm unchanged until the first matching
    one, which fires it; the interval is then gone. *)
Lemma runChecks_fires s ts :
  isAlarmSet s = true -> alarmTime s <> "" ->
  (exists t, In t ts /\ alarmMatches (alarmTime s) t = true) ->
  runChecks s ts = fired s.
Proof.
  intros Ha Hne. induction ts as [|t ts IH]; intros (t' & Hin & Hm); [done|].
  simpl. rewrite Ha, bool_decide_true by done. simpl. unfold checkAlarm.
  destruct (alarmMatches (alarmTime s) t) eqn:Ht.
  - change (mkState _ _ _ _ _ _ _ _) with (fired s). by apply runChecks_disarmed.
  - apply IH. destruct Hin as [->|Hin]; [congruence|eauto].
Qed.

Lemma wf_fired s : wf (fired s) = true.
Proof.
  unfold wf, lastFiring, fired, fireEffects. cbn [isAlarmSet alarmTriggered outputs alarmTime].
  rewrite rev_app_distr.
  destruct (notificationApi s && bool_decide (notifPermission s = Granted)); simpl;
    [by rewrite bool_decide_true|done].
Qed.

Lemma alarm_wf_handle s e : wf s = true -> enabled s e = true -> wf (handle s e) = true.
Proof.
  intros Hw He. destruct e as [now|now|v| | |p]; simpl in He |- *.
  - exact Hw.
  - unfold checkAlarm. destruct (alarmMatches _ _); [apply wf_fired|exact Hw].
  - apply negb_true_iff in He. unfold wf, onInputChange. simpl. by rewrite He.
  - unfold onSetAlarm. destruct (decide (alarmTime s <> "")) as [Ht|Ht].
    + rewrite bool_decide_true by done. unfold wf, set_alarm_flags. simpl. by rewrite bool_decide_true.
    + rewrite bool_decide_false by done. exact Hw.
  - done.
  - exact Hw.
Qed.

(** ** Properties *)

(** C13 (functional): when the alarm holds the value ["HH:MM"] of the
    time input, a callback of the check interval at [now] fires it exactly
    when the clock reads hour HH, minute MM and second 0: it then disarms
    it, marks it ringing and plays the sound (and shows the notification
    when permitted); at any other time it changes nothing. *)
Theorem alarm_check_fires s h m now :
  0 <= h < 24 -> 0 <= m < 60 -> alarmTime s = timeInputValue h m ->
  handle s (CheckTick now) =
    if (getHours now =? h) && (getMinutes now =? m) && (getSeconds now =? 0)
    then fired s else s.
Proof.
  intros Hh Hm Ht. simpl. unfold checkAlarm. rewrite Ht.
  rewrite alarmMatches_timeInputValue by done. rewrite <- Ht. done.
Qed.

Lemma alarm_check_fires_witness :
  handle (mkState 0 (timeInputValue 7 30) true false true Granted false []) (CheckTick 27000000) =
    if (getHours 27000000 =? 7) && (getMinutes 27000000 =? 30) && (getSeconds 27000000 =? 0)
    then fired (mkState 0 (timeInputValue 7 30) true false true Granted false [])
    else mkState 0 (timeInputValue 7 30) true false true Granted false [].
Proof. apply alarm_check_fires; [lia | lia | reflexivity]. Defined.

(** C14 (safety): from the mount, the alarm sound plays at most once per
    press of Set Alarm, whatever the clock does: a fired alarm is
    disarmed and no further check runs until it is armed again. *)
Theorem alarm_rings_once_per_arming now api perm es s' :
  @exec _ _ (alarm_component now api perm) (init now api perm) es = Some s' ->
  (sounds s' <= count_occ event_eq_dec es SetAlarm)%nat.
Proof.
  intros Hx. rewrite (exec_component_irrel now api perm 0 false Default) in Hx.
  pose proof (exec_sounds _ _ _ Hx). unfold sounds, armed_count in *. simpl in *. lia.
Qed.

Lemma alarm_rings_once_per_arming_witness :
  (sounds (fired (mkState 0 (timeInputValue 7 30) true false true Granted false []))
   <= count_occ event_eq_dec
        [InputChange (timeInputValue 7 30); SetAlarm; CheckTick 26999000; CheckTick 27000000]
        SetAlarm)%nat.
Proof.
  apply (alarm_rings_once_per_arming 0 true Granted). vm_compute. reflexivity.
Defined.

(** C15 (invariant): in every state the alarm reaches from its mount, it
    is armed only with a typed time, never armed and ringing at once, and
    shows "Alarm ringing!" only right after a firing: the log ends with
    the sound and, if a notification was shown, with the notification
    "Alarm!" whose text "It's T" is the one the ringing panel shows. *)
Theorem alarm_invariant now api perm s :
  @reachable _ _ (alarm_component now api perm) s -> wf s = true.
Proof.
  apply (@reachable_inv _ _ (alarm_component now api perm) (fun s => wf s = true)).
  - reflexivity.
  - intros s' e Hw He. by apply alarm_wf_handle.
Qed.

Lemma alarm_invariant_witness :
  wf (fired (mkState 0 (timeInputValue 7 30) true false true Granted false [])) = true.
Proof.
  apply (alarm_invariant 0 true Granted).
  apply (@reachable_exec _ _ (alarm_component 0 true Granted)
           [InputChange (timeInputValue 7 30); SetAlarm; CheckTick 27000000]).
  vm_compute. reflexivity.
Defined.

(** C16 (liveness): an armed alarm holding ["HH:MM"] fires if its check
    interval calls back at most one second apart from before the target
    instant [T] (hour HH, minute MM, second 0) to after the end of that
    second: the run of checks ends in the fired state, with one sound. *)
Theorem alarm_fires_with_1s_checks s h m T t0 ts :
  isAlarmSet s = true -> alarmTime s = timeInputValue h m ->
  0 <= h < 24 -> 0 <= m < 60 ->
  T mod 1000 = 0 -> getHours T = h -> getMinutes T = m -> getSeconds T = 0 ->
  gaps_le 1000 (t0 :: ts) = true -> t0 <= T -> T + 999 <= List.last (t0 :: ts) t0 ->
  runChecks s (t0 :: ts) = fired s.
Proof.
  intros Ha Ht Hh Hm HT HTh HTm HTs Hg H0 Hl.
  apply runChecks_fires; [done | rewrite Ht; apply timeInputValue_nonempty |].
  destruct (gaps_hit_window ts t0 T Hg H0 Hl) as (t & Hin & Hwin).
  exists t. split; [done|]. rewrite Ht, alarmMatches_timeInputValue by done.
  destruct (same_second t T HT Hwin) as (E1 & E2 & E3).
  rewrite E1, E2, E3, HTh, HTm, HTs, !Z.eqb_refl. done.
Qed.

Lemma alarm_fires_with_1s_checks_witness :
  runChecks (mkState 0 (timeInputValue 7 30) true false true Granted false [])
            (26999500 :: [27000500; 27001500]) =
  fired (mkState 0 (timeInputValue 7 30) true false true Granted false []).
Proof.
  apply (alarm_fires_with_1s_checks _ 7 30 27000000); try reflexivity; try lia; simpl; lia.
Defined.

(** C17 (safety, a finding): the check fires only within second 0 of the
    target minute, so checks further apart than one second can miss it:
    for every armed alarm ["HH:MM"], every target instant [T] (hour HH,
    minute MM, second 0) and every spacing [d] above 1000 ms and at most a
    day, the checks at [T - 1] and [T - 1 + d] straddle that second and
    leave the alarm armed and silent.  A browser's [setInterval(..., 1000)]
    produces such a gap whenever a callback is delayed by a millisecond,
    and a background tab throttles it to a minute. *)
Theorem alarm_misses_with_late_check s h m T d :
  isAlarmSet s = true -> alarmTime s = timeInputValue h m ->
  0 <= h < 24 -> 0 <= m < 60 ->
  T mod 1000 = 0 -> getHours T = h -> getMinutes T = m -> getSeconds T = 0 ->
  1000 < d <= 86400000 ->
  gaps_le d [T - 1; T - 1 + d] = true /\ runChecks s [T - 1; T - 1 + d] = s.
Proof.
  intros Ha Ht Hh Hm HT HTh HTm HTs Hd.
  assert (Hno : forall t, (t = T - 1 \/ T + 1000 <= t < T + 86400000) ->
            alarmMatches (alarmTime s) t = false).
  { intros t Hw. rewrite Ht, alarmMatches_timeInputValue by done.
    destruct (getHours t =? h) eqn:E1, (getMinutes t =? m) eqn:E2, (getSeconds t =? 0) eqn:E3;
      try done.
    apply Z.eqb_eq in E1, E2, E3. exfalso. apply (fields_differ t T HT Hw). lia. }
  split; [cbn [gaps_le]; rewrite andb_true_r, andb_true_iff, !Z.leb_le; lia|].
  assert (E : forall t, (t = T - 1 \/ T + 1000 <= t < T + 86400000) -> checkAlarm s t = s).
  { intros t Hw. unfold checkAlarm. by rewrite Hno. }
  cbn [runChecks]. rewrite (E (T - 1)), (E (T - 1 + d)) by lia. cbn [enabled].
  rewrite Ha, bool_decide_true by (rewrite Ht; apply timeInputValue_nonempty). done.
Qed.

Lemma alarm_misses_with_late_check_witness :
  gaps_le 1001 [27000000 - 1; 27000000 - 1 + 1001] = true /\
  runChecks (mkState 0 (timeInputValue 7 30) true false true Granted false [])
    [27000000 - 1; 27000000 - 1 + 1001] =
  mkState 0 (timeInputValue 7 30) true false true Granted false [].
Proof.
  apply (alarm_misses_with_late_check _ 7 30 27000000 1001); try reflexivity; lia.
Defined.

End Alarm.
