(* ===== verification/AlarmSpec.v ===== *)
(** The alarm clock against the state machine its specification gives
    (spec section 4.2): Idle, Armed with a target time, and Fired, with
    the transitions arm, fire (when the clock reaches the target minute at
    second 0), cancel, and from Fired back to Idle ("the user cancels")
    or to Armed (re-arming).  The abstraction reads the phase off the
    hooks of [src/src/components/features/AlarmClock.tsx]: [isAlarmSet]
    is Armed, [alarmTriggered] is Fired, the target is [alarmTime].  The
    runs considered are those whose time-input changes carry what an
    [<input type="time">] delivers: the empty string or ["HH:MM"].  The
    theorem: every step of the code is a stutter or a transition of the
    specification, firing only at a matching clock reading; and a fired
    alarm cannot be cancelled, as the Cancel button is disabled then: it
    leaves Fired only when the input is edited or the alarm re-armed. *)

From S2P Require Import Prelude JsRuntime Alarm.

Module AlarmSpec.

Open Scope Z_scope.

Import Alarm.

(** ** The specification *)

(** The phase of the alarm setting, with its target time of day. *)
Inductive phase :=
| Idle
| ArmedP (target : string)
| Fired (target : string).

(** The hour and minute of a time input value ["HH:MM"]. *)
Definition timeOfInput (v : string) : option (Z * Z) :=
  match js_split ":" v with
  | [a; b] =>
      match parseInt a, parseInt b with
      | Some h, Some m =>
          if (0 <=? h) && (h <? 24) && (0 <=? m) && (m <? 60) &&
             String.eqb (timeInputValue h m) v
          then Some (h, m) else None
      | _, _ => None
      end
  | _ => None
  end.

(** The clock reading [now] is the target minute at second 0. *)
Definition matchesTarget (target : string) (now : Z) : bool :=
  match timeOfInput target with
  | Some (h, m) => (getHours now =? h) && (getMinutes now =? m) && (getSeconds now =? 0)
  | None => false
  end.

(** The transitions, labelled with the clock reading of a firing. *)
Inductive aStep : phase -> option Z -> phase -> Prop :=
| a_arm t : timeOfInput t <> None -> aStep Idle None (ArmedP t)
| a_fire t now : matchesTarget t now = true -> aStep (ArmedP t) (Some now) (Fired t)
| a_cancel t : aStep (ArmedP t) None Idle
| a_dismiss t : aStep (Fired t) None Idle
| a_rearm t : aStep (Fired t) None (ArmedP t).

Inductive aReach : phase -> Prop :=
| ar_init : aReach Idle
| ar_step p o p' : aReach p -> aStep p o p' -> aReach p'.

(** ** The correspondence *)

(** The phase the hooks encode. *)
Definition abs (s : state) : phase :=
  if isAlarmSet s then ArmedP (alarmTime s)
  else if alarmTriggered s then Fired (alarmTime s)
  else Idle.

(** The label of a code event: the clock reading of a check. *)
Definition obs (e : event) : option Z :=
  match e with CheckTick now => Some now | _ => None end.

(** A value an [<input type="time">] can hold. *)
Definition inputOk (v : string) : bool :=
  bool_decide (v = "") || bool_decide (timeOfInput v <> None).

Definition evOk (e : event) : bool :=
  match e with InputChange v => inputOk v | _ => true end.

Section Runs.

Context (now0 : Z) (api : bool) (perm : permission).

(** The states of the runs whose input changes are well formed. *)
Inductive okReach : state -> Prop :=
| ok_init : okReach (init now0 api perm)
| ok_step s e : okReach s -> enabled s e = true -> evOk e = true -> okReach (handle s e).

End Runs.

(** ** Lemmas *)

Lemma timeOfInput_spec v h m :
  timeOfInput v = Some (h, m) -> 0 <= h < 24 /\ 0 <= m < 60 /\ v = timeInputValue h m.
Proof.
  unfold timeOfInput. destruct (js_split ":" v) as [|a [|b [|]]]; try discriminate.
  destruct (parseInt a) as [h'|], (parseInt b) as [m'|]; try discriminate.
  destruct (_ && _) eqn:Hc; [|discriminate]. intros [= <- <-].
  rewrite !andb_true_iff, !Z.leb_le, !Z.ltb_lt, String.eqb_eq in Hc.
  destruct_and!. split_and!; [lia..|congruence].
Qed.

(** A check fires an armed alarm holding a well-formed time exactly at
    the target minute's second 0. *)
Lemma alarmMatches_target t now :
  timeOfInput t <> None -> alarmMatches t now = matchesTarget t now.
Proof.
  unfold matchesTarget. destruct (timeOfInput t) as [[h m]|] eqn:E; [|done]. intros _.
  destruct (timeOfInput_spec t h m E) as (Hh & Hm & ->).
  by apply alarmMatches_timeInputValue.
Qed.

Lemma okReach_inv now0 api perm s :
  okReach now0 api perm s -> wf s = true /\ inputOk (alarmTime s) = true.
Proof.
  induction 1 as [|s e Hr [Hw Hi] He Hok]; [done|].
  split; [by apply alarm_wf_handle|].
  destruct e; simpl in *; unfold checkAlarm, onSetAlarm in *;
    repeat case_match; try done; cbn; done.
Qed.

Lemma armed_target s :
  wf s = true -> inputOk (alarmTime s) = true -> isAlarmSet s = true ->
  timeOfInput (alarmTime s) <> None.
Proof.
  unfold wf, inputOk. intros Hw Hi Ha. rewrite Ha in Hw. simpl in Hw.
  apply andb_true_iff in Hw as [[Hne%bool_decide_eq_true _]%andb_true_iff _].
  apply orb_true_iff in Hi as [He%bool_decide_eq_true|Ht%bool_decide_eq_true]; done.
Qed.

(** ** Properties *)

(** C18 (refinement): on every run whose input changes are values of a
    time input, the phase the hooks encode is reachable in the
    specification's state machine, and each deliverable event is a
    stutter or a transition of it: arming needs a well-formed time, a
    check fires only at the target minute's second 0, cancelling returns
    to Idle.  Unlike the specification's "the user cancels", a fired
    alarm cannot be cancelled: Cancel is disabled in that phase, and the
    only events that leave it are editing the input and re-arming. *)
Theorem alarm_refines_spec now0 api perm s :
  okReach now0 api perm s ->
  aReach (abs s) /\
  (forall e, enabled s e = true -> evOk e = true ->
     abs (handle s e) = abs s \/ aStep (abs s) (obs e) (abs (handle s e))) /\
  (forall t, abs s = Fired t ->
     enabled s Cancel = false /\
     forall e, enabled s e = true -> abs (handle s e) <> abs s ->
       (exists v, e = InputChange v) \/ e = SetAlarm).
Proof.
  (* One step of the code is a stutter or a transition of the
     specification. *)
  assert (Hstep : forall s e, wf s = true -> inputOk (alarmTime s) = true ->
            enabled s e = true -> evOk e = true ->
            abs (handle s e) = abs s \/ aStep (abs s) (obs e) (abs (handle s e))).
  { clear s. intros s e Hw Hi He Hok. pose proof (armed_target s Hw Hi) as Ht.
    unfold abs. destruct e as [now|now|v| | |p]; simpl in He |- *.
    - by left.
    - apply andb_true_iff in He as [Ha _]. unfold checkAlarm.
      destruct (alarmMatches (alarmTime s) now) eqn:Hm; [|by left].
      right. rewrite Ha. simpl. apply a_fire. by rewrite <- alarmMatches_target by auto.
    - apply negb_true_iff in He. rewrite He. simpl.
      destruct (alarmTriggered s); [right; constructor|by left].
    - apply negb_true_iff, orb_false_iff in He as [Ha Hne]. apply bool_decide_eq_false in Hne.
      unfold onSetAlarm. rewrite bool_decide_true by done. simpl. right. rewrite Ha.
      unfold inputOk in Hi. rewrite bool_decide_false in Hi by done. simpl in Hi.
      apply bool_decide_eq_true in Hi.
      destruct (alarmTriggered s); constructor; done.
    - rewrite He. right. constructor.
    - by left. }
  intros Hr. split_and!.
  - induction Hr as [|s e Hr IH He Hok]; [constructor|].
    destruct (okReach_inv _ _ _ _ Hr) as [Hw Hi].
    destruct (Hstep s e Hw Hi He Hok) as [->|Hs]; [done|]. by eapply ar_step.
  - destruct (okReach_inv _ _ _ _ Hr) as [Hw Hi]. intros e. by apply Hstep.
  - intros t Hf. unfold abs in Hf. destruct (isAlarmSet s) eqn:Ha; [discriminate|].
    split; [exact Ha|]. intros e He Hne.
    destruct e as [now|now|v| | |p]; simpl in He; rewrite ?Ha in He; try discriminate; eauto.
    + by destruct Hne.
    + by destruct Hne.
Qed.

Lemma alarm_refines_spec_witness :
  aReach (abs (fired (mkState 0 (timeInputValue 7 30) true false true Granted false []))) /\
  (forall e, enabled (fired (mkState 0 (timeInputValue 7 30) true false true Granted false [])) e = true ->
     evOk e = true ->
     abs (handle (fired (mkState 0 (timeInputValue 7 30) true false true Granted false [])) e) =
       abs (fired (mkState 0 (timeInputValue 7 30) true false true Granted false [])) \/
     aStep (abs (fired (mkState 0 (timeInputValue 7 30) true false true Granted false [])))
       (obs e) (abs (handle (fired (mkState 0 (timeInputValue 7 30) true false true Granted false [])) e))) /\
  (forall t, abs (fired (mkState 0 (timeInputValue 7 30) true false true Granted false [])) = Fired t ->
     enabled (fired (mkState 0 (timeInputValue 7 30) true false true Granted false [])) Cancel = false /\
     forall e, enabled (fired (mkState 0 (timeInputValue 7 30) true false true Granted false [])) e = true ->
       abs (handle (fired (mkState 0 (timeInputValue 7 30) true false true Granted false [])) e) <>
         abs (fired (mkState 0 (timeInputValue 7 30) true false true Granted false [])) ->
       (exists v, e = InputChange v) \/ e = SetAlarm).
Proof.
  apply (alarm_refines_spec 0 true Granted).
  change (fired (mkState 0 (timeInputValue 7 30) true false true Granted false []))
    with (handle (mkState 0 (timeInputValue 7 30) true false true Granted false []) (CheckTick 27000000)).
  apply ok_step; [|reflexivity|reflexivity].
  change (mkState 0 (timeInputValue 7 30) true false true Granted false [])
    with (handle (mkState 0 (timeInputValue 7 30) false false true Granted false []) SetAlarm).
  apply ok_step; [|reflexivity|reflexivity].
  change (mkState 0 (timeInputValue 7 30) false false true Granted false [])
    with (handle (init 0 true Granted) (InputChange (timeInputValue 7 30))).
  apply ok_step; [apply ok_init|reflexivity|vm_compute; reflexivity].
Defined.

End AlarmSpec.
