(* ===== verification/Calendar.v ===== *)
(** The date and time texts the widgets render with
    [Date.prototype.toLocaleDateString] and [toLocaleTimeString] in the
    ['en-US'] locale: [formatDate] and [formatTime] of
    [src/src/components/features/AlarmClock.tsx] (lines 48-64) and
    [getCurrentDate] of [src/src/components/features/Weather.tsx]
    (lines 106-113), which use the same options.  A local time is a count
    of milliseconds, as in [Alarm]; its day number is [Day(t)] of
    ECMA-262, its weekday [WeekDay(t)], and its civil date (year, month,
    day of the proleptic Gregorian calendar) is computed by the
    day-of-era arithmetic of the 400-year cycle (146097 days).  The
    lemmas prove it against [MakeDay], written as [days_from_civil]: the
    two conversions are mutual inverses, so a day number's civil date is
    the valid date whose day number it is.  The year-of-era
    arithmetic is proved by [lia] on the Euclidean equations of its
    divisions; the split of a day of the year into month and day, by
    evaluation on its 366 days and 372 month-day pairs.  Years before 1 (dates
    before 0001-01-01, which Intl writes with an era) are not modelled:
    [formatDate] gives [None] there. *)

From S2P Require Import Prelude JsRuntime Alarm.

Module Calendar.

Open Scope Z_scope.

(** ** Days and civil dates *)

Definition msPerDay : Z := 86400000.

(** [Day(t)]. *)
Definition day (t : Z) : Z := t / msPerDay.

(** [WeekDay(t)]: 0 for Sunday; 1970-01-01 was a Thursday. *)
Definition weekDay (z : Z) : Z := (z + 4) mod 7.

(** The month (3-12, then 1-2) and day of a day [0 <= doy < 366] of a
    year counted from March 1st. *)
Definition monthOfDoy (doy : Z) : Z * Z :=
  let mp := (5 * doy + 2) / 153 in
  (if mp <? 10 then mp + 3 else mp - 9, doy - (153 * mp + 2) / 5 + 1).

(** The year of era, month and day of a day of era [0 <= doe < 146097]:
    the 4-, 100- and 400-year corrections give the year, the rest of the
    day of era is its day of the year. *)
Definition civil_of_doe (doe : Z) : Z * Z * Z :=
  let yoe := (doe - doe / 1460 + doe / 36524 - doe / 146096) / 365 in
  let '(m, d) := monthOfDoy (doe - (365 * yoe + yoe / 4 - yoe / 100)) in
  (yoe, m, d).

(** The year of a March-based year of era is one more in January and
    February. *)
Definition janFeb (m : Z) : Z := if m <=? 2 then 1 else 0.

(** [YearFromTime], [MonthFromTime] + 1 and [DateFromTime] of a day
    number: year, month (1-12) and day of the month. *)
Definition civil_from_days (z : Z) : Z * Z * Z :=
  let z' := z + 719468 in
  let '(yoe, m, d) := civil_of_doe (z' mod 146097) in
  (yoe + (z' / 146097) * 400 + janFeb m, m, d).

(** ** The texts *)

Definition weekdayName (w : Z) : string :=
  nth (Z.to_nat w) ["Sunday"; "Monday"; "Tuesday"; "Wednesday"; "Thursday"; "Friday"; "Saturday"] "".

Definition monthName (m : Z) : string :=
  nth (Z.to_nat (m - 1)) ["January"; "February"; "March"; "April"; "May"; "June"; "July";
                          "August"; "September"; "October"; "November"; "December"] "".

(** The long en-US date of a civil date with its weekday. *)
Definition longDate (w y m d : Z) : string :=
  String.append (weekdayName w) (String.append ", "
    (String.append (monthName m) (String.append " "
      (String.append (js_int_to_string d) (String.append ", " (js_int_to_string y)))))).

(** [toLocaleDateString('en-US', {weekday: 'long', year: 'numeric',
    month: 'long', day: 'numeric'})] (AlarmClock.tsx lines 57-64,
    Weather.tsx lines 106-113). *)
Definition formatDate (t : Z) : option string :=
  let '(y, m, d) := civil_from_days (day t) in
  if y <? 1 then None else Some (longDate (weekDay (day t)) y m d).

(** The hour cycle [hour12: false] selects in the en-US locale: [H23]
    (00-23) or [H24] (01-24, midnight hour written 24), as engines have
    resolved it differently. *)
Inductive hourCycle := H23 | H24.

(** [toLocaleTimeString('en-US', {hour12: false, hour: '2-digit',
    minute: '2-digit', second: '2-digit'})] (AlarmClock.tsx lines 48-55). *)
Definition formatTime (hc : hourCycle) (t : Z) : string :=
  let h := Alarm.getHours t in
  let h' := match hc with H23 => h | H24 => if h =? 0 then 24 else h end in
  String.append (pad2 h') (String ":" (String.append (pad2 (Alarm.getMinutes t))
                                        (String ":" (pad2 (Alarm.getSeconds t))))).

(** ** Specification-side helpers *)

(** The day of the March-based year of a month and day. *)
Definition doyOfMonth (m d : Z) : Z :=
  (153 * (if 2 <? m then m - 3 else m + 9) + 2) / 5 + d - 1.

(** The day of era of a year of era, month and day. *)
Definition doe_of_civil (yoe m d : Z) : Z :=
  yoe * 365 + yoe / 4 - yoe / 100 + doyOfMonth m d.

(** [MakeDay(y, m - 1, d)]: the day number of a civil date. *)
Definition days_from_civil (y m d : Z) : Z :=
  let y' := y - janFeb m in
  (y' / 400) * 146097 + doe_of_civil (y' mod 400) m d - 719468.

(** The Gregorian leap-year rule. *)
Definition isLeap (y : Z) : bool :=
  (y mod 4 =? 0) && (negb (y mod 100 =? 0) || (y mod 400 =? 0)).

Definition monthLength (leap : bool) (m : Z) : Z :=
  if m =? 2 then (if leap then 29 else 28)
  else if (m =? 4) || (m =? 6) || (m =? 9) || (m =? 11) then 30
  else 31.

Definition daysInMonth (y m : Z) : Z := monthLength (isLeap y) m.

Definition validDate (y m d : Z) : bool :=
  (1 <=? m) && (m <=? 12) && (1 <=? d) && (d <=? daysInMonth y m).

(** The split of a day of the year: a valid month and day, the 366th day
    being February 29th, which converts back. *)
Definition doy_ok (doy : Z) : bool :=
  let '(m, d) := monthOfDoy doy in
  (1 <=? m) && (m <=? 12) && (1 <=? d) && (d <=? monthLength (doy =? 365) m) &&
  implb (doy =? 365) ((m =? 2) && (d =? 29)) && (doyOfMonth m d =? doy).

(** A month and day of a leap year gives a day of the year, the 366th only
    for February 29th, whose split is that month and day. *)
Definition md_ok (m d : Z) : bool :=
  implb (d <=? monthLength true m)
    (let doy := doyOfMonth m d in
     (0 <=? doy) && (doy <=? 365) && implb (doy =? 365) ((m =? 2) && (d =? 29)) &&
     bool_decide (monthOfDoy doy = (m, d))).

(** ** Lemmas *)

Lemma isLeap_spec y : isLeap y = true <-> y mod 4 = 0 /\ (y mod 100 <> 0 \/ y mod 400 = 0).
Proof.
  unfold isLeap. rewrite andb_true_iff, orb_true_iff, negb_true_iff, !Z.eqb_eq, Z.eqb_neq.
  tauto.
Qed.

(** Leap years, and so the lengths of the months, repeat every 400 years. *)
Lemma isLeap_mod y : isLeap y = isLeap (y mod 400).
Proof.
  unfold isLeap.
  assert (H4 : (y mod 400) mod 4 = y mod 4) by zlia.
  assert (H100 : (y mod 400) mod 100 = y mod 100) by zlia.
  by rewrite H4, H100, Z.mod_mod by lia.
Qed.

Lemma validDate_shift y k m d : validDate (y + k * 400) m d = validDate y m d.
Proof.
  unfold validDate, daysInMonth. rewrite (isLeap_mod (y + k * 400)), (isLeap_mod y).
  by rewrite Z.mod_add by lia.
Qed.

Lemma monthLength_bounds b m :
  monthLength false m <= monthLength b m <= monthLength true m /\ monthLength true m <= 31.
Proof. unfold monthLength. destruct b; repeat case_match; lia. Qed.

(** The year of era and the day of the year of a day of era. *)
Lemma yoe_of_doe doe : 0 <= doe < 146097 ->
  let yoe := (doe - doe / 1460 + doe / 36524 - doe / 146096) / 365 in
  let doy := doe - (365 * yoe + yoe / 4 - yoe / 100) in
  0 <= yoe < 400 /\ 0 <= doy <= 365 /\ (doy = 365 -> isLeap (yoe + 1) = true).
Proof. intros H yoe doy. rewrite isLeap_spec. unfold doy, yoe. zlia. Qed.

(** The day of era of a year of era and a day of its year, which gives
    that year of era back. *)
Lemma doe_of_yoe yoe doy :
  0 <= yoe < 400 -> 0 <= doy <= 365 -> (doy = 365 -> isLeap (yoe + 1) = true) ->
  let doe := 365 * yoe + yoe / 4 - yoe / 100 + doy in
  0 <= doe < 146097 /\ (doe - doe / 1460 + doe / 36524 - doe / 146096) / 365 = yoe.
Proof. intros H1 H2 H3 doe. rewrite isLeap_spec in H3. unfold doe. zlia. Qed.

Lemma doy_ok_all doy : 0 <= doy < 366 -> doy_ok doy = true.
Proof. intros Hd. apply (forall_range_spec doy_ok 0 366); [vm_compute; reflexivity | lia]. Qed.

Lemma md_ok_all m d : 1 <= m <= 12 -> 1 <= d <= 31 -> md_ok m d = true.
Proof.
  intros Hm Hd.
  assert (Hall : forall_range (fun m => forall_range (md_ok m) 1 31) 1 12 = true)
    by (vm_compute; reflexivity).
  apply (forall_range_spec _ 1 31 (forall_range_spec _ 1 12 Hall m ltac:(lia))). lia.
Qed.

(** Every day of era is a valid date of its cycle, which converts back. *)
Lemma civil_of_doe_spec doe : 0 <= doe < 146097 ->
  let '(yoe, m, d) := civil_of_doe doe in
  0 <= yoe < 400 /\ validDate (yoe + janFeb m) m d = true /\ doe_of_civil yoe m d = doe.
Proof.
  intros H. destruct (yoe_of_doe doe H) as (Hy & Hd & Hl). unfold civil_of_doe.
  revert Hy Hd Hl.
  set (yoe := (doe - doe / 1460 + doe / 36524 - doe / 146096) / 365).
  set (doy := doe - (365 * yoe + yoe / 4 - yoe / 100)). intros Hy Hd Hl.
  pose proof (doy_ok_all doy ltac:(lia)) as Hok. unfold doy_ok in Hok.
  destruct (monthOfDoy doy) as [m d] eqn:E.
  rewrite !andb_true_iff, !Z.leb_le, Z.eqb_eq in Hok.
  destruct Hok as [[[[[Hm1 Hm2] Hd1] Hd2] Hleap] Hback].
  refine (conj Hy (conj _ _)); [|unfold doe_of_civil; rewrite Hback; unfold doy; lia].
  unfold validDate, daysInMonth. rewrite !andb_true_iff, !Z.leb_le. split_and!; try done.
  destruct (Z.eqb_spec doy 365) as [E365|Hne].
  - simpl in Hleap. apply andb_true_iff in Hleap as [Hm Hd29]. apply Z.eqb_eq in Hm as ->.
    unfold janFeb. simpl. rewrite (Hl E365). done.
  - pose proof (monthLength_bounds (isLeap (yoe + janFeb m)) m). lia.
Qed.

(** Every valid date of a cycle is the date of its day of era. *)
Lemma civil_of_doe_inv yoe m d :
  0 <= yoe < 400 -> validDate (yoe + janFeb m) m d = true ->
  0 <= doe_of_civil yoe m d < 146097 /\ civil_of_doe (doe_of_civil yoe m d) = (yoe, m, d).
Proof.
  intros Hy Hv. unfold validDate, daysInMonth in Hv.
  rewrite !andb_true_iff, !Z.leb_le in Hv. destruct Hv as [[[Hm1 Hm2] Hd1] Hd2].
  pose proof (monthLength_bounds (isLeap (yoe + janFeb m)) m) as Hb.
  pose proof (md_ok_all m d ltac:(lia) ltac:(lia)) as Hok. unfold md_ok in Hok.
  replace (d <=? monthLength true m) with true in Hok by lia. simpl in Hok.
  rewrite !andb_true_iff, !Z.leb_le in Hok. destruct Hok as [[[H0 H365] Hleap] Hmd].
  apply bool_decide_eq_true in Hmd.
  assert (Hl : doyOfMonth m d = 365 -> isLeap (yoe + 1) = true).
  { intros E. rewrite E in Hleap. simpl in Hleap.
    apply andb_true_iff in Hleap as [Hm Hd29]. apply Z.eqb_eq in Hm as ->. apply Z.eqb_eq in Hd29 as ->.
    destruct (isLeap (yoe + 1)) eqn:HL; [done|].
    change (janFeb 2) with 1 in Hd2. rewrite HL in Hd2. change (monthLength false 2) with 28 in Hd2. lia. }
  destruct (doe_of_yoe yoe (doyOfMonth m d) Hy ltac:(lia) Hl) as [Hr Hyoe].
  unfold doe_of_civil. split; [lia|]. unfold civil_of_doe.
  replace (yoe * 365 + yoe / 4 - yoe / 100 + doyOfMonth m d)
    with (365 * yoe + yoe / 4 - yoe / 100 + doyOfMonth m d) by lia.
  rewrite Hyoe.
  replace (365 * yoe + yoe / 4 - yoe / 100 + doyOfMonth m d - (365 * yoe + yoe / 4 - yoe / 100))
    with (doyOfMonth m d) by lia.
  by rewrite Hmd.
Qed.

(** Every day number has a valid civil date, which converts back. *)
Lemma civil_from_days_spec z :
  exists y m d, civil_from_days z = (y, m, d) /\ validDate y m d = true /\ days_from_civil y m d = z.
Proof.
  unfold civil_from_days. set (z' := z + 719468).
  pose proof (civil_of_doe_spec (z' mod 146097) ltac:(zlia)) as H.
  destruct (civil_of_doe (z' mod 146097)) as [[yoe m] d] eqn:E.
  destruct H as (Hy & Hv & Hd).
  eexists _, m, d. split_and!; [done| |].
  - replace (yoe + z' / 146097 * 400 + janFeb m) with (yoe + janFeb m + z' / 146097 * 400) by lia.
    by rewrite validDate_shift.
  - unfold days_from_civil.
    replace (yoe + z' / 146097 * 400 + janFeb m - janFeb m) with (yoe + z' / 146097 * 400) by lia.
    replace ((yoe + z' / 146097 * 400) mod 400) with yoe by zlia.
    replace ((yoe + z' / 146097 * 400) / 400) with (z' / 146097) by zlia.
    rewrite Hd. unfold z'. zlia.
Qed.

(** A valid civil date is the date of its day number. *)
Lemma days_from_civil_spec y m d :
  validDate y m d = true -> civil_from_days (days_from_civil y m d) = (y, m, d).
Proof.
  intros Hv. set (y' := y - janFeb m).
  assert (Hv' : validDate (y' mod 400 + janFeb m) m d = true).
  { replace (y' mod 400 + janFeb m) with (y + (- (y' / 400)) * 400) by (unfold y'; zlia).
    by rewrite validDate_shift. }
  destruct (civil_of_doe_inv (y' mod 400) m d ltac:(zlia) Hv') as [[H0 H1] Hc].
  unfold days_from_civil, civil_from_days. fold y'.
  remember (doe_of_civil (y' mod 400) m d) as doe eqn:Edoe. clear Edoe.
  replace ((y' / 400 * 146097 + doe - 719468 + 719468) mod 146097) with doe by zlia.
  rewrite Hc. f_equal. f_equal. unfold y'. zlia.
Qed.

End Calendar.
