(* ===== verification/AlarmView.v ===== *)
(** What the alarm clock of [src/src/components/features/AlarmClock.tsx]
    renders (lines 66-146): the clock and the date of [currentTime]
    through [formatTime] and [formatDate] (lines 48-64, modelled in
    [Calendar]), the time input with its value and [disabled] flag, the
    two buttons' [disabled] flags and the status panel.  The theorems: the
    date line is the en-US long date of the current day, and the
    clock reads back as the current hour, minute and second, and at the
    instant the alarm fires it reads the alarm's time at second 0, except
    under the [h24] hour cycle, where the midnight hour reads 24 while the
    alarm holds 00. *)

From S2P Require Import Prelude JsRuntime Alarm Calendar.

Module AlarmView.

Open Scope Z_scope.

Import Alarm.

(** The rendered texts and controls. *)
Record alarmView := mkAlarmView {
  clockText : string;         (** line 72 *)
  dateText : option string;   (** line 75 *)
  inputValue : string;        (** line 95 *)
  inputDisabled : bool;       (** line 100 *)
  setDisabled : bool;         (** line 110 *)
  cancelDisabled : bool;      (** line 120 *)
  panel : status              (** lines 129-143 *)
}.

Definition renderAlarm (hc : Calendar.hourCycle) (s : state) : alarmView :=
  mkAlarmView (Calendar.formatTime hc (currentTime s)) (Calendar.formatDate (currentTime s))
    (alarmTime s) (isAlarmSet s) (isAlarmSet s || bool_decide (alarmTime s = ""))
    (negb (isAlarmSet s)) (statusView s).

(** ** Specification-side helpers *)

(** Reading an ["HH:MM:SS"] clock back. *)
Definition readClock (str : string) : option (Z * Z * Z) :=
  match js_split ":" str with
  | [h; m; sec] =>
      match parseInt h, parseInt m, parseInt sec with
      | Some h', Some m', Some s' => Some (h', m', s')
      | _, _, _ => None
      end
  | _ => None
  end.

(** ** Lemmas *)

Lemma clock_fields_range t :
  0 <= getHours t < 24 /\ 0 <= getMinutes t < 60 /\ 0 <= getSeconds t < 60.
Proof. unfold getHours, getMinutes, getSeconds. split_and!; apply Z.mod_pos_bound; lia. Qed.

(** A match pins the three fields of the clock. *)
Lemma alarmMatches_fields h m now :
  0 <= h < 24 -> 0 <= m < 60 -> alarmMatches (timeInputValue h m) now = true ->
  getHours now = h /\ getMinutes now = m /\ getSeconds now = 0.
Proof.
  intros Hh Hm. rewrite alarmMatches_timeInputValue by done.
  rewrite !andb_true_iff, !Z.eqb_eq. tauto.
Qed.

(** ** Properties *)

(** C27 (functional, engine-dependent): the clock text reads back as the
    hour, minute and second of the current time; and when the check
    interval fires an alarm set to ["HH:MM"], the clock ticking at the
    same instant shows ["HH:MM:00"] under the [h23] hour cycle, but under
    [h24] an alarm set in the midnight hour ["00:MM"] rings while the
    clock shows ["24:MM:00"]. *)
Theorem alarm_clock_display s h m now :
  (forall t, readClock (clockText (renderAlarm Calendar.H23 (set_time s t))) =
             Some (getHours t, getMinutes t, getSeconds t)) /\
  (0 <= h < 24 -> 0 <= m < 60 -> alarmMatches (timeInputValue h m) now = true ->
   clockText (renderAlarm Calendar.H23 (set_time s now)) =
     String.append (timeInputValue h m) ":00" /\
   clockText (renderAlarm Calendar.H24 (set_time s now)) =
     String.append (if h =? 0 then String.append "24" (String ":" (pad2 m)) else timeInputValue h m)
       ":00").
Proof.
  split.
  - intros t. cbn [clockText renderAlarm set_time currentTime].
    destruct (clock_fields_range t) as (Hh & Hm & Hs).
    change (Calendar.formatTime Calendar.H23 t) with
      (String.append (pad2 (getHours t))
         (String ":" (String.append (pad2 (getMinutes t)) (String ":" (pad2 (getSeconds t)))))).
    unfold readClock.
    rewrite js_split_app by (apply pad2_lacks_colon; lia).
    rewrite js_split_app by (apply pad2_lacks_colon; lia).
    rewrite js_split_lacks by (apply pad2_lacks_colon; lia).
    by rewrite !parseInt_pad2 by lia.
  - intros Hh Hm Hmatch.
    cbn [clockText renderAlarm set_time currentTime]. unfold Calendar.formatTime.
    destruct (alarmMatches_fields h m now Hh Hm Hmatch) as (-> & -> & ->).
    unfold timeInputValue. split.
    + by rewrite <- string_app_assoc.
    + destruct (h =? 0) eqn:H0; [|by rewrite <- string_app_assoc].
      apply Z.eqb_eq in H0 as ->. reflexivity.
Qed.

Lemma alarm_clock_display_witness :
  clockText (renderAlarm Calendar.H23 (set_time (init 0 true Granted) 1800000)) =
    String.append (timeInputValue 0 30) ":00" /\
  clockText (renderAlarm Calendar.H24 (set_time (init 0 true Granted) 1800000)) = "24:30:00".
Proof.
  destruct (alarm_clock_display (init 0 true Granted) 0 30 1800000) as [_ H].
  destruct (H ltac:(lia) ltac:(lia) ltac:(vm_compute; reflexivity)) as [H1 H2].
  split; [exact H1|]. rewrite H2. reflexivity.
Defined.

(** C4 (functional): the date line of the alarm clock at a local time
    [t] of a valid date [y-m-d] of year 1 or later (the date whose
    [MakeDay] is the day of [t]) is the en-US long date: the English
    weekday name (counted from Thursday, 1970-01-01, as [WeekDay] does),
    a comma, the month name, the day and, after a comma, the year,
    whatever the time of day and the rest of the widget's state. *)
Theorem alarm_date_line hc s t y m d :
  Calendar.validDate y m d = true -> 1 <= y -> Calendar.day t = Calendar.days_from_civil y m d ->
  dateText (renderAlarm hc (set_time s t)) =
    Some (String.append
      (nth (Z.to_nat ((Calendar.days_from_civil y m d + 4) mod 7))
         ["Sunday"; "Monday"; "Tuesday"; "Wednesday"; "Thursday"; "Friday"; "Saturday"] "")
      (String.append ", "
        (String.append
          (nth (Z.to_nat (m - 1))
             ["January"; "February"; "March"; "April"; "May"; "June"; "July";
              "August"; "September"; "October"; "November"; "December"] "")
          (String.append " "
            (String.append (js_int_to_string d) (String.append ", " (js_int_to_string y))))))).
Proof.
  intros Hv Hy Ht. cbn [dateText renderAlarm set_time currentTime].
  unfold Calendar.formatDate. rewrite Ht, Calendar.days_from_civil_spec by done.
  replace (y <? 1) with false by lia. reflexivity.
Qed.

Lemma alarm_date_line_witness :
  dateText (renderAlarm Calendar.H23 (set_time (init 0 true Granted) (19723 * 86400000 + 45296000))) =
    Some "Monday, January 1, 2024".
Proof.
  rewrite (alarm_date_line Calendar.H23 (init 0 true Granted) _ 2024 1 1);
    [vm_compute; reflexivity | reflexivity | lia | vm_compute; reflexivity].
Defined.

End AlarmView.
