(* ===== verification/Orientation.v ===== *)
(** The orientation detector and view dispatch of
    [src/src/components/OrientationApp.tsx]: its two hooks
    ([orientation], [isTransitioning]) with the browser state the effect
    installs (the listeners, the pending 300 ms timeouts and the clock of
    the event loop) as a record; the window events, the device-orientation
    events, the permission answer, the timeouts and the demo buttons as
    events; the classification of tilt angles (rationals, as the browser
    reports them in degrees) and the view and background dispatch.  The
    theorems: the fallback classification, the tilt thresholds (against
    the comments of lines 44 and 52, which they contradict), the views
    reachable without sensors, the transition-flag invariant, that the
    fade ends, and two findings on the transition flag. *)

From S2P Require Import Prelude.
From Stdlib Require Import QArith Qabs Lqa.

Module Orientation.

Open Scope Z_scope.

(** ** Orientations and views *)

(** [OrientationType] (line 7). *)
Inductive orientationType :=
| PortraitPrimary | LandscapePrimary | PortraitSecondary | LandscapeSecondary.

#[export] Instance orientationType_eq_dec : EqDecision orientationType.
Proof. solve_decision. Defined.

(** The four widgets. *)
Inductive view := AlarmView | StopwatchView | TimerView | WeatherView.

#[export] Instance view_eq_dec : EqDecision view.
Proof. solve_decision. Defined.

(** [renderCurrentView] (lines 99-112); the [default] branch is
    unreachable for the four values of the type. *)
Definition renderCurrentView (o : orientationType) : view :=
  match o with
  | PortraitPrimary => AlarmView
  | LandscapePrimary => StopwatchView
  | PortraitSecondary => TimerView
  | LandscapeSecondary => WeatherView
  end.

(** [getBackgroundClass] (lines 114-127). *)
Definition getBackgroundClass (o : orientationType) : string :=
  match o with
  | PortraitPrimary => "bg-gradient-alarm"
  | LandscapePrimary => "bg-gradient-stopwatch"
  | PortraitSecondary => "bg-gradient-timer"
  | LandscapeSecondary => "bg-gradient-weather"
  end.

(** ** The classifiers *)

(** What a window event sees: [screen.orientation] (absent or its
    type) and [window.innerWidth/innerHeight]. *)
Record screenInfo := mkScreen {
  screenOrientation : option orientationType;
  innerWidth : Z;
  innerHeight : Z
}.

(** The orientation chosen by [handleOrientationChange] (lines 18-30). *)
Definition orientationOfScreen (si : screenInfo) : orientationType :=
  match screenOrientation si with
  | Some o => o
  | None => if innerHeight si <? innerWidth si then LandscapePrimary else PortraitPrimary
  end.

Definition qlt (a b : Q) : bool := if Qlt_le_dec a b then true else false.

(** The orientation chosen by [handleDeviceOrientation] from the tilt
    angles (lines 39-58). *)
Definition orientationOfTilt (w h : Z) (beta gamma : Q) : orientationType :=
  if h <? w then
    (if qlt 45 gamma then LandscapeSecondary else LandscapePrimary)
  else if qlt 135 (Qabs beta) || qlt beta (-90) then PortraitSecondary
  else PortraitPrimary.

(** ** State and events *)

(** [orientation], [isTransitioning] (lines 10-11); whether the effect
    has run, whether the [deviceorientation] listener is attached, whether
    an iOS permission request is awaiting its answer, the deadlines of the
    pending [setTimeout(..., 300)] calls in the order they were set, and
    the time of the last event. *)
Record state := mkState {
  orientation : orientationType;
  isTransitioning : bool;
  mounted : bool;
  sensorListener : bool;
  permissionPending : bool;
  pendingTimeouts : list Z;
  now : Z
}.

Definition init : state :=
  mkState PortraitPrimary false false false false [] 0.

Inductive event :=
| Mount (tm : Z) (si : screenInfo) (gated : bool)
    (** the effect of lines 13-97: listeners, the initial detection and
        the permission request ([gated] when [requestPermission] exists) *)
| ScreenChange (tm : Z) (si : screenInfo)
    (** an [orientationchange] or [resize] event *)
| DeviceTilt (tm : Z) (w h : Z) (beta gamma : option Q)
    (** a [deviceorientation] event with the window size at that time *)
| PermissionAnswer (tm : Z) (granted : bool)
    (** the resolution of [requestPermission()] (lines 69-75) *)
| TransitionTimeout
    (** the earliest pending [setTimeout] callback *)
| DemoClick (tm : Z) (o : orientationType).
    (** a demo button (lines 142-165) *)

(** ** Handlers *)

(** [setIsTransitioning(true)] with its [setTimeout] 300 ms later. *)
Definition startTransition (s : state) (o : orientationType) (tm : Z) : state :=
  mkState o true (mounted s) (sensorListener s) (permissionPending s)
    (pendingTimeouts s ++ [tm + 300]) tm.

Definition handleOrientationChange (s : state) (tm : Z) (si : screenInfo) : state :=
  startTransition s (orientationOfScreen si) tm.

Definition handleDeviceOrientation (s : state) (tm w h : Z) (beta gamma : option Q) : state :=
  match beta, gamma with
  | Some b, Some g => startTransition s (orientationOfTilt w h b g) tm
  | _, _ => mkState (orientation s) (isTransitioning s) (mounted s) (sensorListener s)
              (permissionPending s) (pendingTimeouts s) tm
  end.

(** The effect body: the initial detection, then the permission request,
    which attaches the listener at once on browsers without
    [requestPermission] and waits for the answer otherwise. *)
Definition mount (s : state) (tm : Z) (si : screenInfo) (gated : bool) : state :=
  let s1 := handleOrientationChange s tm si in
  mkState (orientation s1) (isTransitioning s1) true (negb gated) gated
    (pendingTimeouts s1) tm.

Definition onPermission (s : state) (tm : Z) (granted : bool) : state :=
  mkState (orientation s) (isTransitioning s) (mounted s) granted false
    (pendingTimeouts s) tm.

Definition onTimeout (s : state) : state :=
  match pendingTimeouts s with
  | d :: rest => mkState (orientation s) false (mounted s) (sensorListener s)
                   (permissionPending s) rest d
  | [] => s
  end.

Definition onDemo (s : state) (tm : Z) (o : orientationType) : state :=
  mkState o (isTransitioning s) (mounted s) (sensorListener s)
    (permissionPending s) (pendingTimeouts s) tm.

(** An event at time [tm] is delivered when no earlier timeout is still
    due: the event loop runs timeouts at their deadlines. *)
Definition onTime (s : state) (tm : Z) : bool :=
  (now s <=? tm) &&
  match pendingTimeouts s with
  | d :: _ => tm <? d
  | [] => true
  end.

Definition enabled (s : state) (e : event) : bool :=
  match e with
  | Mount tm _ _ => negb (mounted s) && onTime s tm
  | ScreenChange tm _ => mounted s && onTime s tm
  | DeviceTilt tm _ _ _ _ => sensorListener s && onTime s tm
  | PermissionAnswer tm _ => permissionPending s && onTime s tm
  | TransitionTimeout => negb (bool_decide (pendingTimeouts s = []))
  | DemoClick tm _ => onTime s tm
  end.

Definition handle (s : state) (e : event) : state :=
  match e with
  | Mount tm si gated => mount s tm si gated
  | ScreenChange tm si => handleOrientationChange s tm si
  | DeviceTilt tm w h b g => handleDeviceOrientation s tm w h b g
  | PermissionAnswer tm granted => onPermission s tm granted
  | TransitionTimeout => onTimeout s
  | DemoClick tm o => onDemo s tm o
  end.

#[export] Instance orientation_component : Component state event :=
  {| c_init := init; c_enabled := enabled; c_handle := handle |}.

(** ** Specification-side helpers *)

(** Events of a session without the Screen Orientation API, without a
    granted tilt sensor and without the demo buttons. *)
Definition noSensorEvent (e : event) : Prop :=
  match e with
  | Mount _ si gated => screenOrientation si = None /\ gated = true
  | ScreenChange _ si => screenOrientation si = None
  | PermissionAnswer _ granted => granted = false
  | DemoClick _ _ => False
  | DeviceTilt _ _ _ _ _ | TransitionTimeout => True
  end.

Fixpoint sorted_le (l : list Z) : bool :=
  match l with
  | x :: ((y :: _) as r) => (x <=? y) && sorted_le r
  | _ => true
  end.

(** The pending deadlines are in order, none is in the past and none is
    more than 300 ms ahead. *)
Definition timing_ok (t : Z) (p : list Z) : bool :=
  sorted_le (t :: p) && forallb (fun d => d <=? t + 300) p.

(** The invariant as an executable check: the timing, and the transition
    flag is only up while a timeout that lowers it is pending. *)
Definition wf (s : state) : bool :=
  timing_ok (now s) (pendingTimeouts s) &&
  implb (isTransitioning s) (negb (bool_decide (pendingTimeouts s = []))).

(** ** Lemmas *)

Lemma qlt_spec a b : qlt a b = true <-> (a < b)%Q.
Proof.
  unfold qlt. destruct (Qlt_le_dec a b); split; intros; try done.
  exfalso. apply (Qlt_not_le a b); done.
Qed.

Lemma upside_down_iff (b : Q) :
  (qlt 135 (Qabs b) || qlt b (-90)) = true <-> (135 < b \/ b < -90)%Q.
Proof.
  rewrite orb_true_iff, !qlt_spec.
  destruct (Qlt_le_dec 0 b) as [Hb|Hb].
  - rewrite Qabs_pos by lra. lra.
  - rewrite Qabs_neg by lra. lra.
Qed.

Lemma sorted_le_cons x y l :
  sorted_le (x :: y :: l) = (x <=? y) && sorted_le (y :: l).
Proof. reflexivity. Qed.

Lemma sorted_le_app_last x l y :
  sorted_le (x :: l) = true -> x <= y -> forallb (fun d => d <=? y) l = true ->
  sorted_le (x :: l ++ [y]) = true.
Proof.
  revert x. induction l as [|z l IH]; intros x Hs Hx Hl; simpl.
  - by apply Z.leb_le in Hx as ->.
  - simpl in Hl. apply andb_true_iff in Hl as [Hz Hl]. apply Z.leb_le in Hz.
    rewrite sorted_le_cons in Hs. apply andb_true_iff in Hs as [Hxz Hs].
    change (((x <=? z) && sorted_le (z :: l ++ [y])) = true).
    rewrite Hxz. simpl. by apply IH.
Qed.

Lemma forallb_le_weaken (l : list Z) (a b : Z) :
  a <= b -> forallb (fun d => d <=? a) l = true -> forallb (fun d => d <=? b) l = true.
Proof.
  intros Hab. rewrite !forallb_forall. intros H x Hx.
  specialize (H x Hx). apply Z.leb_le in H. apply Z.leb_le. lia.
Qed.

(** Time moves forward to an event that comes before every pending
    deadline. *)
Lemma timing_advance t p tm :
  timing_ok t p = true -> t <= tm ->
  match p with d :: _ => tm < d | [] => True end ->
  timing_ok tm p = true.
Proof.
  unfold timing_ok. intros H Ht Hd. apply andb_true_iff in H as [Hs Hb].
  apply andb_true_iff. split.
  - destruct p as [|d p]; [done|]. rewrite sorted_le_cons in *.
    apply andb_true_iff in Hs as [_ Hs]. rewrite Hs. apply andb_true_iff.
    split; [apply Z.leb_le; lia | done].
  - apply (forallb_le_weaken _ (t + 300)); [lia | done].
Qed.

(** A new timeout 300 ms ahead goes at the end of the queue. *)
Lemma timing_push tm p : timing_ok tm p = true -> timing_ok tm (p ++ [tm + 300]) = true.
Proof.
  unfold timing_ok. intros H. apply andb_true_iff in H as [Hs Hb].
  apply andb_true_iff. split.
  - apply sorted_le_app_last; [done | lia | done].
  - rewrite forallb_app, Hb. simpl. rewrite Z.leb_refl. done.
Qed.

(** The earliest timeout runs at its deadline. *)
Lemma timing_pop t d rest : timing_ok t (d :: rest) = true -> timing_ok d rest = true.
Proof.
  unfold timing_ok. intros H. apply andb_true_iff in H as [Hs Hb].
  rewrite sorted_le_cons in Hs. apply andb_true_iff in Hs as [Htd Hs].
  apply Z.leb_le in Htd. simpl in Hb. apply andb_true_iff in Hb as [_ Hb].
  rewrite Hs. simpl. apply (forallb_le_weaken _ (t + 300)); [lia | done].
Qed.

Lemma onTime_advance s tm :
  timing_ok (now s) (pendingTimeouts s) = true -> onTime s tm = true ->
  timing_ok tm (pendingTimeouts s) = true.
Proof.
  unfold onTime. intros H Ho. apply andb_true_iff in Ho as [Hn Hp].
  apply Z.leb_le in Hn. apply (timing_advance (now s)); [done | lia |].
  destruct (pendingTimeouts s); [done|]. by apply Z.ltb_lt.
Qed.

Lemma orientation_wf_handle s e : wf s = true -> enabled s e = true -> wf (handle s e) = true.
Proof.
  destruct s as [o tr mo sl pp p t]. unfold wf. simpl.
  intros Hw He. apply andb_true_iff in Hw as [Ht Hf].
  assert (Hpush : forall tm, timing_ok t p = true ->
            onTime (mkState o tr mo sl pp p t) tm = true ->
            (timing_ok tm (p ++ [tm + 300]) &&
             implb true (negb (bool_decide (p ++ [tm + 300] = [])))) = true).
  { intros tm H1 H2. apply andb_true_iff. split.
    - apply timing_push. exact (onTime_advance (mkState o tr mo sl pp p t) tm H1 H2).
    - simpl. rewrite bool_decide_false; [done|]. by destruct p. }
  assert (Hadv : forall tm, onTime (mkState o tr mo sl pp p t) tm = true ->
            timing_ok tm p = true).
  { intros tm Ho. exact (onTime_advance (mkState o tr mo sl pp p t) tm Ht Ho). }
  destruct e; simpl in He |- *.
  - apply andb_true_iff in He as [_ He]. by apply Hpush.
  - apply andb_true_iff in He as [_ He]. by apply Hpush.
  - apply andb_true_iff in He as [_ He].
    destruct beta, gamma; simpl; try by apply Hpush.
    all: by rewrite (Hadv tm He).
  - apply andb_true_iff in He as [_ He]. by rewrite (Hadv tm He).
  - unfold onTimeout. simpl. destruct p as [|d rest]; [done|]. simpl.
    by rewrite (timing_pop t d rest Ht).
  - by rewrite (Hadv tm He).
Qed.

(** Running out the pending timeouts from a state satisfying the
    invariant. *)
Lemma drain_timeouts s (B : Z) :
  wf s = true -> forallb (fun d => d <=? B) (pendingTimeouts s) = true -> now s <= B ->
  exists s', exec s (repeat TransitionTimeout (List.length (pendingTimeouts s))) = Some s' /\
    isTransitioning s' = false /\ pendingTimeouts s' = [] /\
    now s <= now s' <= B /\ orientation s' = orientation s.
Proof.
  destruct s as [o tr mo sl pp p t]. unfold wf. simpl.
  intros H HB HtB. apply andb_true_iff in H as [Ht Hf].
  revert o tr t Ht Hf HtB. induction p as [|d rest IH]; intros o tr t Ht Hf HtB.
  - exists (mkState o tr mo sl pp [] t). simpl in *. destruct tr; [done|].
    repeat split; lia.
  - simpl List.length. simpl repeat.
    rewrite exec_cons by reflexivity.
    change (c_handle (mkState o tr mo sl pp (d :: rest) t) TransitionTimeout)
      with (mkState o false mo sl pp rest d).
    pose proof (timing_pop t d rest Ht) as Hr.
    unfold timing_ok in Ht. apply andb_true_iff in Ht as [Hs _].
    rewrite sorted_le_cons in Hs. apply andb_true_iff in Hs as [Htd _].
    simpl in HB. apply andb_true_iff in HB as [HdB HB].
    apply Z.leb_le in Htd, HdB.
    destruct (IH HB o false d Hr eq_refl HdB) as (s' & Hx & H1 & H2 & H3 & H4).
    exists s'. repeat split; try done; lia.
Qed.

(** ** Properties *)

(** C19 (functional, a finding): without the Screen Orientation API,
    the initial detection and every [resize]/[orientationchange] show the
    stopwatch when the window is wider than tall and the alarm clock
    otherwise, and start the fade.  A tilt reading selects the timer
    exactly when the window is not wider than tall and the front-back
    tilt [beta] is above 135 degrees or below -90 degrees (the code's
    [|beta| > 135 || beta < -90]), and the weather exactly when the
    window is wider than tall and the left-right tilt [gamma] is above 45
    degrees.  This contradicts the comments of the code: the comment of
    line 44 calls a positive [gamma] "right side up", yet a [gamma] above
    45 selects the view the code labels "left side up", and a negative
    [gamma] (the comment's "left side up") selects the view labelled
    "right side up"; the comment of line 52 calls negative [beta] values
    "upside down", yet every [beta] in [-90, 0) selects the upright
    alarm clock. *)
Theorem orientation_classification :
  (forall s tm si, screenOrientation si = None ->
   renderCurrentView (orientation (handleOrientationChange s tm si)) =
     (if innerHeight si <? innerWidth si then StopwatchView else AlarmView) /\
   isTransitioning (handleOrientationChange s tm si) = true) /\
  (forall w h beta gamma,
   (orientationOfTilt w h beta gamma = PortraitSecondary <->
      w <= h /\ (135 < beta \/ beta < -90)%Q) /\
   (orientationOfTilt w h beta gamma = LandscapeSecondary <->
      h < w /\ (45 < gamma)%Q) /\
   (h < w -> (gamma < 0)%Q -> orientationOfTilt w h beta gamma = LandscapePrimary) /\
   (w <= h -> (-90 <= beta < 0)%Q -> orientationOfTilt w h beta gamma = PortraitPrimary)).
Proof.
  split.
  - intros s tm si Hn. unfold handleOrientationChange, orientationOfScreen. simpl.
    rewrite Hn. by destruct (innerHeight si <? innerWidth si).
  - intros w h beta gamma. unfold orientationOfTilt.
    pose proof (upside_down_iff beta) as Hu. pose proof (qlt_spec 45 gamma) as Hg.
    destruct (Z.ltb_spec h w); destruct (qlt 45 gamma);
      destruct (qlt 135 (Qabs beta) || qlt beta (-90));
      split_and!; intros; try done; intuition (try lia; try lra; try discriminate).
Qed.

Lemma orientation_classification_witness :
  renderCurrentView (orientation (handleOrientationChange init 0 (mkScreen None 800 400))) =
    (if innerHeight (mkScreen None 800 400) <? innerWidth (mkScreen None 800 400)
     then StopwatchView else AlarmView) /\
  isTransitioning (handleOrientationChange init 0 (mkScreen None 800 400)) = true.
Proof. apply orientation_classification. reflexivity. Defined.

(** C20 (safety): in a session without the Screen Orientation API, where
    the tilt sensor is gated and its permission refused and the demo
    buttons are not used, only the alarm clock and the stopwatch are ever
    shown, and the tilt listener is never attached. *)
Theorem orientation_two_views_without_sensor es s :
  exec init es = Some s -> Forall noSensorEvent es ->
  (orientation s = PortraitPrimary \/ orientation s = LandscapePrimary) /\
  sensorListener s = false.
Proof.
  intros Hx Hq.
  apply (exec_inv_on (fun s => (orientation s = PortraitPrimary \/
                               orientation s = LandscapePrimary) /\
                              sensorListener s = false) noSensorEvent init es s);
    [| done | simpl; auto | done].
  intros s' e [Ho Hl] He Hen. simpl in *.
  destruct e; simpl in *; try done.
  - destruct He as [Hn ->]. unfold orientationOfScreen. rewrite Hn.
    split; [destruct (_ <? _); auto | done].
  - unfold orientationOfScreen. rewrite He. split; [destruct (_ <? _); auto | done].
  - rewrite Hl in Hen. discriminate.
  - unfold onTimeout. destruct (pendingTimeouts s'); simpl; auto.
Qed.

Lemma orientation_two_views_without_sensor_witness :
  (orientation (mkState LandscapePrimary true true false true [300; 500] 200) = PortraitPrimary \/
   orientation (mkState LandscapePrimary true true false true [300; 500] 200) = LandscapePrimary) /\
  sensorListener (mkState LandscapePrimary true true false true [300; 500] 200) = false.
Proof.
  apply (orientation_two_views_without_sensor
           [Mount 0 (mkScreen None 400 800) true; ScreenChange 200 (mkScreen None 800 400)]).
  - reflexivity.
  - repeat constructor.
Defined.

(** C21 (invariant): in every reachable state the pending fade timeouts
    are due in order, none in the past and none more than 300 ms ahead,
    and the content is faded out only while such a timeout is pending. *)
Theorem orientation_invariant s : reachable s -> wf s = true.
Proof.
  apply (reachable_inv (fun s => wf s = true));
    [reflexivity | intros s' e Hw He; by apply orientation_wf_handle].
Qed.

Lemma orientation_invariant_witness :
  wf (mkState LandscapePrimary true true true false [300; 500] 200) = true.
Proof.
  apply orientation_invariant.
  apply (reachable_exec [Mount 0 (mkScreen None 400 800) false;
                         ScreenChange 200 (mkScreen None 800 400)]).
  reflexivity.
Defined.

(** C22 (liveness): from any reachable state, if no further event comes,
    the pending timeouts run within 300 ms and leave the content visible,
    on the same view. *)
Theorem orientation_fade_ends s :
  reachable s ->
  exists s', exec s (repeat TransitionTimeout (List.length (pendingTimeouts s))) = Some s' /\
    isTransitioning s' = false /\ now s <= now s' <= now s + 300 /\
    orientation s' = orientation s.
Proof.
  intros Hr. apply (reachable_inv (fun s => wf s = true)) in Hr;
    [| reflexivity | intros s' e Hw He; by apply orientation_wf_handle].
  pose proof Hr as Hw. unfold wf, timing_ok in Hw.
  apply andb_true_iff in Hw as [Hw _]. apply andb_true_iff in Hw as [_ HB].
  destruct (drain_timeouts s (now s + 300) Hr HB ltac:(lia))
    as (s' & H1 & H2 & _ & H4 & H5). eauto.
Qed.

Lemma orientation_fade_ends_witness :
  exists s', exec (mkState LandscapePrimary true true true false [300; 500] 200)
               (repeat TransitionTimeout
                  (List.length (pendingTimeouts (mkState LandscapePrimary true true true false [300; 500] 200))))
             = Some s' /\
    isTransitioning s' = false /\
    now (mkState LandscapePrimary true true true false [300; 500] 200) <= now s' <=
      now (mkState LandscapePrimary true true true false [300; 500] 200) + 300 /\
    orientation s' = orientation (mkState LandscapePrimary true true true false [300; 500] 200).
Proof.
  apply orientation_fade_ends.
  apply (reachable_exec [Mount 0 (mkScreen None 400 800) false;
                         ScreenChange 200 (mkScreen None 800 400)]).
  reflexivity.
Defined.

(** C23 (safety, a finding): the fade does not accompany each change as
    the transition flag is meant to.  From any mounted state with no fade
    pending, two screen changes at [tm1 <= tm2 < tm1 + 300] are both
    delivered, and the first change's timeout shows the content again at
    [tm1 + 300], less than 300 ms after the second change, on the second
    change's view, while the second timeout is still pending.  And every
    tilt reading restarts the fade and sets another timeout, even one that
    leaves the orientation unchanged. *)
Theorem orientation_fade_cut_short s tm1 tm2 si1 si2 :
  (mounted s = true -> pendingTimeouts s = [] -> now s <= tm1 <= tm2 -> tm2 < tm1 + 300 ->
   exec s [ScreenChange tm1 si1; ScreenChange tm2 si2; TransitionTimeout] =
     Some (mkState (orientationOfScreen si2) false true (sensorListener s) (permissionPending s)
             [tm2 + 300] (tm1 + 300))) /\
  (forall tm w h b g, orientationOfTilt w h b g = orientation s ->
   orientation (handleDeviceOrientation s tm w h (Some b) (Some g)) = orientation s /\
   isTransitioning (handleDeviceOrientation s tm w h (Some b) (Some g)) = true /\
   pendingTimeouts (handleDeviceOrientation s tm w h (Some b) (Some g)) =
     pendingTimeouts s ++ [tm + 300]).
Proof.
  split; [|intros tm w h b g Ho; cbn; by rewrite Ho].
  intros Hm Hp H1 H2. destruct s as [o tr m sl pp pt n]; cbn in *. subst.
  unfold onTime, onTimeout, handleOrientationChange, startTransition. cbn.
  rewrite (proj2 (Z.leb_le n tm1)), (proj2 (Z.leb_le tm1 tm2)), (proj2 (Z.ltb_lt tm2 (tm1 + 300)))
    by lia.
  reflexivity.
Qed.

Lemma orientation_fade_cut_short_witness :
  exec (mkState PortraitPrimary false true false true [] 300)
    [ScreenChange 1000 (mkScreen None 800 400); ScreenChange 1200 (mkScreen None 400 800);
     TransitionTimeout] =
    Some (mkState PortraitPrimary false true false true [1500] 1300) /\
  exec init [Mount 0 (mkScreen None 400 800) true; TransitionTimeout] =
    Some (mkState PortraitPrimary false true false true [] 300).
Proof.
  split; [|reflexivity].
  apply (orientation_fade_cut_short (mkState PortraitPrimary false true false true [] 300)
           1000 1200 (mkScreen None 800 400) (mkScreen None 400 800)); cbn; lia || reflexivity.
Defined.

End Orientation.
