(* ===== verification/Weather.v ===== *)
(** The weather lookup of [src/src/components/features/Weather.tsx]: its
    five [useState] hooks with the browser state around them (whether the
    Geolocation API exists, a pending position request, the requests in
    flight) as a record; the run of the [[query]] effect, the geolocation
    answers, the resolution of each request, the search input and the
    search form as events.  [fetchWeather] is split at its [await]: the
    synchronous prefix starts a request, and its resolution runs the rest
    against the response (status, text, parsed body) in the error monad of
    [JsValue].  The theorems: the error path of a failed request, the
    source priority, the invariant, that loading can end, and two
    findings (a stale response overwrites a newer query's; an error
    screen offers no way to search again). *)

From S2P Require Import Prelude JsRuntime JsValue.

Module Weather.

Open Scope Z_scope.
Open Scope js_scope.

(** ** Data *)

(** [WeatherData] (lines 4-11) as the code fills it: the two rounded
    numbers are numbers or NaN ([None]); the other fields hold whatever
    the response holds. *)
Record weatherData := mkWeather {
  location : string;
  temperature : option Z;
  condition : jsval;
  humidity : jsval;
  windSpeed : option Z;
  icon : jsval
}.

(** A response of [fetch]: a network failure (the promise rejects with a
    [TypeError] whose message is given), or an HTTP response with its
    status, status text, body text and the outcome of [JSON.parse] on the
    body (its [SyntaxError] message or the value). *)
Inductive response :=
| NetworkFailure (msg : string)
| Http (status : Z) (statusText : string) (body : string) (parsed : string + jsval).

Record request := mkRequest { reqId : nat; url : string }.

(** [weather], [loading], [error], [search], [query] (lines 14-18);
    whether [navigator.geolocation] exists, whether the [[query]] effect
    is due to run, how many position requests are pending (each run of
    the effect on the position branch calls [getCurrentPosition] once,
    and each call answers once), the requests in flight and the next
    request number. *)
Record state := mkState {
  weather : option weatherData;
  loading : bool;
  error : option string;
  search : string;
  query : string;
  hasGeolocation : bool;
  effectPending : bool;
  geoPending : nat;
  inflight : list request;
  nextId : nat
}.

Definition init (geo : bool) : state :=
  mkState None true None "" "" geo true 0 [] 0.

Inductive event :=
| RunEffect                      (** the [[query]] effect, lines 59-75 *)
| GeoSuccess (lat lon : decimal) (** the position callback, lines 64-66 *)
| GeoFailure                     (** the error callback, lines 67-69 *)
| FetchDone (id : nat) (r : response)  (** a request settles *)
| SearchInput (v : string)       (** the input's onChange, line 159 *)
| SearchSubmit.                  (** the form's onSubmit, lines 149-152 *)

(** ** fetchWeather *)

Definition API_KEY : string := "27bad8363ddda38a5d52da4072d2adc1".

Definition cityUrl (city : string) : string :=
  String.append "https://api.openweathermap.org/data/2.5/weather?q="
    (String.append city (String.append "&appid=" (String.append API_KEY "&units=metric"))).

Definition coordsUrl (lat lon : decimal) : string :=
  String.append "https://api.openweathermap.org/data/2.5/weather?lat="
    (String.append (number_to_string lat)
      (String.append "&lon=" (String.append (number_to_string lon)
        (String.append "&appid=" (String.append API_KEY "&units=metric"))))).

(** The synchronous part of [fetchWeather(city, lat, lon)] (lines 23-36):
    choose the URL and start the request, or report that there is no
    location. *)
Definition fetchWeather (s : state) (city : option string) (lat lon : option decimal) : state :=
  let start u :=
    mkState (weather s) true None (search s) (query s) (hasGeolocation s)
      (effectPending s) (geoPending s)
      (inflight s ++ [mkRequest (nextId s) u]) (S (nextId s)) in
  match city with
  | Some c => if bool_decide (c <> "") then start (cityUrl c) else
      match lat, lon with
      | Some la, Some lo => start (coordsUrl la lo)
      | _, _ => mkState (weather s) false (Some "No location provided") (search s) (query s)
                  (hasGeolocation s) (effectPending s) (geoPending s) (inflight s) (nextId s)
      end
  | None =>
      match lat, lon with
      | Some la, Some lo => start (coordsUrl la lo)
      | _, _ => mkState (weather s) false (Some "No location provided") (search s) (query s)
                  (hasGeolocation s) (effectPending s) (geoPending s) (inflight s) (nextId s)
      end
  end.

(** The object literal of lines 42-49, fields evaluated in order. *)
Definition buildWeather (data : jsval) : result weatherData :=
  name <- getProp data "name" ;;
  sys <- getProp data "sys" ;;
  country <- getProp sys "country" ;;
  main <- getProp data "main" ;;
  temp <- getProp main "temp" ;;
  ws <- getProp data "weather" ;;
  w0 <- getIndex ws 0 ;;
  cond <- getProp w0 "main" ;;
  main' <- getProp data "main" ;;
  hum <- getProp main' "humidity" ;;
  wind <- getProp data "wind" ;;
  speed <- getProp wind "speed" ;;
  ws' <- getProp data "weather" ;;
  w0' <- getIndex ws' 0 ;;
  ic <- getProp w0' "icon" ;;
  Ok (mkWeather (String.append (toString name) (String.append ", " (toString country)))
        (jsRound temp) cond hum (jsRound speed) ic).

(** [res.ok]: a status in 200-299. *)
Definition httpOk (status : Z) : bool := (200 <=? status) && (status <=? 299).

(** The [try] block of lines 36-50 after [fetch] settles. *)
Definition fetchOutcome (r : response) : result weatherData :=
  match r with
  | NetworkFailure msg => Throw (mkError "TypeError" msg)
  | Http status statusText body parsed =>
      if negb (httpOk status) then
        Throw (mkError "Error"
          (String.append "Failed to fetch weather: "
            (String.append (js_int_to_string status)
              (String.append " " (String.append statusText (String.append " - " body))))))
      else match parsed with
           | inl msg => Throw (mkError "SyntaxError" msg)
           | inr data => buildWeather data
           end
  end.

(** The rest of [fetchWeather] (lines 36-55): the snapshot or the error
    message ([err?.message || "Failed to fetch weather data"]), then
    [setLoading(false)]; the request leaves the set in flight. *)
Definition fetchResolve (s : state) (id : nat) (r : response) : state :=
  let rest := filter (fun q => reqId q <> id) (inflight s) in
  match fetchOutcome r with
  | Ok wd => mkState (Some wd) false (error s) (search s) (query s) (hasGeolocation s)
               (effectPending s) (geoPending s) rest (nextId s)
  | Throw e =>
      let msg := if bool_decide (errMessage e = "") then "Failed to fetch weather data"
                 else errMessage e in
      mkState (weather s) false (Some msg) (search s) (query s) (hasGeolocation s)
        (effectPending s) (geoPending s) rest (nextId s)
  end.

(** ** The effect and the form *)

Definition clearEffect (s : state) : state :=
  mkState (weather s) (loading s) (error s) (search s) (query s) (hasGeolocation s)
    false (geoPending s) (inflight s) (nextId s).

Definition setGeoPending (s : state) (n : nat) : state :=
  mkState (weather s) (loading s) (error s) (search s) (query s) (hasGeolocation s)
    (effectPending s) n (inflight s) (nextId s).

(** Lines 60-73: the query, else the position, else Delhi. *)
Definition runEffect (s : state) : state :=
  let s' := clearEffect s in
  if bool_decide (query s <> "") then fetchWeather s' (Some (query s)) None None
  else if hasGeolocation s then setGeoPending s' (S (geoPending s))
  else fetchWeather s' (Some "Delhi") None None.

Definition onSearchInput (s : state) (v : string) : state :=
  mkState (weather s) (loading s) (error s) v (query s) (hasGeolocation s)
    (effectPending s) (geoPending s) (inflight s) (nextId s).

(** [setQuery(search)]: the effect runs again only when the value
    changes (React compares the dependency with [Object.is]). *)
Definition onSearchSubmit (s : state) : state :=
  mkState (weather s) (loading s) (error s) (search s) (search s) (hasGeolocation s)
    (effectPending s || bool_decide (search s <> query s)) (geoPending s)
    (inflight s) (nextId s).

(** What is rendered (lines 115-137). *)
Inductive screen :=
| LoadingScreen
| ErrorScreen (msg : string)
| MainScreen (w : option weatherData).

Definition render (s : state) : screen :=
  if loading s then LoadingScreen
  else match error s with
       | Some msg => if bool_decide (msg = "") then MainScreen (weather s) else ErrorScreen msg
       | None => MainScreen (weather s)
       end.

Definition formShown (s : state) : bool :=
  match render s with MainScreen _ => true | _ => false end.

Definition enabled (s : state) (e : event) : bool :=
  match e with
  | RunEffect => effectPending s
  | GeoSuccess _ _ | GeoFailure => negb (geoPending s =? 0)%nat
  | FetchDone id _ => bool_decide (Exists (fun q => reqId q = id) (inflight s))
  | SearchInput _ | SearchSubmit => formShown s
  end.

Definition handle (s : state) (e : event) : state :=
  match e with
  | RunEffect => runEffect s
  | GeoSuccess lat lon => fetchWeather (setGeoPending s (pred (geoPending s))) None (Some lat) (Some lon)
  | GeoFailure => fetchWeather (setGeoPending s (pred (geoPending s))) (Some "Delhi") None None
  | FetchDone id r => fetchResolve s id r
  | SearchInput v => onSearchInput s v
  | SearchSubmit => onSearchSubmit s
  end.

Definition weather_component (geo : bool) : Component state event :=
  {| c_init := init geo; c_enabled := enabled; c_handle := handle |}.

(** ** Specification-side helpers *)

(** A response body of the shape the OpenWeather API documents. *)
Definition owmBody (name country : string) (temp hum wind : decimal) (cond ic : string) : jsval :=
  JObj [("name", JStr name); ("sys", JObj [("country", JStr country)]);
        ("main", JObj [("temp", JNum temp); ("humidity", JNum hum)]);
        ("weather", JArr [JObj [("main", JStr cond); ("icon", JStr ic)]]);
        ("wind", JObj [("speed", JNum wind)])].

(** The URL of the most recent request in flight. *)
Definition lastUrl (s : state) : option string := url <$> last (inflight s).

(** The invariant as an executable check: the loading screen is shown
    only while the effect, a position lookup or a request is pending. *)
Definition wf (s : state) : bool :=
  implb (loading s)
    (effectPending s || negb (geoPending s =? 0)%nat || negb (bool_decide (inflight s = []))).

(** ** Lemmas *)

Lemma fetchWeather_city s c :
  c <> "" ->
  fetchWeather s (Some c) None None =
    mkState (weather s) true None (search s) (query s) (hasGeolocation s)
      (effectPending s) (geoPending s)
      (inflight s ++ [mkRequest (nextId s) (cityUrl c)]) (S (nextId s)).
Proof. intros Hc. unfold fetchWeather. by rewrite bool_decide_true. Qed.

Lemma fetchWeather_coords s la lo :
  fetchWeather s None (Some la) (Some lo) =
    mkState (weather s) true None (search s) (query s) (hasGeolocation s)
      (effectPending s) (geoPending s)
      (inflight s ++ [mkRequest (nextId s) (coordsUrl la lo)]) (S (nextId s)).
Proof. reflexivity. Qed.

Lemma delhi_nonempty : "Delhi" <> "".
Proof. discriminate. Qed.

#[export] Hint Resolve delhi_nonempty : clock.

Lemma app_single_nonempty {A} (l : list A) x : bool_decide (l ++ [x] = []) = false.
Proof. apply bool_decide_false. by destruct l. Qed.

Lemma weather_wf_handle s e : wf s = true -> enabled s e = true -> wf (handle s e) = true.
Proof.
  destruct s as [w ld er se qu geo ep gp fl nid]. unfold wf.
  destruct e; cbn [handle enabled]; intros Hw He.
  - unfold runEffect. cbn [query hasGeolocation].
    destruct (decide (qu = "")) as [Hq|Hq];
      [rewrite bool_decide_false by (intros C; by apply C) |
       rewrite bool_decide_true by done]; swap 1 2.
    + rewrite fetchWeather_city by done. cbn. by rewrite app_single_nonempty, orb_true_r.
    + rewrite fetchWeather_city by done. destruct geo; cbn.
      * by destruct ld.
      * by rewrite app_single_nonempty, orb_true_r.
  - rewrite fetchWeather_coords. cbn. by rewrite app_single_nonempty, orb_true_r.
  - rewrite fetchWeather_city by done. cbn. by rewrite app_single_nonempty, orb_true_r.
  - unfold fetchResolve. simpl. by destruct (fetchOutcome r).
  - exact Hw.
  - cbn in Hw |- *. by destruct ld, ep, gp.
Qed.

(** One step of a run, without unfolding the handlers. *)
Ltac wstep := cbn [exec c_enabled c_handle weather_component enabled handle].

Lemma fetchResolve_loading s id r : loading (fetchResolve s id r) = false.
Proof. unfold fetchResolve. by destruct (fetchOutcome r). Qed.

Lemma city_inflight s c : c <> "" -> inflight (fetchWeather s (Some c) None None) <> [].
Proof. intros Hc. rewrite fetchWeather_city by done. cbn. by destruct (inflight s). Qed.

Lemma enabled_fetch s id r :
  Exists (fun q => reqId q = id) (inflight s) -> enabled s (FetchDone id r) = true.
Proof. intros H. cbn. by rewrite bool_decide_true. Qed.

Lemma enabled_head s q rest r : inflight s = q :: rest -> enabled s (FetchDone (reqId q) r) = true.
Proof. intros Hq. apply enabled_fetch. rewrite Hq. by constructor. Qed.

(** From a state with a position lookup pending, its failure starts a
    request. *)
Lemma geo_failure_starts g s :
  geoPending s <> 0%nat ->
  exists s1, @exec _ _ (weather_component g) s [GeoFailure] = Some s1 /\ inflight s1 <> [].
Proof.
  intros Hg. exists (fetchWeather (setGeoPending s (pred (geoPending s))) (Some "Delhi") None None).
  split; [wstep; by destruct (geoPending s)|].
  apply city_inflight, delhi_nonempty.
Qed.

(** From a loading state, the pending effect and position lookup lead to
    a request in flight. *)
Lemma loading_leads_to_request g s :
  wf s = true -> loading s = true ->
  exists es s1, @exec _ _ (weather_component g) s es = Some s1 /\ inflight s1 <> [].
Proof.
  destruct s as [w ld er se qu geo ep gp fl nid]. unfold wf. cbn. intros Hw ->.
  destruct fl as [|q fl]; [|by exists [], (mkState w true er se qu geo ep gp (q :: fl) nid)].
  destruct gp as [|gp]; [|destruct (geo_failure_starts g (mkState w true er se qu geo ep (S gp) [] nid)) as (s1 & Hx & Hf); [done|by exists [GeoFailure], s1]].
  destruct ep; [|done]. unfold runEffect.
  set (s0 := mkState w true er se qu geo true 0 [] nid).
  destruct (decide (qu = "")) as [Hq|Hq].
  - destruct geo.
    + destruct (geo_failure_starts g (runEffect s0)) as (s1 & Hx & Hf).
      { unfold runEffect, s0. cbn [query hasGeolocation]. by rewrite Hq, bool_decide_false by (intros C; by apply C). }
      exists (RunEffect :: [GeoFailure]), s1. split; [|done].
      rewrite exec_cons by done. exact Hx.
    + exists [RunEffect], (runEffect s0). split; [done|].
      unfold runEffect, s0. cbn [query hasGeolocation]. rewrite Hq, bool_decide_false by (intros C; by apply C).
      apply city_inflight, delhi_nonempty.
  - exists [RunEffect], (runEffect s0). split; [done|].
    unfold runEffect, s0. cbn [query hasGeolocation]. rewrite bool_decide_true by done. by apply city_inflight.
Qed.

(** ** Properties *)

(** C26 (error): an HTTP response outside 200-299 makes the widget show
    the error screen with "Failed to fetch weather: <status> <statusText> -
    <body>" and no snapshot, whatever the body holds, and the request
    leaves the set in flight; a successful response whose body has a
    [sys] object but no [main] object fails while the snapshot is built,
    and the error screen shows the [TypeError] of reading [temp] of
    [undefined], the previous snapshot being kept in the state but not
    shown. *)
Theorem weather_http_error :
  (forall s id status st body parsed,
   httpOk status = false ->
   let s' := fetchResolve s id (Http status st body parsed) in
   render s' = ErrorScreen (String.append "Failed to fetch weather: "
                 (String.append (js_int_to_string status)
                   (String.append " " (String.append st (String.append " - " body))))) /\
   inflight s' = filter (fun q => reqId q <> id) (inflight s)) /\
  (forall s id status st body fs,
   httpOk status = true ->
   assoc "sys" fs <> JUndefined -> assoc "sys" fs <> JNull -> assoc "main" fs = JUndefined ->
   let s' := fetchResolve s id (Http status st body (inr (JObj fs))) in
   render s' = ErrorScreen "Cannot read properties of undefined (reading 'temp')" /\
   weather s' = weather s).
Proof.
  split.
  - intros s id status st body parsed Hok. unfold fetchResolve, fetchOutcome. rewrite Hok. cbn.
    unfold render. cbn. by rewrite bool_decide_false.
  - intros s id status st body fs Hok Hsys1 Hsys2 Hmain. unfold fetchResolve, fetchOutcome.
    rewrite Hok. cbn [negb buildWeather getProp bind]. rewrite Hmain.
    destruct (assoc "sys" fs); try done; cbn; unfold render; by rewrite bool_decide_false.
Qed.

Lemma weather_http_error_witness :
  (let s' := fetchResolve (init false) 0 (Http 404 "Not Found" "{}" (inr (JObj []))) in
   render s' = ErrorScreen (String.append "Failed to fetch weather: "
                 (String.append (js_int_to_string 404)
                   (String.append " " (String.append "Not Found" (String.append " - " "{}"))))) /\
   inflight s' = filter (fun q => reqId q <> 0%nat) (inflight (init false))) /\
  (let s' := fetchResolve (init false) 0
               (Http 200 "OK" "" (inr (JObj [("name", JStr "Delhi"); ("sys", JObj [])]))) in
   render s' = ErrorScreen "Cannot read properties of undefined (reading 'temp')" /\
   weather s' = weather (init false)).
Proof.
  split; [apply weather_http_error; reflexivity|].
  apply weather_http_error; discriminate || reflexivity.
Defined.

(** C28 (functional): the [[query]] effect requests the searched city
    when the query is not empty, else asks for the position when the
    Geolocation API exists (one more position request pending), else
    requests Delhi; the position callback requests its coordinates and
    the error callback requests Delhi.  Every
    branch starts exactly one lookup, so the "No location provided" branch
    of [fetchWeather] is never taken from these call sites. *)
Theorem weather_source_priority s la lo :
  lastUrl (runEffect s) =
    (if bool_decide (query s <> "") then Some (cityUrl (query s))
     else if hasGeolocation s then lastUrl s else Some (cityUrl "Delhi")) /\
  geoPending (runEffect s) =
    (if bool_decide (query s = "") && hasGeolocation s then S (geoPending s) else geoPending s) /\
  lastUrl (handle s (GeoSuccess la lo)) = Some (coordsUrl la lo) /\
  lastUrl (handle s GeoFailure) = Some (cityUrl "Delhi").
Proof.
  unfold lastUrl. cbn [handle]. rewrite fetchWeather_coords, fetchWeather_city by done.
  cbn [inflight setGeoPending]. rewrite !last_snoc. split_and!; try done.
  - unfold runEffect. destruct (decide (query s = "")) as [Hq|Hq].
    + rewrite bool_decide_false by (intros C; by apply C).
      destruct (hasGeolocation s); [done|].
      rewrite fetchWeather_city by done. cbn. by rewrite last_snoc.
    + rewrite bool_decide_true, fetchWeather_city by done. cbn. by rewrite last_snoc.
  - unfold runEffect. destruct (decide (query s = "")) as [Hq|Hq].
    + rewrite bool_decide_false by (intros C; by apply C). rewrite bool_decide_true by done.
      destruct (hasGeolocation s); [done|].
      by rewrite fetchWeather_city by done.
    + by rewrite bool_decide_true, bool_decide_false, fetchWeather_city by done.
Qed.

(** C29 (invariant): in every state the widget reaches, the loading
    screen is shown only while the effect, a position lookup or a request
    is still pending. *)
Theorem weather_invariant geo s :
  @reachable _ _ (weather_component geo) s -> wf s = true.
Proof.
  apply (@reachable_inv _ _ (weather_component geo) (fun s => wf s = true));
    [reflexivity | intros s' e H He; by apply weather_wf_handle].
Qed.

Lemma weather_invariant_witness :
  wf (fetchWeather (clearEffect (init false)) (Some "Delhi") None None) = true.
Proof.
  apply (weather_invariant false).
  apply (@reachable_exec _ _ (weather_component false) [RunEffect]). reflexivity.
Defined.

(** C30 (liveness): from every state satisfying the invariant there is a
    run of deliverable events (the effect, a failed position lookup, a
    failed request) after which the loading screen is gone. *)
Theorem weather_loading_ends g s :
  wf s = true ->
  exists es s', @exec _ _ (weather_component g) s es = Some s' /\ loading s' = false.
Proof.
  intros Hw. destruct (loading s) eqn:Hl; [|by exists [], s].
  destruct (loading_leads_to_request g s Hw Hl) as (es & s1 & Hx & Hf).
  destruct (inflight s1) as [|q rest] eqn:Hq; [done|].
  set (r := NetworkFailure "Failed to fetch").
  exists (es ++ [FetchDone (reqId q) r]), (fetchResolve s1 (reqId q) r).
  split; [|apply fetchResolve_loading].
  rewrite exec_app, Hx, exec_cons; [done|]. exact (enabled_head s1 q rest r Hq).
Qed.

Lemma weather_loading_ends_witness :
  exists es s', @exec _ _ (weather_component true) (init true) es = Some s' /\ loading s' = false.
Proof. apply weather_loading_ends. reflexivity. Defined.

(** A successful response carrying [owmBody] for a city. *)
Definition okResponse (name : string) : response :=
  Http 200 "OK" "" (inr (owmBody name "IN" (mkDec 30 0) (mkDec 40 0) (mkDec 5 0) "Clear" "01d")).

(** The session of the race: the first lookup by position, a search for
    Paris, a search cleared (the effect asks for the position again, with
    the form still shown), a search for London, then the position arrives
    and its response settles after London's. *)
Definition raceRun : list event :=
  [RunEffect; GeoSuccess (mkDec 286 1) (mkDec 772 1); FetchDone 0 (okResponse "Delhi");
   SearchInput "Paris"; SearchSubmit; RunEffect; FetchDone 1 (okResponse "Paris");
   SearchInput ""; SearchSubmit; RunEffect;
   SearchInput "London"; SearchSubmit; RunEffect;
   GeoSuccess (mkDec 286 1) (mkDec 772 1);
   FetchDone 2 (okResponse "London"); FetchDone 3 (okResponse "Delhi")].

(** C31 (safety, a finding): nothing ties a response to the query that
    issued it.  From any state, let a request [q] be in flight and another
    request settle first with a snapshot: [q] is still deliverable, and
    when its response carries a snapshot too, that snapshot is the one
    shown, whatever URL [q] was started for and whatever the query is
    now; the loading screen is gone and, when no error was showing, the
    main screen shows it.  The last response to settle wins, not the one
    of the current query. *)
Theorem weather_stale_response s q j rq rj wq wj :
  q ∈ inflight s -> reqId q <> j ->
  fetchOutcome rj = Ok wj -> fetchOutcome rq = Ok wq ->
  enabled (fetchResolve s j rj) (FetchDone (reqId q) rq) = true /\
  weather (fetchResolve (fetchResolve s j rj) (reqId q) rq) = Some wq /\
  query (fetchResolve (fetchResolve s j rj) (reqId q) rq) = query s /\
  loading (fetchResolve (fetchResolve s j rj) (reqId q) rq) = false /\
  (error s = None -> render (fetchResolve (fetchResolve s j rj) (reqId q) rq) = MainScreen (Some wq)).
Proof.
  intros Hq Hj Hrj Hrq. unfold fetchResolve. rewrite Hrj, Hrq. cbn.
  split_and!; [|done..|by intros ->].
  apply bool_decide_eq_true, Exists_exists. exists q. by rewrite list_elem_of_filter.
Qed.

(** The session [raceRun] up to the position answer: the query is
    "London", London's request (number 2) and the position's (number 3)
    are in flight; London's settles first, then the position's, and the
    widget shows Delhi under the query "London". *)
Lemma weather_stale_response_witness :
  exists s, @exec _ _ (weather_component true) (init true) (take 14 raceRun) = Some s /\
    query s = "London" /\
    option_map location (weather (fetchResolve (fetchResolve s 2 (okResponse "London")) 3
                                    (okResponse "Delhi"))) = Some "Delhi, IN".
Proof.
  eexists. split; [vm_compute; reflexivity|]. split; [reflexivity|].
  lazymatch goal with
  | |- context [fetchResolve (fetchResolve ?s 2 _) 3 _] =>
      destruct (weather_stale_response s (mkRequest 3 (coordsUrl (mkDec 286 1) (mkDec 772 1))) 2
        (okResponse "Delhi") (okResponse "London")
        (mkWeather "Delhi, IN" (Some 30) (JStr "Clear") (JNum (mkDec 40 0)) (Some 5) (JStr "01d"))
        (mkWeather "London, IN" (Some 30) (JStr "Clear") (JNum (mkDec 40 0)) (Some 5) (JStr "01d")))
        as (_ & Hw & _);
        [vm_compute; by repeat constructor | discriminate | vm_compute; reflexivity..|]
  end.
  cbn [reqId] in Hw. rewrite Hw. reflexivity.
Defined.

(** C32 (safety, a finding): the error screen renders no search form, so
    once it shows with no effect, position lookup or request pending, no
    event is deliverable any more: every run from that state is empty and
    the widget stays on the error until it is unmounted. *)
Theorem weather_error_dead_end s m :
  render s = ErrorScreen m -> effectPending s = false -> geoPending s = 0%nat ->
  inflight s = [] ->
  forall g es s', @exec _ _ (weather_component g) s es = Some s' -> es = [] /\ s' = s.
Proof.
  intros Hr He Hg Hf g [|e es] s' Hx; [cbn in Hx; by simplify_eq|].
  exfalso. revert Hx. destruct e; wstep; unfold formShown;
    by rewrite ?He, ?Hg, ?Hf, ?Hr.
Qed.

Lemma weather_error_dead_end_witness :
  let s := fetchResolve (fetchWeather (clearEffect (init false)) (Some "Delhi") None None) 0
             (Http 401 "Unauthorized" "{}" (inr (JObj []))) in
  @exec _ _ (weather_component false) (init false)
    [RunEffect; FetchDone 0 (Http 401 "Unauthorized" "{}" (inr (JObj [])))] = Some s /\
  (forall es s', @exec _ _ (weather_component false) s es = Some s' -> es = [] /\ s' = s).
Proof.
  split; [reflexivity|].
  apply (weather_error_dead_end _
    "Failed to fetch weather: 401 Unauthorized - {}"); reflexivity.
Defined.

End Weather.
