(* ===== verification/WeatherView.v ===== *)
(** What the weather widget of [src/src/components/features/Weather.tsx]
    renders (lines 77-104 and 115-215): the loading and error screens,
    and on the main screen the snapshot's location, the date of the
    moment of rendering ([getCurrentDate], lines 106-113, through
    [Calendar.formatDate]), icon, temperature, condition, humidity and
    wind.  A JSX child is rendered the way React
    renders it: a string or a number as its text, [undefined], [null]
    and booleans as nothing, an array as its items, and a plain object not
    at all: React throws.  An exception while rendering is a value of the
    error monad of [JsValue].  The theorems: a well-formed response gives
    a snapshot of the declared [WeatherData] type and its rendered texts;
    every 2xx body whose [weather[0]] lacks [main] and [icon] makes the
    render throw. *)

From S2P Require Import Prelude JsRuntime JsValue Calendar Weather.

Module WeatherView.

Open Scope Z_scope.
Open Scope js_scope.

Import Weather.

(** ** Rendering values *)

(** React's error for a plain object as a child (its development build),
    with the object's keys. *)
Definition objectChildError (keys : list string) : jsError :=
  mkError "Error"
    (String.append "Objects are not valid as a React child (found: object with keys {"
      (String.append (foldr (fun k acc => if bool_decide (acc = "") then k
                                          else String.append k (String.append ", " acc)) "" keys)
        "}). If you meant to render a collection of children, use an array instead.")).

(** The text React renders for a JSX child [{v}]. *)
Fixpoint reactText (v : jsval) : result string :=
  match v with
  | JUndefined | JNull | JBool _ => Ok ""
  | JNum d => Ok (number_to_string d)
  | JStr s => Ok s
  | JArr l =>
      (fix items (l : list jsval) : result string :=
         match l with
         | [] => Ok ""
         | x :: l' => a <- reactText x ;; b <- items l' ;; Ok (String.append a b)
         end) l
  | JObj fs => Throw (objectChildError (map fst fs))
  end.

(** A number child: its [String] form, [NaN] for NaN. *)
Definition numberText (n : option Z) : string :=
  match n with Some z => js_int_to_string z | None => "NaN" end.

(** An attribute value ([alt={condition}]): omitted for [undefined],
    [null] and booleans, else its string form. *)
Definition attrText (v : jsval) : option string :=
  match v with
  | JUndefined | JNull | JBool _ => None
  | _ => Some (toString v)
  end.

(** [ToBoolean]. *)
Definition truthy (v : jsval) : bool :=
  match v with
  | JUndefined | JNull => false
  | JBool b => b
  | JNum d => negb (mant d =? 0)
  | JStr s => negb (bool_decide (s = ""))
  | JArr _ | JObj _ => true
  end.

(** [String.prototype.toLowerCase] on ASCII letters. *)
Definition lowerChar (c : ascii) : ascii :=
  let n := nat_of_ascii c in
  if bool_decide (65 <= n <= 90)%nat then ascii_of_nat (n + 32) else c.

(** [condition.toLowerCase()]: a [TypeError] unless [condition] is a
    string. *)
Definition toLowerCase (v : jsval) : result string :=
  match v with
  | JStr s => Ok (string_of_list_ascii (map lowerChar (list_ascii_of_string s)))
  | JUndefined => Throw (readError "undefined" "toLowerCase")
  | JNull => Throw (readError "null" "toLowerCase")
  | _ => Throw (mkError "TypeError" "condition.toLowerCase is not a function")
  end.

(** ** The icon *)

Inductive weatherIcon :=
| IconImg (src : string) (alt : option string)
| SunIcon
| CloudIcon
| CloudRainIcon
| CloudSnowIcon.

(** [getWeatherIcon] (lines 77-104). *)
Definition getWeatherIcon (ic condition : jsval) : result weatherIcon :=
  if truthy ic then
    Ok (IconImg (String.append "https://openweathermap.org/img/wn/"
                   (String.append (toString ic) "@4x.png"))
                (attrText condition))
  else
    c <- toLowerCase condition ;;
    Ok (if String.eqb c "sunny" || String.eqb c "clear" then SunIcon
        else if String.eqb c "partly cloudy" || String.eqb c "cloudy" then CloudIcon
        else if String.eqb c "rainy" || String.eqb c "rain" then CloudRainIcon
        else if String.eqb c "snowy" || String.eqb c "snow" then CloudSnowIcon
        else CloudIcon).

(** ** The screens *)

(** The bytes after [{weather.temperature}] on line 190: C3 82 C2 B0 43,
    the UTF-8 encoding of A-circumflex, degree sign, C: a degree sign
    encoded twice. *)
Definition degreeSuffix : string :=
  String (ascii_of_nat 195) (String (ascii_of_nat 130)
    (String (ascii_of_nat 194) (String (ascii_of_nat 176) "C"))).

(** [getCurrentDate] (lines 106-113): the long date of the clock at the
    moment of rendering. *)
Definition getCurrentDate (now : Z) : option string := Calendar.formatDate now.

(** The texts and the icon of the snapshot block (lines 169-215). *)
Record snapshotView := mkSnapshotView {
  locationText : string;
  dateLine : option string;
  iconView : weatherIcon;
  temperatureText : string;
  conditionText : string;
  humidityText : string;
  windText : string
}.

(** The snapshot block rendered at the local time [now]: the date and the
    icon are computed while the JSX is built, in that order, the children
    are rendered afterwards, in order. *)
Definition renderSnapshot (now : Z) (w : weatherData) : result snapshotView :=
  let dt := getCurrentDate now in
  i <- getWeatherIcon (icon w) (condition w) ;;
  c <- reactText (condition w) ;;
  h <- reactText (humidity w) ;;
  Ok (mkSnapshotView (location w) dt i
        (String.append (numberText (temperature w)) degreeSuffix)
        c (String.append h "%") (String.append (numberText (windSpeed w)) " km/h")).

Inductive page :=
| LoadingPage                        (** lines 115-124 *)
| ErrorPage (msg : string)           (** lines 126-135 *)
| MainPage (snap : option snapshotView).  (** lines 137-218 *)

(** The widget's returned JSX, rendered at the local time [now]. *)
Definition view (now : Z) (s : state) : result page :=
  match render s with
  | LoadingScreen => Ok LoadingPage
  | ErrorScreen msg => Ok (ErrorPage msg)
  | MainScreen None => Ok (MainPage None)
  | MainScreen (Some w) => v <- renderSnapshot now w ;; Ok (MainPage (Some v))
  end.

(** ** Specification-side helpers *)

(** The [WeatherData] interface (lines 4-11): the two rounded values are
    numbers (not NaN), [condition] and [icon] are strings, [humidity] a
    number. *)
Definition wdTyped (w : weatherData) : bool :=
  bool_decide (temperature w <> None) && bool_decide (windSpeed w <> None) &&
  match condition w with JStr _ => true | _ => false end &&
  match humidity w with JNum _ => true | _ => false end &&
  match icon w with JStr _ => true | _ => false end.

(** ** Properties *)

(** C25 (type): a 2xx response whose body has the shape the OpenWeather
    API documents yields a snapshot of the declared [WeatherData] type,
    and with no error showing the main screen renders it at any local time
    [now]: "name, country", the long date of [now], the
    OpenWeather icon with the condition as its alternative text, the
    rounded temperature followed by the bytes of A-circumflex, degree sign
    and C, the condition,
    the humidity with "%" and the rounded wind speed with " km/h". *)
Theorem weather_snapshot_typed s id status st body name country temp hum wind cond ic now :
  httpOk status = true -> error s = None -> ic <> "" ->
  let w := mkWeather (String.append name (String.append ", " country))
             (Some (mathRound temp)) (JStr cond) (JNum hum) (Some (mathRound wind)) (JStr ic) in
  let s' := fetchResolve s id (Http status st body (inr (owmBody name country temp hum wind cond ic))) in
  weather s' = Some w /\ wdTyped w = true /\
  view now s' = Ok (MainPage (Some (mkSnapshotView (String.append name (String.append ", " country))
                  (Calendar.formatDate now) (IconImg (String.append "https://openweathermap.org/img/wn/"
                              (String.append ic "@4x.png")) (Some cond))
                  (String.append (js_int_to_string (mathRound temp)) degreeSuffix)
                  cond (String.append (number_to_string hum) "%")
                  (String.append (js_int_to_string (mathRound wind)) " km/h")))).
Proof.
  intros Hok He Hic w s'.
  assert (Hs : fetchResolve s id (Http status st body (inr (owmBody name country temp hum wind cond ic)))
               = mkState (Some w) false (error s) (search s) (query s) (hasGeolocation s)
                   (effectPending s) (geoPending s) (filter (fun q => reqId q <> id) (inflight s)) (nextId s)).
  { unfold fetchResolve, fetchOutcome. by rewrite Hok. }
  unfold s'. rewrite Hs. split_and!; [done | done |].
  unfold view, render. cbn [loading error weather]. rewrite He.
  unfold renderSnapshot, getCurrentDate, getWeatherIcon, w. cbn [truthy icon condition humidity].
  rewrite bool_decide_false by done. reflexivity.
Qed.

Lemma weather_snapshot_typed_witness :
  let w := mkWeather (String.append "Delhi" (String.append ", " "IN"))
             (Some (mathRound (mkDec 30 0))) (JStr "Clear") (JNum (mkDec 40 0))
             (Some (mathRound (mkDec 5 0))) (JStr "01d") in
  let s' := fetchResolve (init false) 0
              (Http 200 "OK" "" (inr (owmBody "Delhi" "IN" (mkDec 30 0) (mkDec 40 0) (mkDec 5 0) "Clear" "01d"))) in
  weather s' = Some w /\ wdTyped w = true /\
  view 1704112496000 s' = Ok (MainPage (Some (mkSnapshotView (String.append "Delhi" (String.append ", " "IN"))
                  (Calendar.formatDate 1704112496000) (IconImg (String.append "https://openweathermap.org/img/wn/"
                              (String.append "01d" "@4x.png")) (Some "Clear"))
                  (String.append (js_int_to_string (mathRound (mkDec 30 0))) degreeSuffix)
                  "Clear" (String.append (number_to_string (mkDec 40 0)) "%")
                  (String.append (js_int_to_string (mathRound (mkDec 5 0))) " km/h")))).
Proof. apply weather_snapshot_typed; [reflexivity | reflexivity | discriminate]. Defined.

(** A 2xx body with every object the code reads from: [name], [sys],
    [main] and [wind] as given, and a [weather] array whose first entry
    is the object [w0]. *)
Definition partialBody (nm : jsval) (sy m : list (string * jsval)) (w0 : list (string * jsval))
    (rest : list jsval) (wd : list (string * jsval)) : jsval :=
  JObj [("name", nm); ("sys", JObj sy); ("main", JObj m);
        ("weather", JArr (JObj w0 :: rest)); ("wind", JObj wd)].

(** C24 (safety, a finding): nothing checks the response against the
    [WeatherData] interface.  For every 2xx body that has all the objects
    the code reads from but whose [weather[0]] lacks [main] and [icon],
    the snapshot is stored (with [undefined] condition and icon) and no
    error is set; rendering the main screen then calls
    [condition.toLowerCase()] on [undefined] and throws, so the widget
    (and, without an error boundary, the whole application) fails to
    render instead of showing an error. *)
Theorem weather_render_crash s id status st body nm sy m w0 rest wd now :
  httpOk status = true -> assoc "main" w0 = JUndefined -> assoc "icon" w0 = JUndefined ->
  (exists w, weather (fetchResolve s id (Http status st body (inr (partialBody nm sy m w0 rest wd)))) = Some w /\
     condition w = JUndefined /\ icon w = JUndefined) /\
  error (fetchResolve s id (Http status st body (inr (partialBody nm sy m w0 rest wd)))) = error s /\
  (error s = None ->
   view now (fetchResolve s id (Http status st body (inr (partialBody nm sy m w0 rest wd)))) =
     Throw (readError "undefined" "toLowerCase")).
Proof.
  intros Hok Hm Hi. unfold fetchResolve, fetchOutcome. rewrite Hok. cbn.
  rewrite Hm, Hi. cbn. split_and!; [by eexists | done |].
  intros He. unfold view, render. cbn. by rewrite He.
Qed.

(** The body with [weather: [{}]], [wind: {}] and no humidity. *)
Definition sparseBody : jsval :=
  partialBody (JStr "Delhi") [("country", JStr "IN")] [("temp", JNum (mkDec 30 0))] [] [] [].

Lemma weather_render_crash_witness :
  exists s, @exec _ _ (weather_component false) (init false)
              [RunEffect; FetchDone 0 (Http 200 "OK" "" (inr sparseBody))] = Some s /\
    error s = None /\ view 1704112496000 s = Throw (readError "undefined" "toLowerCase").
Proof.
  eexists. split; [vm_compute; reflexivity|].
  destruct (weather_render_crash (fetchWeather (clearEffect (init false)) (Some "Delhi") None None) 0
    200 "OK" "" (JStr "Delhi") [("country", JStr "IN")] [("temp", JNum (mkDec 30 0))] [] [] []
    1704112496000) as (_ & He & Hv); [reflexivity..|].
  split; [exact He|]. by apply Hv.
Defined.

End WeatherView.
