(* ===== verification/Dispatcher.v ===== *)
(** The view dispatcher of [src/src/components/OrientationApp.tsx]
    composed with the widget it mounts: the orientation shell of
    [Orientation] and the state of the one widget [renderCurrentView]
    returns.  React keeps a child's state while the same component is
    rendered at the same place and unmounts it (state and intervals
    discarded) when the component changes; a remounted widget starts from
    its initial state.  The theorem: from any state, a shell event that
    shows another view followed by one that shows the first view again
    remounts that view's widget, so an armed alarm or a running
    stopwatch is lost. *)

From S2P Require Import Prelude JsRuntime JsValue Timer Stopwatch Alarm Orientation Weather.

Module Dispatcher.

Open Scope Z_scope.

Import Orientation.

(** ** The composed state *)

(** The widget mounted by [renderCurrentView] (lines 99-112) with its
    state. *)
Inductive widget :=
| WAlarm (a : Alarm.state)
| WStopwatch (sw : Stopwatch.state)
| WTimer (t : Timer.state)
| WWeather (w : Weather.state).

Definition widgetView (w : widget) : view :=
  match w with
  | WAlarm _ => AlarmView
  | WStopwatch _ => StopwatchView
  | WTimer _ => TimerView
  | WWeather _ => WeatherView
  end.

Record state := mkState { shell : Orientation.state; child : widget }.

Inductive event :=
| ShellEvent (e : Orientation.event)
| AlarmEvent (e : Alarm.event)
| StopwatchEvent (e : Stopwatch.event)
| TimerEvent (e : Timer.event)
| WeatherEvent (e : Weather.event).

Section Dispatch.

(** The wall-clock time at event-loop time 0, whether the Notification
    API exists and its permission, whether the Geolocation API exists. *)
Context (epoch : Z) (api : bool) (perm : Alarm.permission) (geo : bool).

(** A freshly mounted widget for a view, mounted at event-loop time [tm]. *)
Definition mountWidget (v : view) (tm : Z) : widget :=
  match v with
  | AlarmView => WAlarm (Alarm.init (epoch + tm) api perm)
  | StopwatchView => WStopwatch Stopwatch.init
  | TimerView => WTimer Timer.init
  | WeatherView => WWeather (Weather.init geo)
  end.

(** React's reconciliation of [{renderCurrentView()}] (line 132): the
    same component keeps its state, another one is mounted afresh. *)
Definition reconcile (w : widget) (v : view) (tm : Z) : widget :=
  if decide (widgetView w = v) then w else mountWidget v tm.

(** The first render shows the alarm clock (the initial orientation is
    ['portrait-primary']). *)
Definition init : state :=
  mkState Orientation.init (mountWidget (renderCurrentView (orientation Orientation.init)) 0).

Definition enabled (s : state) (e : event) : bool :=
  match e, child s with
  | ShellEvent e, _ => Orientation.enabled (shell s) e
  | AlarmEvent e, WAlarm a => Alarm.enabled a e
  | StopwatchEvent e, WStopwatch sw => Stopwatch.enabled sw e
  | TimerEvent e, WTimer t => Timer.enabled t e
  | WeatherEvent e, WWeather w => Weather.enabled w e
  | _, _ => false
  end.

Definition handle (s : state) (e : event) : state :=
  match e, child s with
  | ShellEvent e, w =>
      let sh := Orientation.handle (shell s) e in
      mkState sh (reconcile w (renderCurrentView (orientation sh)) (now sh))
  | AlarmEvent e, WAlarm a => mkState (shell s) (WAlarm (Alarm.handle a e))
  | StopwatchEvent e, WStopwatch sw => mkState (shell s) (WStopwatch (Stopwatch.handle sw e))
  | TimerEvent e, WTimer t => mkState (shell s) (WTimer (Timer.handle t e))
  | WeatherEvent e, WWeather w => mkState (shell s) (WWeather (Weather.handle w e))
  | _, _ => s
  end.

Definition dispatcher_component : Component state event :=
  {| c_init := init; c_enabled := enabled; c_handle := handle |}.

End Dispatch.

(** ** Lemmas *)

Section DispatchProofs.

Context (epoch : Z) (api : bool) (perm : Alarm.permission) (geo : bool).

Lemma mountWidget_view v tm : widgetView (mountWidget epoch api perm geo v tm) = v.
Proof. by destruct v. Qed.

(** A shell event that leaves the view the mounted widget renders remounts
    the widget of the new view. *)
Lemma handle_shell_remounts s e :
  renderCurrentView (orientation (shell (handle epoch api perm geo s (ShellEvent e)))) <>
    widgetView (child s) ->
  child (handle epoch api perm geo s (ShellEvent e)) =
    mountWidget epoch api perm geo
      (renderCurrentView (orientation (shell (handle epoch api perm geo s (ShellEvent e)))))
      (now (shell (handle epoch api perm geo s (ShellEvent e)))).
Proof. intros Hv. cbn -[reconcile] in *. unfold reconcile. by rewrite decide_False by congruence. Qed.

End DispatchProofs.

(** ** Properties *)

(** A session on a phone without sensors: mount in portrait (alarm), arm
    an alarm, rotate to landscape (stopwatch), start it and record a lap,
    rotate back to portrait, then to landscape again. *)
Definition rotateRun : list event :=
  [ShellEvent (Mount 0 (mkScreen None 400 800) false); ShellEvent TransitionTimeout;
   AlarmEvent (Alarm.InputChange "07:30"); AlarmEvent Alarm.SetAlarm;
   ShellEvent (ScreenChange 1000 (mkScreen None 800 400)); ShellEvent TransitionTimeout;
   StopwatchEvent Stopwatch.StartPause; StopwatchEvent Stopwatch.Tick; StopwatchEvent Stopwatch.Lap;
   ShellEvent (ScreenChange 2000 (mkScreen None 400 800)); ShellEvent TransitionTimeout;
   ShellEvent (ScreenChange 3000 (mkScreen None 800 400))].

(** C33 (functional): switching views discards the unmounted widget's
    state.  From any state, if one shell event (an orientation or screen
    change, a tilt reading, a timeout) shows another view and a second
    one shows the first view again, the widget of that view is mounted
    afresh at the time of the second event: an armed alarm comes back
    unarmed with an empty time input, and a stopwatch, running or not,
    comes back at zero, paused and with no laps. *)
Theorem dispatch_rotation_discards epoch api perm geo s e1 e2 :
  renderCurrentView (orientation (shell (handle epoch api perm geo s (ShellEvent e1)))) <>
    widgetView (child s) ->
  renderCurrentView (orientation (shell (handle epoch api perm geo
      (handle epoch api perm geo s (ShellEvent e1)) (ShellEvent e2)))) = widgetView (child s) ->
  child (handle epoch api perm geo (handle epoch api perm geo s (ShellEvent e1)) (ShellEvent e2)) =
    mountWidget epoch api perm geo (widgetView (child s))
      (now (shell (handle epoch api perm geo (handle epoch api perm geo s (ShellEvent e1)) (ShellEvent e2)))) /\
  (forall a, child s = WAlarm a ->
     exists a', child (handle epoch api perm geo (handle epoch api perm geo s (ShellEvent e1)) (ShellEvent e2)) =
       WAlarm a' /\ Alarm.isAlarmSet a' = false /\ Alarm.alarmTime a' = "") /\
  (forall sw, child s = WStopwatch sw ->
     child (handle epoch api perm geo (handle epoch api perm geo s (ShellEvent e1)) (ShellEvent e2)) =
       WStopwatch (Stopwatch.mkState 0 false [])).
Proof.
  intros H1 H2.
  assert (Hc : child (handle epoch api perm geo (handle epoch api perm geo s (ShellEvent e1)) (ShellEvent e2)) =
    mountWidget epoch api perm geo (widgetView (child s))
      (now (shell (handle epoch api perm geo (handle epoch api perm geo s (ShellEvent e1)) (ShellEvent e2))))).
  { rewrite handle_shell_remounts, H2; [done|].
    rewrite handle_shell_remounts, mountWidget_view by done. congruence. }
  split_and!; [exact Hc| |]; intros ? Hs; rewrite Hc, Hs; [by eexists|done].
Qed.

Lemma dispatch_rotation_discards_witness :
  exists s, @exec _ _ (dispatcher_component 0 false Alarm.Default false)
              (init 0 false Alarm.Default false) (take 4 rotateRun) = Some s /\
    (exists a, child s = WAlarm a /\ Alarm.isAlarmSet a = true) /\
    exists a', child (handle 0 false Alarm.Default false
                 (handle 0 false Alarm.Default false s (ShellEvent (ScreenChange 1000 (mkScreen None 800 400))))
                 (ShellEvent (ScreenChange 2000 (mkScreen None 400 800)))) = WAlarm a' /\
      Alarm.isAlarmSet a' = false /\ Alarm.alarmTime a' = "".
Proof.
  eexists. split; [vm_compute; reflexivity|]. split; [eexists; split; reflexivity|].
  lazymatch goal with
  | |- context [handle _ _ _ _ ?s (ShellEvent (ScreenChange 1000 _))] =>
      destruct (dispatch_rotation_discards 0 false Alarm.Default false s
        (ScreenChange 1000 (mkScreen None 800 400)) (ScreenChange 2000 (mkScreen None 400 800)))
        as (_ & Ha & _); [vm_compute; discriminate|vm_compute; reflexivity|]
  end.
  eapply Ha. reflexivity.
Defined.

End Dispatcher.
