(* ===== verification/App.v ===== *)
(** The router of [src/src/App.tsx]: the route table of lines 59-67, the
    navigation bar of lines 17-22 and 45-57, and the page a location
    renders.  [<Routes>] matches a pathname the way react-router 6 does
    for static paths: each route path [p] is compiled to the pattern
    [^p/*$] with the case-insensitive flag, so the comparison ignores the
    case of ASCII letters and any number of trailing slashes; a static
    route outranks the catch-all ["*"], which takes every other path.
    [location.pathname] is percent-encoded ASCII, so folding ASCII case is
    all the [i] flag does here.  The theorem: each link of the navigation
    bar renders the widget it is labelled with, the four links cover the
    four widgets once each, the match ignores case and trailing slashes,
    and exactly the paths outside the table render [NotFound]. *)

From S2P Require Import Prelude Orientation.

Module App.

(** The elements of the routes. *)
Inductive page :=
| IndexPage
| WidgetPage (v : Orientation.view)
| NotFoundPage.

#[export] Instance page_eq_dec : EqDecision page.
Proof. pose proof Orientation.view_eq_dec. solve_decision. Defined.

(** [<Routes>] (lines 59-67) without the catch-all. *)
Definition routes : list (string * page) :=
  [("/", IndexPage);
   ("/alarm", WidgetPage Orientation.AlarmView);
   ("/stopwatch", WidgetPage Orientation.StopwatchView);
   ("/timer", WidgetPage Orientation.TimerView);
   ("/weather", WidgetPage Orientation.WeatherView)].

(** [navLinks] (lines 17-22): the label and the path of each link. *)
Definition navLinks : list (string * string) :=
  [("Alarm", "/alarm"); ("Stopwatch", "/stopwatch"); ("Timer", "/timer");
   ("Weather", "/weather")].

(** The navigation bar (lines 45-57): one [<Link to={link.path}>] per
    entry, showing [link.name]. *)
Definition navBar : list (string * string) := map (fun link => (link.2, link.1)) navLinks.

(** ASCII case folding, as the [i] flag applies it. *)
Definition lower_ascii (c : ascii) : ascii :=
  let n := nat_of_ascii c in
  if bool_decide (65 <= n <= 90)%nat then ascii_of_nat (n + 32) else c.

(** The trailing slashes the pattern's [/*$] absorbs, read from the end. *)
Fixpoint dropSlashes (l : list ascii) : list ascii :=
  match l with
  | c :: t => if bool_decide (c = "/"%char) then dropSlashes t else l
  | [] => []
  end.

(** What the compiled pattern compares: the path without its trailing
    slashes, case folded. *)
Definition pathKey (p : string) : list ascii :=
  map lower_ascii (rev (dropSlashes (rev (list_ascii_of_string p)))).

(** The page rendered at a pathname: the static route it matches, else the
    catch-all [<NotFound />] (line 66). *)
Definition matchRoute (path : string) : page :=
  match list_find (fun r => pathKey r.1 = pathKey path) routes with
  | Some (_, r) => r.2
  | None => NotFoundPage
  end.

(** The name a widget view is shown under. *)
Definition viewName (v : Orientation.view) : string :=
  match v with
  | Orientation.AlarmView => "Alarm"
  | Orientation.StopwatchView => "Stopwatch"
  | Orientation.TimerView => "Timer"
  | Orientation.WeatherView => "Weather"
  end.

(** ASCII upper-casing, to state that the match ignores case. *)
Definition upper_ascii (c : ascii) : ascii :=
  let n := nat_of_ascii c in
  if bool_decide (97 <= n <= 122)%nat then ascii_of_nat (n - 32) else c.

Definition upper (s : string) : string :=
  string_of_list_ascii (map upper_ascii (list_ascii_of_string s)).

(** ** Lemmas *)

Lemma lower_upper_ascii c : lower_ascii (upper_ascii c) = lower_ascii c.
Proof. destruct c as [[] [] [] [] [] [] [] []]; reflexivity. Qed.

(** Upper-casing keeps slashes where they are. *)
Lemma upper_ascii_slash c : bool_decide (upper_ascii c = "/"%char) = bool_decide (c = "/"%char).
Proof. destruct c as [[] [] [] [] [] [] [] []]; reflexivity. Qed.

Lemma dropSlashes_upper l : dropSlashes (map upper_ascii l) = map upper_ascii (dropSlashes l).
Proof. induction l as [|c l IH]; [done|]. cbn. rewrite upper_ascii_slash. by destruct (bool_decide _). Qed.

Lemma pathKey_upper p : pathKey (upper p) = pathKey p.
Proof.
  unfold pathKey, upper. rewrite list_ascii_of_string_of_list_ascii, <- map_rev, dropSlashes_upper,
    <- map_rev, map_map. apply map_ext, lower_upper_ascii.
Qed.

Lemma pathKey_slash p : pathKey (String.append p "/") = pathKey p.
Proof.
  unfold pathKey. replace (list_ascii_of_string (String.append p "/"))
    with (list_ascii_of_string p ++ ["/"%char]).
  - by rewrite rev_app_distr.
  - induction p as [|c p IH]; [done|]. cbn. by rewrite IH.
Qed.

(** The routes' pages are never the catch-all's. *)
Lemma routes_not_found i r : routes !! i = Some r -> r.2 <> NotFoundPage.
Proof. intros H. repeat (destruct i as [|i]; simplify_eq/=; try done). Qed.

(** ** Properties *)

(** C34 (functional): each link of the navigation bar renders the widget
    it is labelled with, the four links reach the four widgets in the
    order alarm, stopwatch, timer, weather; the page a path renders does
    not depend on the case of its letters or on a trailing slash; and a
    path renders the not-found page exactly when, case folded and without
    its trailing slashes, it is none of the five paths of the table. *)
Theorem app_routes :
  Forall (fun l => exists v, matchRoute l.1 = WidgetPage v /\ viewName v = l.2) navBar /\
  map (fun l => matchRoute l.1) navBar =
    map WidgetPage [Orientation.AlarmView; Orientation.StopwatchView;
                    Orientation.TimerView; Orientation.WeatherView] /\
  (forall path, matchRoute (upper path) = matchRoute path /\
                matchRoute (String.append path "/") = matchRoute path) /\
  (forall path, matchRoute path = NotFoundPage <->
                pathKey path ∉ (fun r => pathKey r.1) <$> routes).
Proof.
  split_and!.
  - repeat constructor; eexists; split; reflexivity.
  - reflexivity.
  - intros path. unfold matchRoute. by rewrite pathKey_upper, pathKey_slash.
  - intros path. unfold matchRoute. split.
    + destruct (list_find _ routes) as [[i r]|] eqn:Hf.
      * apply list_find_Some in Hf as (Hi & _ & _). by apply routes_not_found in Hi.
      * intros _ Hin. apply list_find_None in Hf.
        apply list_elem_of_fmap in Hin as (r & Hr & Hin).
        rewrite Forall_forall in Hf. by apply (Hf _ Hin).
    + intros Hn. destruct (list_find _ routes) as [[i r]|] eqn:Hf; [|done].
      apply list_find_Some in Hf as (Hi & Hp & _).
      exfalso. apply Hn. apply list_elem_of_fmap. exists r.
      split; [done|]. by eapply list_elem_of_lookup_2.
Qed.

End App.
